(** * Context and session management of the AI collaboration MCP server

    A shallow embedding of the core classes of [src/index.ts]
    ([ProviderCallManager], [ConversationHistoryManager], [ContextManager]
    and [AICollaborationServer.retryWithBackoff]) together with the
    properties of the specification that concern them.  [index.ts] holds
    the server twice; the classes are taken from the first, workspace-aware
    text (lines 1-1622), and [truncateContext], [ProviderCallManager] and
    [retryWithBackoff] read the same in both.

    Conventions of the embedding.
    - A JavaScript [number] that holds a count, a length or an instant in
      milliseconds is a [Z].  All such values stay far below 2^53, where
      the arithmetic of doubles on integers is exact.
    - A [Date] is the [Z] of its [getTime()].  A method that reads the clock
      takes the instant as the argument [now]; each reading of the clock
      is an argument of its own.  What [setHours] makes of an instant
      depends on the time zone of the host, a [TimeZone].
    - A JavaScript string is a [string]; one character stands for one
      UTF-16 code unit (of the Latin-1 range), so [String.length] is the
      [length] property.
    - An object mutated in place is threaded through: a method returns the
      new state next to its result.
    - An [async] method is taken as one step: what it awaits (a file read
      or write, the operation that is retried) is an argument that says
      how the outside answered, and no other handler runs in between.
      The one call that is not awaited, [loadHistory()] in the constructor
      of [ConversationHistoryManager], is two steps: the constructor, and
      the rest of [loadHistory] once the file has been read.
    - Output on [console.error] is left out. *)

From Stdlib Require Import ZArith List String Ascii QArith Lia Lqa Sorted.
From Stdlib Require Import DecimalString.
From stdpp Require Import base gmap strings list.

Local Open Scope Z_scope.

(** ** Data model (interfaces of [index.ts]) *)

Record ConversationEntry := mkEntry {
  timestamp : Z;
  tool : string;
  provider : string;
  query : string;
  response : string;
  contextFiles : list string;
  tokenCount : Z
}.

Record ProviderCallTracker := mkTracker {
  tr_provider : string;
  calls : Z;
  lastReset : Z;
  maxCalls : Z
}.

(** The time zone of the host as [Date] uses it: the offset of the local
    time from UTC, in milliseconds, at an instant ([LocalTZA(t, true)] of
    ECMAScript) and for a local time ([LocalTZA(t, false)]). *)
Class TimeZone := mkTimeZone {
  offsetAt : Z -> Z;
  offsetOfLocal : Z -> Z
}.

Record ProjectContext := mkProjectContext {
  readme : string;
  packageJson : string;
  structure : string;
  lastUpdated : Z
}.

(** ** Strings and arrays of the JavaScript library

    The methods of [String.prototype] and [Array.prototype] that the
    classes below call, on strings of code units below 256. *)

Module Js.

Definition nl : string := String "010" "".

(** The [length] property. *)
Definition length (s : string) : Z := Z.of_nat (String.length s).

(** [toLowerCase]: the letters A-Z and the Latin-1 capitals 192-222
    (but the multiplication sign 215) move up by 32. *)
Definition toLowerCaseUnit (c : ascii) : ascii :=
  let n := N_of_ascii c in
  if (((65 <=? n) && (n <=? 90))
      || ((192 <=? n) && (n <=? 222) && negb (n =? 215)))%N
  then ascii_of_N (n + 32) else c.

Fixpoint toLowerCase (s : string) : string :=
  match s with
  | EmptyString => EmptyString
  | String c s' => String (toLowerCaseUnit c) (toLowerCase s')
  end.

(** [s.startsWith(t)] *)
Definition startsWith (s t : string) : bool := String.prefix t s.

(** [s.includes(t)] *)
Fixpoint includes (s t : string) : bool :=
  String.prefix t s
  || match s with
     | EmptyString => false
     | String _ s' => includes s' t
     end.

Fixpoint take (n : nat) (s : string) : string :=
  match n, s with
  | S n', String c s' => String c (take n' s')
  | _, _ => EmptyString
  end.

Fixpoint drop (n : nat) (s : string) : string :=
  match n, s with
  | S n', String _ s' => drop n' s'
  | _, _ => s
  end.

(** [s.slice(0, n)] for a count [n]. *)
Definition slice0 (s : string) (n : nat) : string := take n s.

(** [s.repeat(n)] *)
Fixpoint repeat (s : string) (n : nat) : string :=
  match n with
  | O => EmptyString
  | S n' => s +:+ repeat s n'
  end.

(** The first occurrence of [sep] in [s]: the text before it and the
    text after it. *)
Fixpoint find_sep (sep s : string) : option (string * string) :=
  if String.prefix sep s then Some (EmptyString, drop (String.length sep) s)
  else match s with
       | EmptyString => None
       | String c s' =>
           match find_sep sep s' with
           | Some (a, b) => Some (String c a, b)
           | None => None
           end
       end.

(** The loop of [split]: cut at the first separator and go on with the
    rest.  With a separator that is not empty the rest is shorter, so
    [String.length s] rounds are enough. *)
Fixpoint split_loop (fuel : nat) (s sep : string) : list string :=
  match fuel with
  | O => [s]
  | S fuel' =>
      match find_sep sep s with
      | None => [s]
      | Some (a, b) => a :: split_loop fuel' b sep
      end
  end.

(** [s.split(sep)] for a string [sep]; the empty separator cuts between
    all code units. *)
Definition split (s sep : string) : list string :=
  match sep with
  | EmptyString => map (fun c => String c EmptyString) (list_ascii_of_string s)
  | _ => split_loop (String.length s) s sep
  end.

(** The class [\s] of regular expressions, below 256: tab, line feed,
    vertical tab, form feed, carriage return, space, no-break space. *)
Definition isWhiteSpace (c : ascii) : bool :=
  let n := N_of_ascii c in
  (((9 <=? n) && (n <=? 13)) || (n =? 32) || (n =? 160))%N.

(** [s.split(/\s+/)]: [cur] is the piece being read, [inGap] says that
    the code unit before was white space. *)
Fixpoint split_ws_from (inGap : bool) (cur s : string) : list string :=
  match s with
  | EmptyString => [cur]
  | String c s' =>
      if isWhiteSpace c
      then (if inGap then split_ws_from true EmptyString s'
            else cur :: split_ws_from true EmptyString s')
      else split_ws_from false (cur +:+ String c EmptyString) s'
  end.

Definition split_whitespace (s : string) : list string :=
  split_ws_from false EmptyString s.

(** [a.join(sep)] *)
Definition join (a : list string) (sep : string) : string :=
  String.concat sep a.

(** [a.includes(x)] on an array of strings. *)
Definition array_includes (a : list string) (x : string) : bool :=
  existsb (String.eqb x) a.

(** [a.sort()] on strings: ascending by code units. *)
Fixpoint sort_insert (x : string) (a : list string) : list string :=
  match a with
  | [] => [x]
  | y :: a' => if String.leb x y then x :: a else y :: sort_insert x a'
  end.

Definition sort (a : list string) : list string :=
  foldr sort_insert [] a.

(** [x || d] on a string that may be [null]. *)
Definition or_else (x : option string) (d : string) : string :=
  match x with
  | Some EmptyString | None => d
  | Some s => s
  end.

(** [d.setHours(d.getHours() - h)] on the instant [d]: [setHours] takes
    the local time of [d], moves its hour field back by [h], and reads the
    result as a local time again. *)
Definition hoursBefore {tz : TimeZone} (h d : Z) : Z :=
  let local := d + offsetAt d - h * (60 * 60 * 1000) in
  local - offsetOfLocal local.

(** [s.endsWith(t)] *)
Definition endsWith (s t : string) : bool :=
  (String.length t <=? String.length s)%nat
  && String.eqb (drop (String.length s - String.length t) s) t.

(** [[...new Set(a)]] on strings: the first occurrence of each, in the
    order of [a]; [seen] holds what the set has already. *)
Fixpoint uniq_from (seen a : list string) : list string :=
  match a with
  | [] => []
  | x :: a' =>
      if array_includes seen x then uniq_from seen a'
      else x :: uniq_from (x :: seen) a'
  end.

Definition uniq (a : list string) : list string := uniq_from [] a.

(** The class [\w] of regular expressions: digits, letters A-Z and a-z,
    underscore. *)
Definition isWordChar (c : ascii) : bool :=
  let n := N_of_ascii c in
  (((48 <=? n) && (n <=? 57)) || ((65 <=? n) && (n <=? 90)) || (n =? 95)
   || ((97 <=? n) && (n <=? 122)))%N.

End Js.

(** The keys of the constant [AI_PROVIDERS], in declaration order. *)
Definition AI_PROVIDERS_keys : list string :=
  ["claude"; "gpt4"; "gemini"; "ollama"]%string.

(** ** class ConversationHistoryManager *)

(** The argument of [addEntry]: [Omit<ConversationEntry, 'timestamp'>]. *)
Record NewEntry := mkNewEntry {
  new_tool : string;
  new_provider : string;
  new_query : string;
  new_response : string;
  new_contextFiles : list string;
  new_tokenCount : Z
}.

(** What is on disk at [HISTORY_FILE]: nothing, something that cannot be
    read or parsed, or the JSON array of entries.  [JSON.stringify] writes
    a [Date] as its ISO string and [new Date(entry.timestamp)] reads that
    string back to the same instant, so a stored array is kept as the
    entries themselves. *)
Inductive HistoryFile :=
| NoFile
| Unreadable
| Stored (entries : list ConversationEntry).

Module ConversationHistoryManager.

Definition MAX_HISTORY_ENTRIES : Z := 20.
Definition MAX_AGE_HOURS : Z := 24.
Definition CONTEXT_FRESHNESS_HOURS : Z := 6.

(** The field [history], the file behind [HISTORY_FILE], the payloads
    handed to [fsPromises.writeFile] so far, the latest first, and whether
    [loadHistory] still waits for [readFile]. *)
Record state := mkState {
  history : list ConversationEntry;
  file : HistoryFile;
  writes : list (list ConversationEntry);
  loading : bool
}.

(** [persistHistory()]; [writeOk] tells whether [writeFile] succeeds.  A
    failure is logged and nothing else happens. *)
Definition persistHistory (writeOk : bool) (s : state) : state :=
  {| history := history s;
     file := if writeOk then Stored (history s) else file s;
     writes := history s :: writes s;
     loading := loading s |}.

(** [addEntry(entry)] at the instant [now]. *)
Definition addEntry (now : Z) (writeOk : bool) (entry : NewEntry)
           (s : state) : state :=
  let newEntry :=
    {| timestamp := now; tool := new_tool entry;
       provider := new_provider entry; query := new_query entry;
       response := new_response entry;
       contextFiles := new_contextFiles entry;
       tokenCount := new_tokenCount entry |} in
  let history1 := newEntry :: history s in
  let history2 :=
    if MAX_HISTORY_ENTRIES <? Z.of_nat (List.length history1)
    then firstn (Z.to_nat MAX_HISTORY_ENTRIES) history1
    else history1 in
  persistHistory writeOk
    {| history := history2; file := file s; writes := writes s;
       loading := loading s |}.

(** [getRecentHistory(limit)] at the instant [now]. *)
Definition getRecentHistory {tz : TimeZone} (now : Z) (limit : nat)
           (h : list ConversationEntry) : list ConversationEntry :=
  let freshnessCutoff := Js.hoursBefore CONTEXT_FRESHNESS_HOURS now in
  let freshEntries :=
    List.filter (fun entry => freshnessCutoff <? timestamp entry) h in
  firstn limit freshEntries.

Definition stopWords : list string :=
  ["that"; "this"; "with"; "from"; "they"; "were"; "been"; "have";
   "will"; "would"; "could"; "should"]%string.

Definition extractKeywords (text : string) : list string :=
  List.filter (fun word => negb (Js.array_includes stopWords word))
    (List.filter (fun word => 3 <? Js.length word)
       (Js.split_whitespace (Js.toLowerCase text))).

(** The quotient is a rational here.  The double of the source compares
    with 0.3 the same way as long as there are fewer than 2^50 keywords. *)
Definition calculateRelevance (content : string) (keywords : list string)
  : Q :=
  let contentLower := Js.toLowerCase content in
  let matches :=
    List.filter (fun keyword => Js.includes contentLower keyword) keywords in
  (inject_Z (Z.of_nat (List.length matches))
   / inject_Z (Z.max (Z.of_nat (List.length keywords)) 1))%Q.

(** The callback of the [filter] in [getRelevantHistory]. *)
Definition isRelevant (tool0 : string) (keywords : list string)
           (entry : ConversationEntry) : bool :=
  let toolMatch : Z := if String.eqb (tool entry) tool0 then 2 else 1 in
  let contentRelevance :=
    calculateRelevance (query entry +:+ " " +:+ response entry) keywords in
  negb (Qle_bool (inject_Z toolMatch * contentRelevance) (3 # 10)).

(** [getRelevantHistory(query, tool, maxEntries)] at the instant [now]. *)
Definition getRelevantHistory {tz : TimeZone} (now : Z)
           (query0 tool0 : string)
           (maxEntries : nat) (h : list ConversationEntry)
  : list ConversationEntry :=
  let freshEntries := getRecentHistory now 10 h in
  let keywords := extractKeywords query0 in
  firstn maxEntries (List.filter (isRelevant tool0 keywords) freshEntries).

(** [constructor()]: the history starts empty and [loadHistory()] is
    called but not awaited.  It tests [existsSync(HISTORY_FILE)] at once
    and, if the file [f] is there, starts to read it; the rest of it runs
    later. *)
Definition constructor (f : HistoryFile) : state :=
  {| history := []; file := f; writes := [];
     loading := match f with NoFile => false | _ => true end |}.

(** The rest of [loadHistory()], run at the instant [now] when [readFile]
    has given [data]; a read that fails or a text that [JSON.parse] or
    [map] refuses ends in the [catch]. *)
Definition loadHistory {tz : TimeZone} (now : Z) (writeOk : bool)
           (data : HistoryFile) (s : state) : state :=
  if loading s then
    match data with
    | NoFile | Unreadable =>
        {| history := []; file := file s; writes := writes s;
           loading := false |}
    | Stored allEntries =>
        let cutoffDate := Js.hoursBefore MAX_AGE_HOURS now in
        let s1 :=
          {| history :=
               List.filter (fun entry => cutoffDate <? timestamp entry)
                           allEntries;
             file := file s; writes := writes s; loading := false |} in
        if negb (Nat.eqb (List.length allEntries) (List.length (history s1)))
        then persistHistory writeOk s1
        else s1
    end
  else s.

(** A series of [addEntry] calls, the first of the list first. *)
Definition addEntries (calls : list (Z * bool * NewEntry)) (s : state)
  : state :=
  foldl (fun s c => addEntry (fst (fst c)) (snd (fst c)) (snd c) s) s calls.

(** The entry that [addEntry] makes of its argument. *)
Definition stamped (c : Z * bool * NewEntry) : ConversationEntry :=
  {| timestamp := fst (fst c); tool := new_tool (snd c);
     provider := new_provider (snd c); query := new_query (snd c);
     response := new_response (snd c);
     contextFiles := new_contextFiles (snd c);
     tokenCount := new_tokenCount (snd c) |}.

End ConversationHistoryManager.

(** ** class ContextManager *)

(** An item of [readdir(dir, { withFileTypes: true })]. *)
Record Dirent := mkDirent {
  name : string;
  isDirectory : bool
}.

(** The result of a call into [fs] or [process]: a value or an
    exception. *)
Inductive Io (A : Type) :=
| Done (value : A)
| Fails.
Arguments Done {A} value.
Arguments Fails {A}.

(** What the outside answers while the project context is refreshed:
    the workspace set in [WorkspaceManager] ([None] for [null]),
    [process.cwd()], and in the workspace directory [readFile] of
    README.md, [readFile] of package.json and [readdir]. *)
Record Workspace := mkWorkspace {
  currentWorkspace : option string;
  cwd : Io string;
  readmeFile : Io string;
  packageJsonFile : Io string;
  items : Io (list Dirent)
}.

(** An item of [readdir('.', { withFileTypes: true, recursive: true })]. *)
Record TreeItem := mkTreeItem {
  item_name : string;
  isFile : bool
}.

(** What the outside answers while the files for a query are collected:
    the recursive [readdir] of the current directory and, for a path,
    whether [access] succeeds and what [readFile] gives ([shown] is the
    error as a template literal prints it). *)
Inductive ReadOutcome :=
| Content (text : string)
| ReadError (shown : string).

Record Files := mkFiles {
  tree : Io (list TreeItem);
  accessible : string -> bool;
  readFile : string -> ReadOutcome
}.

Module ContextManager.

Definition MAX_CONTEXT_TOKENS : Z := 8000.
Definition PROJECT_CONTEXT_TTL : Z := 5 * 60 * 1000.

Definition getCurrentWorkspaceDir (w : Workspace) : Io string :=
  match currentWorkspace w with
  | Some EmptyString | None => cwd w
  | Some dynamicWorkspace => Done dynamicWorkspace
  end.

(** [None] is the [null] that the [catch] returns. *)
Definition readFileIfExists (f : Io string) : option string :=
  match f with
  | Done text => Some text
  | Fails => None
  end.

Definition getProjectStructure (w : Workspace) : string :=
  match items w with
  | Done items =>
      Js.join
        (Js.sort
           (map (fun item => if isDirectory item then name item +:+ "/"
                             else name item)
                (List.filter
                   (fun item =>
                      negb (Js.startsWith (name item) ".")
                      || Js.array_includes [".github"; ".vscode"]%string
                                           (name item))
                   items)))
        Js.nl
  | Fails => "Error reading project structure"
  end.

(** [getProjectContext()]: the clock reads [now] at the test of the
    cache and [refreshed] when the new snapshot is made.  The result is
    the snapshot returned and the field [projectContext] afterwards. *)
Definition getProjectContext (now refreshed : Z) (w : Workspace)
           (projectContext : option ProjectContext)
  : ProjectContext * option ProjectContext :=
  let refresh :=
    match getCurrentWorkspaceDir w with
    | Done workspaceDir =>
        let readme := readFileIfExists (readmeFile w) in
        let packageJson := readFileIfExists (packageJsonFile w) in
        let structure := getProjectStructure w in
        let fresh :=
          {| readme := Js.or_else readme "No README.md found";
             packageJson := Js.or_else packageJson "No package.json found";
             structure :=
               Js.or_else (Some structure)
                          "Could not determine project structure";
             lastUpdated := refreshed |} in
        (fresh, Some fresh)
    | Fails =>
        ({| readme := "Error loading README.md";
            packageJson := "Error loading package.json";
            structure := "Error determining project structure";
            lastUpdated := refreshed |}, projectContext)
    end in
  match projectContext with
  | Some cached =>
      if now - lastUpdated cached <? PROJECT_CONTEXT_TTL
      then (cached, projectContext)
      else refresh
  | None => refresh
  end.

Definition estimateTokenCount (text : string) : Z :=
  (Js.length text + 3) / 4.

Definition summarizeProject (context : ProjectContext) : string :=
  "**Package Info:**" +:+ Js.nl
  +:+ Js.slice0 (packageJson context) 500
  +:+ (if 500 <? Js.length (packageJson context)
       then "... (truncated)" else "")
  +:+ Js.nl +:+ Js.nl
  +:+ "**README:**" +:+ Js.nl
  +:+ Js.slice0 (readme context) 800
  +:+ (if 800 <? Js.length (readme context)
       then "... (truncated)" else "")
  +:+ Js.nl +:+ Js.nl
  +:+ "**Project Structure:**" +:+ Js.nl
  +:+ structure context.

(** [toISOString] is the method of [Date]. *)
Definition formatConversationHistory (toISOString : Z -> string)
           (history : list ConversationEntry) : string :=
  match history with
  | [] => "No previous conversation history"
  | _ =>
      Js.join
        (map (fun entry =>
                "**" +:+ tool entry +:+ "** (" +:+ provider entry
                +:+ ") - " +:+ toISOString (timestamp entry) +:+ ":"
                +:+ Js.nl
                +:+ "Q: " +:+ Js.slice0 (query entry) 200
                +:+ (if 200 <? Js.length (query entry) then "..." else "")
                +:+ Js.nl
                +:+ "A: " +:+ Js.slice0 (response entry) 300
                +:+ (if 300 <? Js.length (response entry)
                     then "..." else "")
                +:+ Js.nl)
             history)
        Js.nl
  end.

Definition historyHeading : string := "## Recent Conversation History".
Definition queryHeading : string := "## Current Query".

Definition truncatedHistoryNote : string :=
  Js.nl +:+ "(Conversation history truncated due to length)"
  +:+ Js.nl +:+ Js.nl.

Definition truncationMarker : string :=
  Js.nl +:+ "... (context truncated due to length)".

Definition truncateContext (context : string) : string :=
  let targetLength := MAX_CONTEXT_TOKENS * 4 in
  let fallback :=
    Js.slice0 context (Z.to_nat targetLength) +:+ truncationMarker in
  if Js.length context <=? targetLength then context
  else
    match Js.split context historyHeading with
    | [beforeHistory; rest] =>
        match Js.split rest queryHeading with
        | [_; afterQuery] =>
            let truncatedHistory :=
              historyHeading +:+ truncatedHistoryNote +:+ queryHeading
              +:+ afterQuery in
            beforeHistory +:+ truncatedHistory
        | _ => fallback
        end
    | _ => fallback
    end.

(** The three parts of the template of [buildFullContext]: up to the
    history heading, between the two headings, after the query heading. *)
Definition overviewPart (projectContext : ProjectContext)
           (fileContents : string) : string :=
  "# PROJECT CONTEXT" +:+ Js.nl +:+ Js.nl
  +:+ "## Project Overview" +:+ Js.nl
  +:+ summarizeProject projectContext +:+ Js.nl +:+ Js.nl
  +:+ "## Relevant Files" +:+ Js.nl
  +:+ fileContents +:+ Js.nl +:+ Js.nl.

Definition historyPart (formatted : string) : string :=
  Js.nl +:+ formatted +:+ Js.nl +:+ Js.nl.

Definition queryPart (tool0 query0 : string) : string :=
  Js.nl +:+ "Tool: " +:+ tool0 +:+ Js.nl
  +:+ "Query: " +:+ query0 +:+ Js.nl +:+ Js.nl
  +:+ "---" +:+ Js.nl +:+ Js.nl.

(** The template literal of [buildFullContext]. *)
Definition assemble (toISOString : Z -> string)
           (projectContext : ProjectContext) (fileContents : string)
           (freshHistory : list ConversationEntry) (tool0 query0 : string)
  : string :=
  overviewPart projectContext fileContents
  +:+ historyHeading
  +:+ historyPart (formatConversationHistory toISOString freshHistory)
  +:+ queryHeading
  +:+ queryPart tool0 query0.

(** [buildFullContext(query, tool, conversationHistory)] at the instant
    [now], given the project context and the file contents that the
    three awaited reads returned. *)
Definition buildFullContext {tz : TimeZone} (toISOString : Z -> string)
           (now : Z)
           (projectContext : ProjectContext) (fileContents : string)
           (query0 tool0 : string) (conversationHistory : list ConversationEntry)
  : string :=
  let freshHistory :=
    ConversationHistoryManager.getRecentHistory now 5 conversationHistory in
  let context :=
    assemble toISOString projectContext fileContents freshHistory
             tool0 query0 in
  if MAX_CONTEXT_TOKENS <? estimateTokenCount context
  then truncateContext context
  else context.

Definition fileExtensions : list string :=
  [".ts"; ".js"; ".json"; ".md"; ".py"; ".java"; ".go"; ".rs"]%string.

Definition configFiles : list string :=
  ["tsconfig.json"; ".env.example"; "package-lock.json"]%string.

Definition findFilesByExtension (fs : Files) (extension : string)
  : list string :=
  match tree fs with
  | Done items =>
      firstn 5
        (map item_name
             (List.filter
                (fun item => isFile item
                             && Js.endsWith (item_name item) extension)
                items))
  | Fails => []
  end.

Definition fileExists (fs : Files) (filePath : string) : bool :=
  accessible fs filePath.

(** [discoverRelevantFiles(query)]; nothing in its [try] block throws. *)
Definition discoverRelevantFiles (fs : Files) (query0 : string)
  : list string :=
  let keywords := Js.split_whitespace (Js.toLowerCase query0) in
  let byExtension :=
    flat_map (fun ext =>
                if Js.includes query0 ext
                then firstn 3 (findFilesByExtension fs ext)
                else [])
             fileExtensions in
  let byKeyword :=
    List.filter (fun file =>
                   existsb (fun keyword =>
                              Js.includes (Js.toLowerCase file) keyword)
                           keywords
                   && fileExists fs file)
                configFiles in
  Js.uniq (byExtension ++ byKeyword).

(** [readRelevantFileContents(filePaths)] *)
Definition readRelevantFileContents (fs : Files) (filePaths : list string)
  : string :=
  let contents :=
    map (fun filePath =>
           match readFile fs filePath with
           | Content content =>
               "### " +:+ filePath +:+ Js.nl
               +:+ "```" +:+ Js.nl
               +:+ Js.slice0 content 1000
               +:+ (if 1000 <? Js.length content
                    then Js.nl +:+ "... (truncated)" else "")
               +:+ Js.nl +:+ "```"
           | ReadError shown =>
               "### " +:+ filePath +:+ Js.nl
               +:+ "Error reading file: " +:+ shown
           end)
        (firstn 3 filePaths) in
  match contents with
  | [] => "No relevant files found"
  | _ => Js.join contents (Js.nl +:+ Js.nl)
  end.

(** [clearProjectContext()] *)
Definition clearProjectContext (projectContext : option ProjectContext)
  : option ProjectContext := None.

End ContextManager.

(** ** class ProviderCallManager *)

Module ProviderCallManager.

Definition MAX_CALLS_PER_PROVIDER : Z := 3.
Definition RESET_INTERVAL : Z := 60 * 60 * 1000.

(** The field [callTrackers : Map<string, ProviderCallTracker>]. *)
Abbreviation state := (gmap string ProviderCallTracker).

(** [constructor()], run at the instant [now]. *)
Definition constructor (now : Z) : state :=
  foldl (fun m p =>
           <[p := {| tr_provider := p; calls := 0; lastReset := now;
                     maxCalls := MAX_CALLS_PER_PROVIDER |}]> m)
        ∅ AI_PROVIDERS_keys.

Definition canMakeCall (now : Z) (p : string) (m : state) : bool * state :=
  match m !! p with
  | None => (false, m)
  | Some tracker =>
      let tracker :=
        if RESET_INTERVAL <? now - lastReset tracker
        then {| tr_provider := tr_provider tracker; calls := 0;
                lastReset := now; maxCalls := maxCalls tracker |}
        else tracker in
      (calls tracker <? maxCalls tracker, <[p := tracker]> m)
  end.

Definition recordCall (p : string) (m : state) : state :=
  match m !! p with
  | Some tracker =>
      <[p := {| tr_provider := tr_provider tracker;
                calls := calls tracker + 1;
                lastReset := lastReset tracker;
                maxCalls := maxCalls tracker |}]> m
  | None => m
  end.

Definition getRemainingCalls (now : Z) (p : string) (m : state) : Z * state :=
  match m !! p with
  | None => (0, m)
  | Some tracker =>
      let tracker :=
        if RESET_INTERVAL <? now - lastReset tracker
        then {| tr_provider := tr_provider tracker; calls := 0;
                lastReset := now; maxCalls := maxCalls tracker |}
        else tracker in
      (Z.max 0 (maxCalls tracker - calls tracker), <[p := tracker]> m)
  end.

(** The calls a client of the class can make. *)
Inductive op :=
| CanMakeCall (now : Z) (p : string)
| RecordCall (p : string)
| GetRemainingCalls (now : Z) (p : string).

Definition run (o : op) (m : state) : state :=
  match o with
  | CanMakeCall now p => snd (canMakeCall now p m)
  | RecordCall p => recordCall p m
  | GetRemainingCalls now p => snd (getRemainingCalls now p m)
  end.

(** States of a manager built at some instant and then used freely. *)
Inductive reachable : state -> Prop :=
| reach_new now : reachable (constructor now)
| reach_run o m : reachable m -> reachable (run o m).

(** States of a manager used the way [consultAI] and [multiAIResearch]
    use it: a call is recorded only after [canMakeCall] allowed it. *)
Inductive guarded : state -> Prop :=
| guard_new now : guarded (constructor now)
| guard_can now p m : guarded m -> guarded (snd (canMakeCall now p m))
| guard_remaining now p m :
    guarded m -> guarded (snd (getRemainingCalls now p m))
| guard_call now p m :
    guarded m -> fst (canMakeCall now p m) = true ->
    guarded (recordCall p (snd (canMakeCall now p m))).

(** An item of the record that [getCallStatus] returns. *)
Record CallStatus := mkCallStatus {
  remaining : Z;
  total : Z
}.

(** [getCallStatus()] at the instant [now]: [forEach] visits the trackers
    of the map, and [getRemainingCalls] may reset the one it is asked
    about. *)
Definition getCallStatus (now : Z) (m : state)
  : gmap string CallStatus * state :=
  foldl (fun acc entry =>
           let status := fst acc in
           let r := getRemainingCalls now (fst entry) (snd acc) in
           (<[fst entry := {| remaining := fst r;
                              total := maxCalls (snd entry) |}]> status,
            snd r))
        (∅, m) (map_to_list m).

End ProviderCallManager.

(** ** AICollaborationServer.retryWithBackoff *)

(** What a [catch] receives: an instance of [Error] with its message, or
    some other value. *)
Inductive Thrown :=
| ErrorObject (message : string)
| OtherValue (shown : string).

Inductive Outcome (T : Type) :=
| Returned (value : T)
| Threw (error : Thrown).
Arguments Returned {T} value.
Arguments Threw {T} error.

(** What [retryWithBackoff] does that can be seen from outside. *)
Inductive RetryEvent :=
| Invoke
| Sleep (delay : Z).

(** ** The table AI_PROVIDERS *)

(** The interface [AIProvider]; [ai_name] and [ai_model] are its fields
    [name] and [model]. *)
Record AIProvider := mkAIProvider {
  ai_name : string;
  ai_model : string;
  apiKey : string;
  baseUrl : string;
  specialty : string
}.

(** The variables of [process.env] that the table reads when the module
    is loaded ([None] for a variable that is not set). *)
Record Environment := mkEnvironment {
  ANTHROPIC_API_KEY : option string;
  OPENAI_API_KEY : option string;
  GEMINI_API_KEY : option string;
  OLLAMA_MODEL : option string;
  OLLAMA_BASE_URL : option string
}.

Definition AI_PROVIDERS (env : Environment) : list (string * AIProvider) :=
  [ ("claude",
     {| ai_name := "Claude";
        ai_model := "claude-sonnet-4-20250514";
        apiKey := Js.or_else (ANTHROPIC_API_KEY env) "";
        baseUrl := "https://api.anthropic.com/v1/messages";
        specialty := "Analysis, reasoning, and comprehensive responses" |});
    ("gpt4",
     {| ai_name := "GPT-4 (OpenAI)";
        ai_model := "gpt-4-turbo-preview";
        apiKey := Js.or_else (OPENAI_API_KEY env) "";
        baseUrl := "https://api.openai.com/v1/chat/completions";
        specialty := "General purpose, coding, and creative tasks" |});
    ("gemini",
     {| ai_name := "Gemini Pro (Google)";
        ai_model := "gemini-1.5-pro";
        apiKey := Js.or_else (GEMINI_API_KEY env) "";
        baseUrl := "https://generativelanguage.googleapis.com/v1beta/models/gemini-1.5-pro:generateContent";
        specialty := "Multimodal understanding and research" |});
    ("ollama",
     {| ai_name := "Ollama (Local)";
        ai_model := Js.or_else (OLLAMA_MODEL env) "llama3.2:latest";
        apiKey := "";
        baseUrl := Js.or_else (OLLAMA_BASE_URL env) "http://localhost:11434";
        specialty := "Local AI, privacy-focused, and custom models" |})
  ]%string.

(** What [Object.prototype] gives for a key that the table does not have
    itself, with the [name] of that value as a template literal prints
    it. *)
Definition objectPrototypeMembers : list (string * string) :=
  [ ("constructor", "Object");
    ("__defineGetter__", "__defineGetter__");
    ("__defineSetter__", "__defineSetter__");
    ("hasOwnProperty", "hasOwnProperty");
    ("__lookupGetter__", "__lookupGetter__");
    ("__lookupSetter__", "__lookupSetter__");
    ("isPrototypeOf", "isPrototypeOf");
    ("propertyIsEnumerable", "propertyIsEnumerable");
    ("toString", "toString");
    ("valueOf", "valueOf");
    ("__proto__", "undefined");
    ("toLocaleString", "toLocaleString") ]%string.

(** The value of [AI_PROVIDERS[key]]. *)
Inductive ProviderEntry :=
| OwnProvider (aiProvider : AIProvider)
| Inherited (shownName : string)
| Undefined.

Fixpoint assoc {A : Type} (key : string) (table : list (string * A))
  : option A :=
  match table with
  | [] => None
  | (k, v) :: table' => if String.eqb k key then Some v else assoc key table'
  end.

Definition lookupProvider (env : Environment) (key : string) : ProviderEntry :=
  match assoc key (AI_PROVIDERS env) with
  | Some aiProvider => OwnProvider aiProvider
  | None =>
      match assoc key objectPrototypeMembers with
      | Some shownName => Inherited shownName
      | None => Undefined
      end
  end.

(** What [fetch] and the reading of its response give: [fetch] throws;
    the response is not [ok], with its status and what [response.text()]
    gives; the response is [ok], with [data.candidates &&
    data.candidates.length > 0] (read by [callGemini] only) and what
    taking the text out of [response.json()] gives. *)
Inductive Exchange :=
| FetchThrows (error : Thrown)
| HttpError (status : Z) (errorText : Outcome string)
| HttpOk (hasCandidates : bool) (extracted : Outcome string).

(** What [consultAI] puts into the text of its reply. *)
Inductive Reply :=
| LimitReached (providerName : string) (remainingCalls : Z)
| Consultation (providerName providerSpecialty : string)
               (remainingCalls totalCalls : Z) (response : string)
| ConsultError (providerName : string) (error : Thrown).

Module AICollaborationServer.

Definition nonRetryable (error : Thrown) : bool :=
  match error with
  | ErrorObject message =>
      let errorMessage := Js.toLowerCase message in
      Js.includes errorMessage "401" || Js.includes errorMessage "403"
      || Js.includes errorMessage "invalid api key"
      || Js.includes errorMessage "unauthorized"
  | OtherValue _ => false
  end.

Section Retry.
(** [operation] runs in a world [W] that it may change; the promise it
    returns is settled when it is awaited. *)
Context {T W : Type}.
Variable operation : W -> Outcome T * W.
Variables maxRetries baseDelay : Z.

(** The [for] loop from [attempt] on; [rounds] bounds the rounds
    left. *)
Fixpoint retryLoop (rounds : nat) (attempt : Z) (lastError : Thrown)
         (w : W) : Outcome T * W * list RetryEvent :=
  match rounds with
  | O => (Threw lastError, w, [])
  | S rounds' =>
      if attempt <=? maxRetries then
        match operation w with
        | (Returned value, w') => (Returned value, w', [Invoke])
        | (Threw error, w') =>
            if nonRetryable error then (Threw error, w', [Invoke])
            else if attempt =? maxRetries then (Threw error, w', [Invoke])
            else
              let delay := baseDelay * 2 ^ attempt in
              let '(result, w'', events) :=
                retryLoop rounds' (attempt + 1) error w' in
              (result, w'', Invoke :: Sleep delay :: events)
        end
      else (Threw lastError, w, [])
  end.

Definition retryWithBackoff (w : W)
  : Outcome T * W * list RetryEvent :=
  retryLoop (Z.to_nat (maxRetries + 1)) 0 (ErrorObject "Unknown error") w.

End Retry.

Definition invocations (events : list RetryEvent) : nat :=
  List.length (List.filter (fun e => match e with Invoke => true
                                             | Sleep _ => false end) events).

Definition delays (events : list RetryEvent) : list Z :=
  flat_map (fun e => match e with Invoke => [] | Sleep d => [d] end) events.

(** [`${status}`] for a whole number. *)
Definition decimal (n : Z) : string := NilZero.string_of_int (Z.to_int n).

(** The [if (!response.ok)] block of the four [call...] methods. *)
Definition apiError (api : string) (status : Z) (errorText : Outcome string)
  : Outcome string :=
  match errorText with
  | Returned text =>
      Threw (ErrorObject (api +:+ " API error (" +:+ decimal status +:+ "): "
                          +:+ text))
  | Threw error => Threw error
  end.

Definition callClaude (x : Exchange) : Outcome string :=
  match x with
  | FetchThrows error => Threw error
  | HttpError status errorText => apiError "Claude" status errorText
  | HttpOk _ extracted => extracted
  end.

Definition callOpenAI (x : Exchange) : Outcome string :=
  match x with
  | FetchThrows error => Threw error
  | HttpError status errorText => apiError "OpenAI" status errorText
  | HttpOk _ extracted => extracted
  end.

Definition callGemini (x : Exchange) : Outcome string :=
  match x with
  | FetchThrows error => Threw error
  | HttpError status errorText => apiError "Gemini" status errorText
  | HttpOk hasCandidates extracted =>
      if hasCandidates then extracted
      else Threw (ErrorObject "No response from Gemini API")
  end.

Definition callOllama (x : Exchange) : Outcome string :=
  match x with
  | FetchThrows error => Threw error
  | HttpError status errorText => apiError "Ollama" status errorText
  | HttpOk _ extracted => extracted
  end.

(** The operation that [callAIProvider] hands to [retryWithBackoff];
    [exchange] is the answer of the outside to the request. *)
Definition providerOperation {W : Type} (provider : AIProvider)
           (exchange : W -> Exchange * W) (w : W) : Outcome string * W :=
  if Js.includes (ai_name provider) "Claude"
  then (callClaude (fst (exchange w)), snd (exchange w))
  else if Js.includes (ai_name provider) "GPT-4"
  then (callOpenAI (fst (exchange w)), snd (exchange w))
  else if Js.includes (ai_name provider) "Gemini"
  then (callGemini (fst (exchange w)), snd (exchange w))
  else if Js.includes (ai_name provider) "Ollama"
  then (callOllama (fst (exchange w)), snd (exchange w))
  else (Threw (ErrorObject ("Unsupported AI provider: "
                            +:+ ai_name provider)), w).

Definition callAIProvider {W : Type} (provider : AIProvider)
           (exchange : W -> Exchange * W) (w : W)
  : Outcome string * W * list RetryEvent :=
  retryWithBackoff (providerOperation provider exchange) 3 200 w.

(** The fields of the server that [consultAI] works on. *)
Record Server := mkServer {
  conversationHistory : ConversationHistoryManager.state;
  contextManager : option ProjectContext;
  providerCallManager : gmap string ProviderCallTracker
}.

(** What the outside gives during one call of [consultAI]: the instants
    at which the clock is read (by [canMakeCall], by [getRemainingCalls]
    when the limit is reached, for the cache of the project context and
    its refresh, for the recent history, for the new entry, for the call
    status), the files, [Date.toISOString], whether the history can be
    written, and the provider's answers. *)
Record Outside (W : Type) := mkOutside {
  checkedAt : Z;
  remainingAt : Z;
  contextAt : Z;
  refreshedAt : Z;
  historyAt : Z;
  addedAt : Z;
  statusAt : Z;
  workspace : Workspace;
  files : Files;
  toISOString : Z -> string;
  writeOk : bool;
  exchange : W -> Exchange * W
}.
Arguments checkedAt {W} _.
Arguments remainingAt {W} _.
Arguments contextAt {W} _.
Arguments refreshedAt {W} _.
Arguments historyAt {W} _.
Arguments addedAt {W} _.
Arguments statusAt {W} _.
Arguments workspace {W} _.
Arguments files {W} _.
Arguments toISOString {W} _.
Arguments writeOk {W} _.
Arguments exchange {W} _.

(** The prompt that [consultAI] sends. *)
Definition fullPromptOf (enhancedContext : string) (context : option string)
           (prompt : string) : string :=
  match context with
  | Some EmptyString | None =>
      enhancedContext +:+ Js.nl +:+ Js.nl +:+ "## Final Query" +:+ Js.nl
      +:+ prompt
  | Some context =>
      enhancedContext +:+ Js.nl +:+ Js.nl +:+ "## Additional User Context"
      +:+ Js.nl +:+ context +:+ Js.nl +:+ Js.nl +:+ "## Final Query"
      +:+ Js.nl +:+ prompt
  end.

(** [consultAI({ provider, prompt, context })]: what it returns or throws,
    the server and the world afterwards. *)
Definition consultAI {W : Type} {tz : TimeZone} (env : Environment)
           (out : Outside W)
           (provider prompt : string) (context : option string)
           (s : Server) (w : W) : Outcome Reply * Server * W :=
  let toolName := "consult_ai"%string in
  match lookupProvider env provider with
  | Undefined =>
      (Threw (ErrorObject ("Unknown AI provider: " +:+ provider)), s, w)
  | Inherited shownName =>
      (Threw (ErrorObject ("API key not configured for " +:+ shownName)), s, w)
  | OwnProvider aiProvider =>
      if String.eqb (apiKey aiProvider) ""
      then (Threw (ErrorObject ("API key not configured for "
                                +:+ ai_name aiProvider)), s, w)
      else
        let can :=
          ProviderCallManager.canMakeCall (checkedAt out) provider
                                          (providerCallManager s) in
        if negb (fst can)
        then
          let remaining :=
            ProviderCallManager.getRemainingCalls (remainingAt out) provider
                                                  (snd can) in
          (Returned (LimitReached (ai_name aiProvider) (fst remaining)),
           {| conversationHistory := conversationHistory s;
              contextManager := contextManager s;
              providerCallManager := snd remaining |}, w)
        else
          let projectContext :=
            ContextManager.getProjectContext (contextAt out) (refreshedAt out)
                                             (workspace out)
                                             (contextManager s) in
          let relevantFiles :=
            ContextManager.discoverRelevantFiles (files out) prompt in
          let fileContents :=
            ContextManager.readRelevantFileContents (files out)
                                                    relevantFiles in
          let enhancedContext :=
            ContextManager.buildFullContext
              (toISOString out) (historyAt out) (fst projectContext)
              fileContents prompt toolName
              (ConversationHistoryManager.history (conversationHistory s)) in
          let fullPrompt := fullPromptOf enhancedContext context prompt in
          match callAIProvider aiProvider (exchange out) w with
          | (Returned response, w', _) =>
              let recorded :=
                ProviderCallManager.recordCall provider (snd can) in
              let history' :=
                ConversationHistoryManager.addEntry
                  (addedAt out) (writeOk out)
                  {| new_tool := toolName; new_provider := provider;
                     new_query := prompt; new_response := response;
                     new_contextFiles := [];
                     new_tokenCount :=
                       ContextManager.estimateTokenCount
                         (fullPrompt +:+ response) |}
                  (conversationHistory s) in
              let callStatus :=
                ProviderCallManager.getCallStatus (statusAt out) recorded in
              let s' :=
                {| conversationHistory := history';
                   contextManager := snd projectContext;
                   providerCallManager := snd callStatus |} in
              match fst callStatus !! provider with
              | Some status =>
                  (Returned
                     (Consultation (ai_name aiProvider)
                        (specialty aiProvider)
                        (ProviderCallManager.remaining status)
                        (ProviderCallManager.total status) response),
                   s', w')
              | None =>
                  (Returned
                     (ConsultError (ai_name aiProvider)
                        (ErrorObject
                           "Cannot read properties of undefined (reading 'remaining')")),
                   s', w')
              end
          | (Threw error, w', _) =>
              (Returned (ConsultError (ai_name aiProvider) error),
               {| conversationHistory := conversationHistory s;
                  contextManager := snd projectContext;
                  providerCallManager := snd can |}, w')
          end
  end.

(** The server as its constructor leaves it at the instant [now], with
    the file [f] in the workspace: the history empty and, if the file is
    there, being loaded; no project context; all trackers new. *)
Definition newServer (now : Z) (f : HistoryFile) : Server :=
  {| conversationHistory := ConversationHistoryManager.constructor f;
     contextManager := None;
     providerCallManager := ProviderCallManager.constructor now |}.

(** The rest of [loadHistory] runs in the server [s]. *)
Definition historyLoaded {tz : TimeZone} (now : Z) (writeOk : bool)
           (data : HistoryFile) (s : Server) : Server :=
  {| conversationHistory :=
       ConversationHistoryManager.loadHistory now writeOk data
                                              (conversationHistory s);
     contextManager := contextManager s;
     providerCallManager := providerCallManager s |}.

(** The servers that calls of [consultAI], one after the other, lead to;
    the history file is read before, between or after them. *)
Inductive served {W : Type} {tz : TimeZone} (env : Environment)
  : Server -> Prop :=
| served_new now f : served env (newServer now f)
| served_load now writeOk data s :
    served env s -> served env (historyLoaded now writeOk data s)
| served_consult out provider prompt context s (w : W) :
    served env s ->
    served env (snd (fst (consultAI env out provider prompt context s w))).

(** ** AICollaborationServer.parseAndExecuteCommand *)

(** The text after [keyword] when [s] begins with it, the case of letters
    set aside as the flag [i] does; [keyword] is in lower case. *)
Fixpoint keywordRest (keyword s : string) : option string :=
  match keyword, s with
  | EmptyString, _ => Some s
  | String k keyword', String c s' =>
      if Ascii.eqb (Js.toLowerCaseUnit c) k then keywordRest keyword' s'
      else None
  | String _ _, EmptyString => None
  end.

(** What [\s*] and [\w*] take at the beginning of [s]. *)
Fixpoint skipWhiteSpace (s : string) : string :=
  match s with
  | String c s' => if Js.isWhiteSpace c then skipWhiteSpace s' else s
  | EmptyString => EmptyString
  end.

Fixpoint takeWord (s : string) : string :=
  match s with
  | String c s' => if Js.isWordChar c then String c (takeWord s') else ""
  | EmptyString => EmptyString
  end.

(** [match[1]] of [userMessage.match(/^keyword\s+(\w+)/i)], [None] when
    there is no match. *)
Definition matchCommand (keyword userMessage : string) : option string :=
  match keywordRest keyword userMessage with
  | Some (String c rest) =>
      if Js.isWhiteSpace c then
        match takeWord (skipWhiteSpace rest) with
        | EmptyString => None
        | word => Some word
        end
      else None
  | _ => None
  end.

(** [match[1]] of [userMessage.match(/!(\w+)/)]: the word after the first
    exclamation mark that a word follows. *)
Fixpoint matchTrigger (userMessage : string) : option string :=
  match userMessage with
  | EmptyString => None
  | String c s' =>
      if Ascii.eqb c "!" then
        match takeWord s' with
        | EmptyString => matchTrigger s'
        | word => Some word
        end
      else matchTrigger s'
  end.

Definition mandatoryPatterns : list (string -> option string) :=
  [matchCommand "use"; matchCommand "execute"; matchCommand "run";
   matchCommand "call"; matchTrigger].

(** [parseAndExecuteCommand(userMessage, toolName, args)]; it does not
    read [args]. *)
Definition parseAndExecuteCommand (userMessage toolName : string) : bool :=
  existsb (fun pattern =>
             match pattern userMessage with
             | Some word => String.eqb word toolName
             | None => false
             end)
          mandatoryPatterns.

End AICollaborationServer.

(** ** Notions used in the statements *)

(** A tracker that has the limit of the class and is within it. *)
Definition within_quota (tr : ProviderCallTracker) : Prop :=
  maxCalls tr = ProviderCallManager.MAX_CALLS_PER_PROVIDER
  /\ 0 <= calls tr <= maxCalls tr.

(** The number of keywords found in the text of an entry, and the score
    that the relevance selection gives the entry: the share of the
    keywords found, doubled for an entry of the querying tool. *)
Definition matchedKeywords (keywords : list string) (entry : ConversationEntry)
  : Z :=
  Z.of_nat
    (List.length
       (List.filter
          (fun keyword =>
             Js.includes
               (Js.toLowerCase (query entry +:+ " " +:+ response entry))
               keyword)
          keywords)).

Definition weightedScore (tool0 : string) (keywords : list string)
           (entry : ConversationEntry) : Q :=
  (inject_Z (if String.eqb (tool entry) tool0 then 2 else 1)
   * (inject_Z (matchedKeywords keywords entry)
      / inject_Z (Z.max 1 (Z.of_nat (List.length keywords)))))%Q.

(** A cache that [getProjectContext] does not answer from at [now]:
    empty, or at least [PROJECT_CONTEXT_TTL] old. *)
Definition stale (now : Z) (projectContext : option ProjectContext) : Prop :=
  match projectContext with
  | None => True
  | Some cached =>
      ContextManager.PROJECT_CONTEXT_TTL <= now - lastUpdated cached
  end.

(** The text [marker] is part of [message] when the case of letters is
    set aside. *)
Definition containsIgnoringCase (message marker : string) : Prop :=
  exists before found after,
    message = before +:+ found +:+ after
    /\ Js.toLowerCase found = Js.toLowerCase marker.

Definition nonRetryableMarkers : list string :=
  ["401"; "403"; "invalid api key"; "unauthorized"]%string.

(** A failure that is retried: anything but an [Error] whose message has
    one of the markers. *)
Definition transient (error : Thrown) : Prop :=
  match error with
  | ErrorObject message =>
      ~ Exists (containsIgnoringCase message) nonRetryableMarkers
  | OtherValue _ => True
  end.

(** A text of which an end, shorter than the text and not empty, is also
    its beginning; an occurrence of such a text can overlap the next. *)
Definition selfOverlap (sep : string) : bool :=
  existsb (fun k => String.prefix (Js.drop k sep) sep)
          (seq 1 (String.length sep - 1)).

(** The tracker as the two accessors of [ProviderCallManager] leave it at
    the instant [now]: reset when its window is over. *)
Definition afterLazyReset (now : Z) (tr : ProviderCallTracker)
  : ProviderCallTracker :=
  if ProviderCallManager.RESET_INTERVAL <? now - lastReset tr
  then mkTracker (tr_provider tr) 0 now (maxCalls tr)
  else tr.

(** The provider that a call of [ProviderCallManager] is about. *)
Definition provider_of (o : ProviderCallManager.op) : string :=
  match o with
  | ProviderCallManager.CanMakeCall _ p => p
  | ProviderCallManager.RecordCall p => p
  | ProviderCallManager.GetRemainingCalls _ p => p
  end.


(** Every code unit of [s] passes the test [P]. *)
Fixpoint allUnits (P : ascii -> bool) (s : string) : bool :=
  match s with
  | EmptyString => true
  | String c s' => P c && allUnits P s'
  end.

(** The lines of the listing that [getProjectStructure] joins: an item is
    shown unless its name begins with a dot and is neither .github nor
    .vscode, a directory with a slash after its name. *)
Definition shownInStructure (item : Dirent) : bool :=
  negb (Js.startsWith (name item) ".")
  || Js.array_includes [".github"; ".vscode"]%string (name item).

Definition structureLine (item : Dirent) : string :=
  if isDirectory item then name item +:+ "/" else name item.

(** The time that [retryWithBackoff] spent waiting. *)
Definition totalDelay (events : list RetryEvent) : Z :=
  fold_right Z.add 0 (AICollaborationServer.delays events).

(** The tracker [tr] after [recordCall]. *)
Definition withOneMoreCall (tr : ProviderCallTracker) : ProviderCallTracker :=
  mkTracker (tr_provider tr) (calls tr + 1) (lastReset tr) (maxCalls tr).

(** [consultAI] throws. *)
Definition throws {T W : Type}
           (r : Outcome T * AICollaborationServer.Server * W) : Prop :=
  exists error, fst (fst r) = Threw error.

(** The variable of the environment is not set or is empty. *)
Definition unset (variable : option string) : Prop :=
  variable = None \/ variable = Some ""%string.

(** No word goes on at the beginning of [rest]. *)
Definition endsWord (rest : string) : bool :=
  match rest with
  | EmptyString => true
  | String c _ => negb (Js.isWordChar c)
  end.

(** A time zone with the same offset at all times, and UTC. *)
Definition fixedOffset (offset : Z) : TimeZone :=
  mkTimeZone (fun _ => offset) (fun _ => offset).

Definition utc : TimeZone := fixedOffset 0.

(** The local clock, [h] hours back on the clock from the instant [now],
    was as far from UTC as it is at [now]: no change of the offset (a
    change to or from summer time, say) lies in between. *)
Definition sameOffset {tz : TimeZone} (h now : Z) : Prop :=
  offsetOfLocal (now + offsetAt now - h * 3600000) = offsetAt now.

(** ** Sample data *)

(** A snapshot taken at the instant 0, and a workspace whose files can be
    read while [process.cwd()] throws and no workspace is set. *)
Definition oldSnapshot : ProjectContext :=
  mkProjectContext "old readme" "old manifest" "src/" 0.

Definition lostWorkspace : Workspace :=
  mkWorkspace None Fails (Done "new readme") (Done "new manifest")
              (Done [mkDirent "src" true]).

(** A workspace without README.md. *)
Definition bareWorkspace : Workspace :=
  mkWorkspace (Some "/work/project") (Done "/") Fails (Done "{}")
              (Done [mkDirent "src" true; mkDirent ".git" true;
                     mkDirent "package.json" false]).

(** Two entries with the same text, the newer one of another tool. *)
Definition crossToolEntry : ConversationEntry :=
  mkEntry 2000 "multi_ai_research" "multiple" "retry backoff policy"
          "use exponential backoff" [] 10.

Definition sameToolEntry : ConversationEntry :=
  mkEntry 1000 "consult_ai" "claude" "retry backoff policy"
          "use exponential backoff" [] 10.

(** Two operations on a counter of their invocations: one is always
    refused, one fails three times and then answers. *)
Definition alwaysUnauthorized (n : nat) : Outcome string * nat :=
  (Threw (ErrorObject "HTTP 401: Unauthorized"), S n).

Definition failsThreeTimes (n : nat) : Outcome string * nat :=
  if (n <? 3)%nat
  then (Threw (ErrorObject "fetch failed: ECONNRESET"), S n)
  else (Returned "pong"%string, S n).

(** A project with a long listing of its directory, 3210 lines of ten
    code units, and a [toISOString] for the samples. *)
Definition longListing : ProjectContext :=
  mkProjectContext "readme" "{}"
                   (Js.repeat ("module.ts" +:+ Js.nl) (Z.to_nat 3210)) 0.

Definition sampleISO (t : Z) : string := "2025-01-01T00:00:00.000Z".

(** Twenty-five calls of [addEntry], one per second, numbered by their
    token count. *)
Definition calls25 : list (Z * bool * NewEntry) :=
  map (fun i => (1000 * Z.of_nat i, true,
                 mkNewEntry "consult_ai" "claude" "question" "answer" []
                            (Z.of_nat i)))
      (seq 1 25).

Definition day : Z := 24 * 3600000.

(** A stored array of three entries: one hour, one day and two days before
    the instant [3 * day]. *)
Definition stored3 : list ConversationEntry :=
  [ mkEntry (3 * day - 3600000) "consult_ai" "claude" "q1" "r1" [] 10;
    mkEntry (2 * day) "consult_ai" "gpt4" "q2" "r2" [] 20;
    mkEntry day "multi_ai_research" "multiple" "q3" "r3" [] 30 ].

(** A current directory with source files of two kinds and one of the
    config files. *)
Definition sampleFiles : Files :=
  mkFiles (Done [mkTreeItem "index.js" true; mkTreeItem "build" false;
                 mkTreeItem "package.json" true; mkTreeItem "util.js" true])
          (fun path => String.eqb path "tsconfig.json")
          (fun path => ReadError "Error: ENOENT").

(** An environment with the key of Claude only, and an outside in which
    every request is answered. *)
Definition sampleEnvironment : Environment :=
  mkEnvironment (Some "sk-test") None None None None.

Definition sampleOutside : AICollaborationServer.Outside nat :=
  AICollaborationServer.mkOutside nat 10 10 10 10 10 10 10 bareWorkspace
    sampleFiles sampleISO true
    (fun n => (HttpOk true (Returned "answer"), S n)).

(** Central European time around the end of summer time in 2025: at
    2025-10-26T01:00:00Z the clocks go from 03:00 (two hours ahead of UTC)
    back to 02:00 (one hour ahead); a local time that occurs twice is taken
    as the earlier instant. *)
Definition summerTimeEnds : Z := 1761440400000.

Definition centralEurope : TimeZone :=
  mkTimeZone
    (fun t => if t <? summerTimeEnds then 7200000 else 3600000)
    (fun local => if local <? summerTimeEnds + 7200000 then 7200000
                  else 3600000).

(** A long prompt: 33000 code units. *)
Definition longPrompt : string := Js.repeat "a" (Z.to_nat 33000).

(** Twenty-five entries, the newest first, made one per second from the
    instant 1000 on. *)
Definition stored25 : list ConversationEntry :=
  rev (map ConversationHistoryManager.stamped calls25).

(** * Properties *)

(** ** The library functions on small inputs *)

Example split_keeps_empty_pieces :
  Js.split "a,b,,c," "," = ["a"; "b"; ""; "c"; ""]%string.
Proof. reflexivity. Qed.

Example split_takes_first_match :
  Js.split "xxabxxxcd" "xx" = [""; "ab"; "xcd"]%string.
Proof. reflexivity. Qed.

Example split_of_empty_string : Js.split "" "," = [""]%string.
Proof. reflexivity. Qed.

Example split_whitespace_at_the_ends :
  Js.split_whitespace "  hello   world " = [""; "hello"; "world"; ""]%string.
Proof. reflexivity. Qed.

Example toLowerCase_message :
  Js.toLowerCase "Invalid API Key (401)" = "invalid api key (401)"%string.
Proof. reflexivity. Qed.

Example sort_by_code_units :
  Js.sort ["src/"; "README.md"; "package.json"; ".github/"]%string
  = [".github/"; "README.md"; "package.json"; "src/"]%string.
Proof. reflexivity. Qed.

Example extractKeywords_drops_short_and_stop_words :
  ConversationHistoryManager.extractKeywords
    "How should the Retry with BACKOFF work"
  = ["retry"; "backoff"; "work"]%string.
Proof. reflexivity. Qed.

Example getProjectStructure_of_bareWorkspace :
  ContextManager.getProjectStructure bareWorkspace
  = ("package.json" +:+ Js.nl +:+ "src/")%string.
Proof. reflexivity. Qed.

Example formatConversationHistory_empty :
  ContextManager.formatConversationHistory sampleISO []
  = "No previous conversation history"%string.
Proof. reflexivity. Qed.

Example estimateTokenCount_rounds_up :
  ContextManager.estimateTokenCount "abcde" = 2
  /\ ContextManager.estimateTokenCount "abcd" = 1
  /\ ContextManager.estimateTokenCount "" = 0.
Proof. repeat split. Qed.

Example canMakeCall_after_three_calls :
  let m := ProviderCallManager.constructor 0 in
  let m3 := ProviderCallManager.recordCall "claude"
              (ProviderCallManager.recordCall "claude"
                 (ProviderCallManager.recordCall "claude" m)) in
  fst (ProviderCallManager.canMakeCall 1000 "claude" m3) = false
  /\ fst (ProviderCallManager.canMakeCall 3600001 "claude" m3) = true
  /\ fst (ProviderCallManager.getRemainingCalls 3600001 "claude" m3) = 3
  /\ fst (ProviderCallManager.canMakeCall 1000 "copilot" m3) = false
  /\ fst (ProviderCallManager.getRemainingCalls 1000 "copilot" m3) = 0.
Proof. vm_compute. repeat split. Qed.

Section ProviderCallManagerFacts.
Import ProviderCallManager.

Lemma constructor_lookup now p tr :
  constructor now !! p = Some tr ->
  tr = mkTracker p 0 now MAX_CALLS_PER_PROVIDER.
Proof.
  unfold constructor, AI_PROVIDERS_keys; simpl.
  rewrite !lookup_insert. repeat case_decide; subst;
    rewrite ?lookup_empty; congruence.
Qed.

Lemma map_Forall_insert_2' (P : string -> ProviderCallTracker -> Prop)
      (m : state) p tr :
  P p tr -> map_Forall P m -> map_Forall P (<[p := tr]> m).
Proof. intros; by apply map_Forall_insert_2. Qed.

Lemma guarded_within_quota m :
  guarded m -> map_Forall (fun _ tr => within_quota tr) m.
Proof.
  induction 1 as [now | now p m _ IH | now p m _ IH | now p m _ IH Hcan].
  - intros p tr Hp. apply constructor_lookup in Hp; subst.
    unfold within_quota, MAX_CALLS_PER_PROVIDER; simpl; lia.
  - unfold canMakeCall. destruct (m !! p) as [tr|] eqn:Hp; simpl; auto.
    apply map_Forall_insert_2'; auto. specialize (IH _ _ Hp).
    destruct (RESET_INTERVAL <? now - lastReset tr); auto.
    unfold within_quota in *; simpl; lia.
  - unfold getRemainingCalls. destruct (m !! p) as [tr|] eqn:Hp; simpl; auto.
    apply map_Forall_insert_2'; auto. specialize (IH _ _ Hp).
    destruct (RESET_INTERVAL <? now - lastReset tr); auto.
    unfold within_quota in *; simpl; lia.
  - revert Hcan. unfold canMakeCall, recordCall.
    destruct (m !! p) as [tr|] eqn:Hp; simpl; [|done].
    rewrite lookup_insert_eq. intros Hlt. apply Z.ltb_lt in Hlt.
    apply map_Forall_insert_2'; [|apply map_Forall_insert_2'; auto].
    + specialize (IH _ _ Hp). revert Hlt.
      destruct (RESET_INTERVAL <? now - lastReset tr);
        unfold within_quota in *; simpl; lia.
    + specialize (IH _ _ Hp).
      destruct (RESET_INTERVAL <? now - lastReset tr); auto.
      unfold within_quota in *; simpl; lia.
Qed.

Lemma getRemainingCalls_in_window now p tr (m : state) :
  m !! p = Some tr -> now - lastReset tr <= RESET_INTERVAL ->
  getRemainingCalls now p m = (Z.max 0 (maxCalls tr - calls tr), m).
Proof.
  intros Hp Hwin. unfold getRemainingCalls. rewrite Hp.
  destruct (Z.ltb_spec RESET_INTERVAL (now - lastReset tr)); [lia|].
  by rewrite insert_id.
Qed.

(** C1, as the specification has it, fails: four recorded calls in one
    window leave nothing remaining, and 0 + 4 is not the limit. *)
Lemma remaining_plus_calls_not_always_limit :
  ~ (forall (m : state) p tr now,
        reachable m -> m !! p = Some tr ->
        now - lastReset tr <= RESET_INTERVAL ->
        fst (getRemainingCalls now p m) + calls tr = MAX_CALLS_PER_PROVIDER).
Proof.
  intros H.
  pose (m := run (RecordCall "claude") (run (RecordCall "claude")
              (run (RecordCall "claude") (run (RecordCall "claude")
                (constructor 0))))).
  assert (Hr : reachable m) by (do 4 apply reach_run; apply reach_new).
  assert (Hp : m !! "claude"%string = Some (mkTracker "claude" 4 0 3))
    by (vm_compute; reflexivity).
  assert (Hwin : 10 - lastReset (mkTracker "claude" 4 0 3) <= RESET_INTERVAL)
    by (vm_compute; discriminate).
  specialize (H m "claude"%string (mkTracker "claude" 4 0 3) 10 Hr Hp Hwin).
  vm_compute in H. discriminate H.
Qed.

(** C1 (amended): within one window, for a tracker with the limit 3,
    remaining(p) + calls(p) is max(limit, calls(p)); it is the limit as
    long as calls(p) <= limit, which holds in every state in which calls
    were recorded only after canMakeCall allowed them; the query leaves
    the state as it was. *)
Theorem remaining_plus_calls_within_window (m : state) p tr now :
  m !! p = Some tr ->
  maxCalls tr = MAX_CALLS_PER_PROVIDER ->
  now - lastReset tr <= RESET_INTERVAL ->
  let remaining := fst (getRemainingCalls now p m) in
  snd (getRemainingCalls now p m) = m /\
  remaining + calls tr = Z.max MAX_CALLS_PER_PROVIDER (calls tr) /\
  (calls tr <= MAX_CALLS_PER_PROVIDER ->
   remaining + calls tr = MAX_CALLS_PER_PROVIDER) /\
  (guarded m -> remaining + calls tr = MAX_CALLS_PER_PROVIDER).
Proof.
  intros Hp Hmax Hwin. cbv zeta.
  rewrite (getRemainingCalls_in_window now p tr m Hp Hwin); simpl.
  rewrite Hmax. repeat split; try lia.
  intros Hg. apply guarded_within_quota in Hg.
  specialize (Hg _ _ Hp). destruct Hg as [_ Hg]. lia.
Qed.

Lemma remaining_plus_calls_within_window_witness :
  fst (getRemainingCalls 10 "gpt4" (recordCall "gpt4" (constructor 0))) + 1
  = 3.
Proof.
  pose proof (remaining_plus_calls_within_window
                (recordCall "gpt4" (constructor 0)) "gpt4"
                (mkTracker "gpt4" 1 0 3) 10 eq_refl eq_refl) as H.
  cbv zeta in H. simpl calls in H.
  assert (Hw : 10 - lastReset (mkTracker "gpt4" 1 0 3) <= RESET_INTERVAL)
    by (vm_compute; discriminate).
  destruct (H Hw) as (_ & _ & H3 & _). apply H3.
  vm_compute; discriminate.
Defined.

(** C10: recordCall on an unknown provider changes nothing; on a known
    provider it adds one to that tracker's calls and leaves its lastReset,
    its maxCalls and every other tracker as they were (so it never does
    the lazy reset of the window). *)
Theorem recordCall_frame (m : state) p :
  (m !! p = None -> recordCall p m = m) /\
  (forall tr, m !! p = Some tr ->
     recordCall p m !! p
     = Some (mkTracker (tr_provider tr) (calls tr + 1)
                       (lastReset tr) (maxCalls tr)) /\
     (forall q, q <> p -> recordCall p m !! q = m !! q) /\
     recordCall p m
     = <[p := mkTracker (tr_provider tr) (calls tr + 1)
                        (lastReset tr) (maxCalls tr)]> m).
Proof.
  unfold recordCall. split.
  - intros ->. reflexivity.
  - intros tr ->. split; [apply lookup_insert_eq|].
    split; [|reflexivity].
    intros q Hq. apply lookup_insert_ne. congruence.
Qed.

Lemma recordCall_frame_witness :
  recordCall "copilot" (constructor 0) = constructor 0 /\
  recordCall "claude" (constructor 0) !! "claude"%string
  = Some (mkTracker "claude" 1 0 3) /\
  recordCall "claude" (constructor 0) !! "ollama"%string
  = constructor 0 !! "ollama"%string.
Proof.
  destruct (recordCall_frame (constructor 0) "copilot") as [H0 _].
  destruct (recordCall_frame (constructor 0) "claude") as [_ H1].
  destruct (H1 (mkTracker "claude" 0 0 3) eq_refl) as (Ha & Hb & _).
  split; [apply H0; reflexivity|].
  split; [exact Ha | apply Hb; discriminate].
Defined.

End ProviderCallManagerFacts.

Section ConversationHistoryFacts.
Import ConversationHistoryManager.
Context {tz : TimeZone}.

Lemma addEntry_history now w e s :
  history (addEntry now w e s)
  = take 20 (stamped (now, w, e) :: history s).
Proof.
  unfold addEntry, persistHistory, stamped, MAX_HISTORY_ENTRIES; simpl.
  destruct (Z.ltb_spec 20 (Z.of_nat (S (List.length (history s)))));
    [reflexivity|].
  symmetry. apply (firstn_all2 (n := 20) (_ :: _)). simpl. lia.
Qed.

Lemma take_app_take {A} n (l k : list A) :
  take n (l ++ take n k) = take n (l ++ k).
Proof.
  rewrite !take_app. f_equal. rewrite take_take. f_equal. lia.
Qed.

Lemma addEntries_history calls s :
  (List.length (history s) <= 20)%nat ->
  history (addEntries calls s)
  = take 20 (rev (map stamped calls) ++ history s).
Proof.
  revert s. induction calls as [|[[now w] e] calls IH]; intros s Hs.
  - simpl. symmetry. by apply firstn_all2.
  - change (addEntries (((now, w), e) :: calls) s)
      with (addEntries calls (addEntry now w e s)).
    rewrite IH, addEntry_history.
    + rewrite take_app_take. simpl. by rewrite <- app_assoc.
    + rewrite addEntry_history. apply firstn_le_length.
Qed.

(** X28: addEntry puts the new entry in front and keeps the first 20, so
    the history holds at most 20 entries after every addEntry, whatever it
    held before; a series of addEntry calls on a history of at most 20
    entries leaves the first 20 of the new entries, the last added first,
    followed by the old ones; 25 entries added to an empty history leave
    the last 20 of them, the newest first, and none of the first 5. *)
Theorem addEntry_keeps_newest_20 :
  (forall now w e s,
      history (addEntry now w e s)
      = take 20 (stamped (now, w, e) :: history s)
      /\ (List.length (history (addEntry now w e s)) <= 20)%nat) /\
  (forall calls s,
      (List.length (history s) <= 20)%nat ->
      history (addEntries calls s)
      = take 20 (rev (map stamped calls) ++ history s)) /\
  (forall calls s,
      history s = [] -> List.length calls = 25%nat ->
      history (addEntries calls s) = rev (drop 5 (map stamped calls))
      /\ List.length (history (addEntries calls s)) = 20%nat
      /\ (NoDup (map stamped calls) ->
          forall old, In old (take 5 (map stamped calls)) ->
                      ~ In old (history (addEntries calls s)))).
Proof.
  split; [|split].
  - intros. split; [apply addEntry_history|].
    rewrite addEntry_history. apply firstn_le_length.
  - apply addEntries_history.
  - intros calls s Hs Hlen.
    assert (Hh : history (addEntries calls s)
                 = rev (drop 5 (map stamped calls))).
    { rewrite addEntries_history by (rewrite Hs; simpl; lia).
      rewrite Hs, app_nil_r, firstn_rev.
      by rewrite length_map, Hlen. }
    rewrite Hh. split; [reflexivity|]. split.
    + rewrite length_rev, length_drop, length_map, Hlen. reflexivity.
    + intros Hnd old Hold Hin. rewrite <- in_rev in Hin.
      rewrite <- (take_drop 5 (map stamped calls)) in Hnd.
      apply NoDup_app in Hnd. destruct Hnd as (_ & Hdisj & _).
      apply (Hdisj old); by apply list_elem_of_In.
Qed.

Example addEntry_25_times :
  map tokenCount
      (history (addEntries calls25 (constructor NoFile)))
  = [25; 24; 23; 22; 21; 20; 19; 18; 17; 16; 15; 14; 13; 12; 11; 10; 9; 8;
     7; 6].
Proof. reflexivity. Qed.

(** C5, as the specification has it, fails at this input.  The history
    file holds 25 entries, the oldest 29 seconds old when it is read.
    When [loadHistory] has run, the history holds all 25 of them, more
    than MAX_HISTORY_ENTRIES, and nothing has been written; it is the
    next addEntry that cuts the history to 20. *)
Theorem loadHistory_exceeds_capacity :
  let s :=
    loadHistory (tz := utc) 30000 true (Stored stored25)
                (constructor (Stored stored25)) in
  history s = stored25
  /\ List.length (history s) = 25%nat
  /\ MAX_HISTORY_ENTRIES < Z.of_nat (List.length (history s))
  /\ writes s = []
  /\ List.length
       (history (addEntry 31000 true
                   (mkNewEntry "consult_ai" "claude" "question" "answer"
                               [] 26) s)) = 20%nat.
Proof. cbv zeta. vm_compute. repeat split; congruence. Qed.

Lemma filter_all_length {A} (p : A -> bool) (l : list A) :
  List.length (List.filter p l) = List.length l <-> Forall (fun x => p x = true) l.
Proof.
  split.
  - intros H. apply filter_length_forallb in H.
    apply List.Forall_forall. intros x Hx.
    rewrite forallb_forall in H. by apply H.
  - induction 1 as [|x l Hx _ IH]; simpl; [reflexivity|].
    rewrite Hx. simpl. by rewrite IH.
Qed.

Lemma filter_all {A} (p : A -> bool) (l : list A) :
  Forall (fun x => p x = true) l -> List.filter p l = l.
Proof.
  induction 1 as [|x l Hx _ IH]; simpl; [reflexivity|].
  by rewrite Hx, IH.
Qed.

Lemma hoursBefore_sameOffset h now :
  sameOffset h now -> Js.hoursBefore h now = now - h * 3600000.
Proof.
  unfold sameOffset, Js.hoursBefore. cbv zeta. intros Hsame.
  change (60 * 60 * 1000) with 3600000. rewrite Hsame. lia.
Qed.

(** C6, as the specification has it, fails at this input.  The host
    keeps Central European time and [loadHistory] runs at
    2025-10-26T13:00:00Z, twelve hours after the end of summer time; the
    file holds one entry, made 24 hours and 30 minutes before.
    [setHours(getHours() - 24)] gives the instant 25 hours before the
    load, so the entry stays in the history and nothing is written. *)
Theorem loadHistory_keeps_entry_older_than_24h :
  let now := 1761483600000 in
  let old := mkEntry (now - 88200000) "consult_ai" "claude" "q" "r" [] 10 in
  let s :=
    loadHistory (tz := centralEurope) now true (Stored [old])
                (constructor (Stored [old])) in
  timestamp old < now - 24 * 3600000
  /\ Js.hoursBefore (tz := centralEurope) MAX_AGE_HOURS now
     = now - 25 * 3600000
  /\ history s = [old]
  /\ writes s = []
  /\ file s = Stored [old].
Proof. cbv zeta. vm_compute. repeat split; congruence. Qed.

End ConversationHistoryFacts.

Section RelevanceFacts.
Import ConversationHistoryManager.
Context {tz : TimeZone}.

Lemma sublist_List_filter {A} (p : A -> bool) (l : list A) :
  List.filter p l `sublist_of` l.
Proof.
  induction l as [|x l IH]; simpl; [constructor|].
  destruct (p x); by constructor.
Qed.

Lemma getRelevantHistory_sublist now q t limit h :
  getRelevantHistory now q t limit h `sublist_of` h.
Proof.
  unfold getRelevantHistory, getRecentHistory.
  etrans; [apply sublist_take|].
  etrans; [apply sublist_List_filter|].
  etrans; [apply sublist_take|].
  apply sublist_List_filter.
Qed.

Lemma isRelevant_score t kw e :
  isRelevant t kw e = true <-> (3 # 10 < weightedScore t kw e)%Q.
Proof.
  unfold isRelevant, weightedScore, calculateRelevance, matchedKeywords.
  rewrite (Z.max_comm 1). rewrite negb_true_iff.
  split.
  - intros H. apply Qnot_le_lt. intros Hle.
    apply Qle_bool_iff in Hle. congruence.
  - intros H. destruct (Qle_bool _ _) eqn:Hb; [|reflexivity].
    apply Qle_bool_iff in Hb. exfalso. eapply Qlt_not_le; eassumption.
Qed.

Lemma relevance_nonneg kw e :
  (0 <= inject_Z (matchedKeywords kw e)
        / inject_Z (Z.max 1 (Z.of_nat (List.length kw))))%Q.
Proof.
  apply Qle_shift_div_l.
  - change 0%Q with (inject_Z 0). rewrite <- Zlt_Qlt. lia.
  - rewrite Qmult_0_l. change 0%Q with (inject_Z 0). rewrite <- Zle_Qle.
    unfold matchedKeywords. lia.
Qed.

Lemma same_tool_score_ge t kw e1 e2 :
  tool e2 = t -> matchedKeywords kw e2 = matchedKeywords kw e1 ->
  (weightedScore t kw e1 <= weightedScore t kw e2)%Q.
Proof.
  intros Ht Hm. unfold weightedScore. rewrite Hm, Ht, String.eqb_refl.
  pose proof (relevance_nonneg kw e1) as Hx.
  set (x := (inject_Z (matchedKeywords kw e1) / _)%Q) in *.
  destruct (String.eqb (tool e1) t).
  - apply Qle_refl.
  - change (inject_Z 1) with 1%Q. change (inject_Z 2) with 2%Q. lra.
Qed.

(** C7, as the specification has it, fails: with the limit 1 the newer
    entry of another tool is returned and the entry of the querying tool
    with the same keywords is not. *)
Lemma same_tool_entry_not_always_retained :
  let h := [crossToolEntry; sameToolEntry] in
  let kw := extractKeywords "retry backoff" in
  let r :=
    getRelevantHistory (tz := utc) 3000 "retry backoff" "consult_ai" 1 h in
  r = [crossToolEntry]
  /\ tool crossToolEntry <> "consult_ai"%string
  /\ tool sameToolEntry = "consult_ai"%string
  /\ matchedKeywords kw sameToolEntry = matchedKeywords kw crossToolEntry
  /\ In crossToolEntry r
  /\ ~ In sameToolEntry r.
Proof.
  cbv zeta.
  assert (Hr : getRelevantHistory (tz := utc) 3000 "retry backoff"
                 "consult_ai" 1
                 [crossToolEntry; sameToolEntry] = [crossToolEntry])
    by (vm_compute; reflexivity).
  rewrite Hr. repeat split; try (vm_compute; congruence).
  - by left.
  - intros [H|[]]. discriminate H.
Qed.

Lemma In_firstn {A} n (l : list A) x : In x (firstn n l) -> In x l.
Proof.
  revert n. induction l as [|a l IH]; intros [|n]; simpl; try tauto.
  intros [->|H]; [by left | right; eauto].
Qed.

Lemma firstn_reaches {A} n (l1 : list A) x l2 y :
  In y (firstn n (l1 ++ x :: l2)) -> ~ In y l1 ->
  exists l2', firstn n (l1 ++ x :: l2) = l1 ++ x :: l2'.
Proof.
  intros Hy Hnot. rewrite List.firstn_app in *.
  destruct (le_lt_dec n (List.length l1)) as [Hle|Hlt].
  - exfalso. apply Hnot.
    replace (n - List.length l1)%nat with 0%nat in Hy by lia.
    rewrite app_nil_r in Hy. revert Hy. apply In_firstn.
  - rewrite (firstn_all2 l1) by lia.
    destruct (n - List.length l1)%nat as [|k] eqn:Hk; [lia|].
    by eexists.
Qed.

(** C7 (amended): every entry returned has a weighted score above 0.3;
    the entries returned are a subsequence of the history, in its order,
    and at most [maxEntries]; an entry of the querying tool passes the
    threshold whenever an entry with the same number of matched keywords
    does, and it is returned with that entry, for every [maxEntries], if
    it is fresh and stands before that entry in the history, and also,
    wherever it stands among the ten fresh candidates, if [maxEntries] is
    at least ten or at least the number of candidates that pass the
    threshold.  (The freshness window and the two truncations go by the
    place in the history alone.) *)
Theorem getRelevantHistory_selects now q t maxEntries h :
  let r := getRelevantHistory now q t maxEntries h in
  let kw := extractKeywords q in
  (forall e, In e r -> (3 # 10 < weightedScore t kw e)%Q)
  /\ r `sublist_of` h
  /\ (List.length r <= maxEntries)%nat
  /\ (forall e1 e2,
        tool e2 = t ->
        matchedKeywords kw e2 = matchedKeywords kw e1 ->
        isRelevant t kw e1 = true -> isRelevant t kw e2 = true)
  /\ (forall e1 e2 before after,
        tool e2 = t ->
        matchedKeywords kw e2 = matchedKeywords kw e1 ->
        h = before ++ e2 :: after ->
        ~ In e1 before ->
        Js.hoursBefore CONTEXT_FRESHNESS_HOURS now < timestamp e2 ->
        In e1 r -> In e2 r)
  /\ (forall e1 e2,
        (10 <= maxEntries)%nat
        \/ (List.length
              (List.filter (isRelevant t kw) (getRecentHistory now 10 h))
            <= maxEntries)%nat ->
        tool e2 = t ->
        matchedKeywords kw e2 = matchedKeywords kw e1 ->
        In e2 (getRecentHistory now 10 h) ->
        In e1 r -> In e2 r).
Proof.
  cbv zeta.
  assert (Hpref : forall e1 e2,
             tool e2 = t ->
             matchedKeywords (extractKeywords q) e2
             = matchedKeywords (extractKeywords q) e1 ->
             isRelevant t (extractKeywords q) e1 = true ->
             isRelevant t (extractKeywords q) e2 = true).
  { intros e1 e2 Ht Hm. rewrite !isRelevant_score. intros H1.
    eapply Qlt_le_trans; [exact H1|]. by apply same_tool_score_ge. }
  split; [|split; [|split; [|split; [|split]]]].
  - intros e He. apply isRelevant_score.
    unfold getRelevantHistory in He.
    apply list_elem_of_In in He.
    apply (fun H => elem_of_sublist _ _ _ H (sublist_take _ _)) in He.
    apply list_elem_of_In, filter_In in He. tauto.
  - apply getRelevantHistory_sublist.
  - apply firstn_le_length.
  - exact Hpref.
  - intros e1 e2 before after Ht Hm -> Hnot Hfresh H1.
    unfold getRelevantHistory, getRecentHistory in *.
    set (F := fun entry => _ <? timestamp entry) in *.
    set (P := isRelevant t (extractKeywords q)) in *.
    assert (HF : F e2 = true) by (by apply Z.ltb_lt).
    assert (Hfresh' : List.filter F (before ++ e2 :: after)
                      = List.filter F before ++ e2 :: List.filter F after).
    { rewrite List.filter_app. cbn [List.filter]. by rewrite HF. }
    rewrite Hfresh' in *.
    assert (H1' := H1). apply In_firstn, filter_In in H1' as [Hin HP].
    destruct (firstn_reaches _ _ _ _ _ Hin) as [l2 Hcut].
    { rewrite filter_In. tauto. }
    rewrite Hcut in *.
    assert (Hpass : List.filter P (List.filter F before ++ e2 :: l2)
                    = List.filter P (List.filter F before)
                      ++ e2 :: List.filter P l2).
    { rewrite List.filter_app. cbn [List.filter].
      by rewrite (Hpref e1 e2 Ht Hm HP). }
    rewrite Hpass in *.
    destruct (firstn_reaches _ _ _ _ _ H1) as [l3 Hout].
    { rewrite !filter_In. tauto. }
    rewrite Hout. apply in_or_app. right. by left.
  - intros e1 e2 Hlim Ht Hm Hfresh H1.
    unfold getRelevantHistory in *.
    set (cands := getRecentHistory now 10 h) in *.
    assert (Hlen : (List.length cands <= 10)%nat)
      by apply firstn_le_length.
    assert (Hall : (List.length
                      (List.filter (isRelevant t (extractKeywords q)) cands)
                    <= maxEntries)%nat).
    { destruct Hlim as [Hlim|Hlim]; [|exact Hlim].
      etrans; [apply filter_length_le|lia]. }
    rewrite firstn_all2 in * by exact Hall.
    apply filter_In in H1. apply filter_In. split; [assumption|].
    destruct H1 as [_ H1]. eapply Hpref; eassumption.
Qed.

Lemma no_keywords q :
  Forall (fun word => (String.length word <= 3)%nat \/ In word stopWords)
         (Js.split_whitespace (Js.toLowerCase q)) ->
  extractKeywords q = [].
Proof.
  unfold extractKeywords.
  induction 1 as [|word words Hw _ IH]; cbn [List.filter]; [reflexivity|].
  destruct (Z.ltb_spec 3 (Js.length word)) as [Hlong|_];
    cbn [List.filter]; [|exact IH].
  destruct Hw as [Hshort|Hstop].
  - unfold Js.length in Hlong. lia.
  - assert (Hinc : Js.array_includes stopWords word = true).
    { apply existsb_exists. exists word.
      split; [exact Hstop | apply String.eqb_refl]. }
    rewrite Hinc. exact IH.
Qed.

Lemma isRelevant_no_keywords t e : isRelevant t [] e = false.
Proof.
  unfold isRelevant, calculateRelevance. simpl.
  destruct (String.eqb (tool e) t); reflexivity.
Qed.

(** C9: when every white-space separated token of the lower-cased query
    has at most 3 characters or is a stop word, there are no keywords,
    every relevance is 0 / max(0, 1) = 0, and getRelevantHistory returns
    the empty list for every history, tool and limit. *)
Theorem getRelevantHistory_without_keywords now q t maxEntries h :
  Forall (fun word => (String.length word <= 3)%nat \/ In word stopWords)
         (Js.split_whitespace (Js.toLowerCase q)) ->
  extractKeywords q = []
  /\ (forall content,
        (calculateRelevance content (extractKeywords q) == 0)%Q)
  /\ (forall e, (weightedScore t (extractKeywords q) e == 0)%Q)
  /\ getRelevantHistory now q t maxEntries h = [].
Proof.
  intros Hq. apply no_keywords in Hq.
  split; [exact Hq|]. rewrite Hq. split; [|split].
  - intros content. reflexivity.
  - intros e. unfold weightedScore, matchedKeywords. simpl.
    destruct (String.eqb (tool e) t); reflexivity.
  - unfold getRelevantHistory. rewrite Hq.
    induction (getRecentHistory now 10 h) as [|e l IH]; simpl.
    + by destruct maxEntries.
    + rewrite isRelevant_no_keywords. exact IH.
Qed.

End RelevanceFacts.

Section RelevanceSamples.
Import ConversationHistoryManager.

Lemma getRelevantHistory_selects_witness :
  let r := getRelevantHistory (tz := utc) 3000 "retry backoff" "consult_ai" 10
             [crossToolEntry; sameToolEntry] in
  In sameToolEntry r /\ (List.length r <= 10)%nat.
Proof.
  cbv zeta.
  destruct (getRelevantHistory_selects (tz := utc) 3000 "retry backoff"
              "consult_ai" 10 [crossToolEntry; sameToolEntry])
    as (_ & _ & Hlen & _ & _ & Hkeep).
  split; [|exact Hlen].
  apply (Hkeep crossToolEntry sameToolEntry).
  - left. lia.
  - reflexivity.
  - vm_compute. reflexivity.
  - vm_compute. right. left. reflexivity.
  - vm_compute. left. reflexivity.
Defined.

Lemma getRelevantHistory_without_keywords_witness :
  getRelevantHistory (tz := utc) 3000 "Why  WITH this fix it" "consult_ai" 5
    [crossToolEntry; sameToolEntry] = [].
Proof.
  apply getRelevantHistory_without_keywords.
  vm_compute.
  repeat (apply List.Forall_cons; [(left; lia) || (right; tauto)|]).
  apply List.Forall_nil.
Defined.

End RelevanceSamples.

Section ProjectContextFacts.
Import ContextManager.

(** C8, as the specification has it, fails: five minutes after the
    snapshot was taken, with a directory that [process.cwd()] cannot
    name, nothing is read and the cache keeps the old snapshot. *)
Lemma stale_cache_not_always_replaced :
  let result := getProjectContext 300000 300001 lostWorkspace
                                  (Some oldSnapshot) in
  stale 300000 (Some oldSnapshot)
  /\ snd result = Some oldSnapshot
  /\ fst result
     = mkProjectContext "Error loading README.md"
         "Error loading package.json"
         "Error determining project structure" 300001
  /\ snd result <> Some (fst result).
Proof.
  cbv zeta. split; [vm_compute; discriminate|].
  split; [reflexivity|]. split; [reflexivity|]. discriminate.
Qed.

(** C8 (amended): a cached snapshot younger than five minutes is returned
    and kept as it is; otherwise, when the workspace directory is known
    (a workspace is set or [process.cwd()] returns), the readme, the
    manifest and the listing are read again and the cache becomes the new
    snapshot, each field made from its own read alone, with a placeholder
    when that read fails; when the directory cannot be named the cache is
    left alone and a snapshot of three error placeholders is returned.
    The operation itself never fails. *)
Theorem getProjectContext_cache now refreshed w projectContext :
  let result := getProjectContext now refreshed w projectContext in
  (forall cached,
      projectContext = Some cached ->
      now - lastUpdated cached < PROJECT_CONTEXT_TTL ->
      result = (cached, Some cached))
  /\ (forall workspaceDir,
        stale now projectContext ->
        getCurrentWorkspaceDir w = Done workspaceDir ->
        snd result = Some (fst result)
        /\ lastUpdated (fst result) = refreshed
        /\ readme (fst result)
           = Js.or_else (readFileIfExists (readmeFile w))
                        "No README.md found"
        /\ packageJson (fst result)
           = Js.or_else (readFileIfExists (packageJsonFile w))
                        "No package.json found"
        /\ structure (fst result)
           = Js.or_else (Some (getProjectStructure w))
                        "Could not determine project structure"
        /\ (readmeFile w = Fails ->
            readme (fst result) = "No README.md found"%string)
        /\ (packageJsonFile w = Fails ->
            packageJson (fst result) = "No package.json found"%string)
        /\ (items w = Fails ->
            structure (fst result)
            = "Error reading project structure"%string))
  /\ (stale now projectContext ->
      getCurrentWorkspaceDir w = Fails ->
      result
      = (mkProjectContext "Error loading README.md"
           "Error loading package.json"
           "Error determining project structure" refreshed,
         projectContext)).
Proof.
  cbv zeta. unfold getProjectContext, stale. split; [|split].
  - intros cached -> Hfresh.
    destruct (Z.ltb_spec (now - lastUpdated cached) PROJECT_CONTEXT_TTL);
      [reflexivity | lia].
  - intros workspaceDir Hstale Hdir. rewrite Hdir.
    assert (Hread : forall f, f = Fails -> forall d,
                 Js.or_else (readFileIfExists f) d = d)
      by (intros f -> d; reflexivity).
    destruct projectContext as [cached|].
    + destruct (Z.ltb_spec (now - lastUpdated cached) PROJECT_CONTEXT_TTL);
        [lia|]. simpl.
      repeat split; try (intros Hf; by apply Hread).
      intros Hf. unfold getProjectStructure. by rewrite Hf.
    + simpl. repeat split; try (intros Hf; by apply Hread).
      intros Hf. unfold getProjectStructure. by rewrite Hf.
  - intros Hstale Hdir. rewrite Hdir.
    destruct projectContext as [cached|]; [|reflexivity].
    destruct (Z.ltb_spec (now - lastUpdated cached) PROJECT_CONTEXT_TTL);
      [lia | reflexivity].
Qed.

Lemma getProjectContext_cache_witness :
  getProjectContext 1000 1001 bareWorkspace (Some oldSnapshot)
  = (oldSnapshot, Some oldSnapshot)
  /\ readme (fst (getProjectContext 300000 300001 bareWorkspace
                                    (Some oldSnapshot)))
     = "No README.md found"%string
  /\ getProjectContext 300000 300001 lostWorkspace None
     = (mkProjectContext "Error loading README.md"
          "Error loading package.json"
          "Error determining project structure" 300001, None).
Proof.
  split; [|split].
  - apply (getProjectContext_cache 1000 1001 bareWorkspace
             (Some oldSnapshot)); [reflexivity|].
    vm_compute. reflexivity.
  - destruct (getProjectContext_cache 300000 300001 bareWorkspace
                (Some oldSnapshot)) as (_ & H & _).
    destruct (H "/work/project"%string) as (_ & _ & _ & _ & _ & Hr & _).
    + vm_compute. discriminate.
    + reflexivity.
    + apply Hr. reflexivity.
  - apply (getProjectContext_cache 300000 300001 lostWorkspace None);
      reflexivity || exact I.
Defined.

End ProjectContextFacts.

Section StringFacts.

Lemma append_cons c (s t : string) : String c s +:+ t = String c (s +:+ t).
Proof. reflexivity. Qed.

Lemma append_nil_l (s : string) : "" +:+ s = s.
Proof. reflexivity. Qed.

Lemma append_nil_r (s : string) : s +:+ "" = s.
Proof. induction s as [|c s IH]; [reflexivity|]. by rewrite append_cons, IH. Qed.

Lemma append_assoc (s t u : string) : (s +:+ t) +:+ u = s +:+ t +:+ u.
Proof.
  induction s as [|c s IH]; [reflexivity|].
  by rewrite !append_cons, IH.
Qed.

Lemma length_append (s t : string) :
  String.length (s +:+ t) = (String.length s + String.length t)%nat.
Proof.
  induction s as [|c s IH]; [reflexivity|].
  rewrite append_cons. simpl. by rewrite IH.
Qed.

Lemma prefix_nil (s : string) : String.prefix "" s = true.
Proof. by destruct s. Qed.

Lemma prefix_append (t s : string) :
  String.prefix t s = true <-> exists b, s = t +:+ b.
Proof.
  revert s. induction t as [|c t IH]; intros s.
  - rewrite prefix_nil. split; [|done]. intros _. by exists s.
  - destruct s as [|d s]; simpl.
    + split; [done|]. intros [b Hb]. discriminate Hb.
    + destruct (ascii_dec c d) as [->|Hcd].
      * rewrite IH. split; intros [b Hb]; exists b.
        -- by rewrite append_cons, Hb.
        -- rewrite append_cons in Hb. congruence.
      * split; [done|]. intros [b Hb]. rewrite append_cons in Hb.
        congruence.
Qed.

Lemma includes_append (s t : string) :
  Js.includes s t = true <-> exists a b, s = a +:+ t +:+ b.
Proof.
  induction s as [|c s IH]; cbn [Js.includes].
  - rewrite orb_false_r, prefix_append. split.
    + intros [b Hb]. by exists ""%string, b.
    + intros (a & b & Hab). destruct a as [|d a].
      * by exists b.
      * rewrite append_cons in Hab. discriminate Hab.
  - rewrite orb_true_iff, prefix_append, IH. split.
    + intros [[b Hb]|(a & b & Hab)].
      * by exists ""%string, b.
      * exists (String c a), b. by rewrite append_cons, Hab.
    + intros (a & b & Hab). destruct a as [|d a].
      * left. by exists b.
      * right. rewrite append_cons in Hab. exists a, b. congruence.
Qed.

Lemma toLowerCase_append (s t : string) :
  Js.toLowerCase (s +:+ t) = Js.toLowerCase s +:+ Js.toLowerCase t.
Proof.
  induction s as [|c s IH]; [reflexivity|].
  rewrite append_cons. simpl. by rewrite IH, append_cons.
Qed.

Lemma toLowerCase_split (s x y : string) :
  Js.toLowerCase s = x +:+ y ->
  exists s1 s2, s = s1 +:+ s2
                /\ Js.toLowerCase s1 = x /\ Js.toLowerCase s2 = y.
Proof.
  revert s. induction x as [|c x IH]; intros s Hs.
  - by exists ""%string, s.
  - destruct s as [|d s]; [discriminate Hs|].
    rewrite append_cons in Hs. simpl in Hs.
    injection Hs as Hc Hs. destruct (IH s Hs) as (s1 & s2 & -> & H1 & H2).
    exists (String d s1), s2. simpl. by rewrite Hc, H1.
Qed.

(** The test of the source, [message.toLowerCase().includes(marker)],
    for a marker in lower case. *)
Lemma includes_ignoring_case (message marker : string) :
  Js.toLowerCase marker = marker ->
  Js.includes (Js.toLowerCase message) marker = true
  <-> containsIgnoringCase message marker.
Proof.
  intros Hlow. rewrite includes_append. unfold containsIgnoringCase.
  rewrite Hlow. split.
  - intros (a & b & Hab).
    apply toLowerCase_split in Hab. destruct Hab as (s1 & s23 & -> & _ & H).
    apply toLowerCase_split in H. destruct H as (s2 & s3 & -> & H2 & _).
    by exists s1, s2, s3.
  - intros (before & found & after & -> & Hf).
    exists (Js.toLowerCase before), (Js.toLowerCase after).
    by rewrite !toLowerCase_append, Hf.
Qed.

Lemma take_drop_string n (s : string) : Js.take n s +:+ Js.drop n s = s.
Proof.
  revert s. induction n as [|n IH]; intros [|c s]; try reflexivity.
  simpl. by rewrite append_cons, IH.
Qed.

Lemma drop_append (t b : string) : Js.drop (String.length t) (t +:+ b) = b.
Proof. induction t as [|c t IH]; [by destruct b | exact IH]. Qed.

Lemma take_append (t b : string) : Js.take (String.length t) (t +:+ b) = t.
Proof.
  induction t as [|c t IH]; [by destruct b|].
  rewrite append_cons. simpl. by rewrite IH.
Qed.

Lemma length_take n (s : string) :
  String.length (Js.take n s) = Nat.min n (String.length s).
Proof.
  revert s. induction n as [|n IH]; intros [|c s]; try reflexivity.
  simpl. by rewrite IH.
Qed.

Lemma prefix_drop sep s :
  String.prefix sep s = true -> s = sep +:+ Js.drop (String.length sep) s.
Proof.
  intros Hp. apply prefix_append in Hp. destruct Hp as [b ->].
  by rewrite drop_append.
Qed.

(** [find_sep] cuts at an occurrence of the separator. *)
Lemma find_sep_Some sep s a b :
  Js.find_sep sep s = Some (a, b) -> s = a +:+ sep +:+ b.
Proof.
  revert a. induction s as [|c s IH]; intros a; cbn [Js.find_sep].
  - destruct (String.prefix sep "") eqn:Hp; [|done].
    intros [= <- <-]. by apply prefix_drop.
  - destruct (String.prefix sep (String c s)) eqn:Hp.
    + intros [= <- <-]. by apply prefix_drop.
    + destruct (Js.find_sep sep s) as [[a' b']|]; [|done].
      intros [= <- <-]. rewrite append_cons. f_equal. by apply IH.
Qed.

(** It finds nothing exactly when the separator does not occur. *)
Lemma find_sep_None sep s :
  Js.find_sep sep s = None <-> Js.includes s sep = false.
Proof.
  induction s as [|c s IH]; cbn [Js.find_sep Js.includes].
  - destruct (String.prefix sep ""); simpl; split; congruence.
  - destruct (String.prefix sep (String c s)); simpl; [split; congruence|].
    rewrite <- IH. destruct (Js.find_sep sep s) as [[a b]|];
      split; congruence.
Qed.

Lemma find_sep_shorter sep s a b :
  sep <> ""%string -> Js.find_sep sep s = Some (a, b) ->
  (String.length b < String.length s)%nat.
Proof.
  intros Hsep H. apply find_sep_Some in H. subst s.
  rewrite !length_append. destruct sep; [done|]. simpl. lia.
Qed.

(** More rounds than the string has code units do not change [split]. *)
Lemma split_loop_rounds_enough sep fuel1 fuel2 s :
  sep <> ""%string ->
  (String.length s <= fuel1)%nat -> (String.length s <= fuel2)%nat ->
  Js.split_loop fuel1 s sep = Js.split_loop fuel2 s sep.
Proof.
  intros Hsep. revert fuel2 s.
  induction fuel1 as [|fuel1 IH]; intros [|fuel2] s H1 H2;
    cbn [Js.split_loop]; try reflexivity.
  - destruct (Js.find_sep sep s) as [[a b]|] eqn:Hf; [|reflexivity].
    apply find_sep_shorter in Hf; [lia | done].
  - destruct (Js.find_sep sep s) as [[a b]|] eqn:Hf; [|reflexivity].
    apply find_sep_shorter in Hf; [lia | done].
  - destruct (Js.find_sep sep s) as [[a b]|] eqn:Hf; [|reflexivity].
    apply find_sep_shorter in Hf; [|done].
    f_equal. apply IH; lia.
Qed.

Lemma split_step sep s :
  sep <> ""%string ->
  Js.split s sep
  = match Js.find_sep sep s with
    | None => [s]
    | Some (a, b) => a :: Js.split b sep
    end.
Proof.
  intros Hsep. unfold Js.split. destruct sep as [|c sep]; [done|].
  destruct (String.length s) as [|n] eqn:Hn; cbn [Js.split_loop].
  - destruct (Js.find_sep (String c sep) s) as [[a b]|] eqn:Hf;
      [|reflexivity].
    apply find_sep_shorter in Hf; [lia | done].
  - destruct (Js.find_sep (String c sep) s) as [[a b]|] eqn:Hf;
      [|reflexivity].
    apply find_sep_shorter in Hf; [|done].
    f_equal. apply split_loop_rounds_enough; [done | lia | lia].
Qed.

Lemma split_not_nil sep s : sep <> ""%string -> Js.split s sep <> [].
Proof.
  intros Hsep. rewrite (split_step sep s Hsep).
  by destruct (Js.find_sep sep s) as [[a b]|].
Qed.

(** A string is split in two exactly when the separator occurs in it and
    not again after the first occurrence. *)
Lemma split_two sep s x y :
  sep <> ""%string ->
  Js.split s sep = [x; y]
  <-> Js.find_sep sep s = Some (x, y) /\ Js.includes y sep = false.
Proof.
  intros Hsep. rewrite (split_step sep s Hsep).
  destruct (Js.find_sep sep s) as [[a b]|]; [|split; [done | by intros []]].
  rewrite (split_step sep b Hsep), <- find_sep_None.
  destruct (Js.find_sep sep b) as [[a' b']|] eqn:Hb.
  - pose proof (split_not_nil sep b' Hsep).
    split; [destruct (Js.split b' sep); done|].
    intros [[= -> ->] Hy]. congruence.
  - split.
    + by intros [= -> ->].
    + by intros [[= -> ->] _].
Qed.

Lemma find_sep_unfold sep s :
  Js.find_sep sep s
  = if String.prefix sep s
    then Some (""%string, Js.drop (String.length sep) s)
    else match s with
         | EmptyString => None
         | String c s' =>
             match Js.find_sep sep s' with
             | Some (a, b) => Some (String c a, b)
             | None => None
             end
         end.
Proof. by destruct s. Qed.

Lemma append_eq_append (a u s r : string) :
  a +:+ u = s +:+ r ->
  (exists x, s = a +:+ x /\ u = x +:+ r)
  \/ (exists x, a = s +:+ x /\ r = x +:+ u).
Proof.
  revert s. induction a as [|c a IH]; intros s H.
  - left. by exists s.
  - destruct s as [|d s].
    + right. by exists (String c a).
    + rewrite !append_cons in H. injection H as -> H.
      destruct (IH s H) as [(x & -> & ->)|(x & -> & ->)];
        [left | right]; by exists x.
Qed.

(** Before its first occurrence a separator that does not overlap itself
    cannot begin. *)
Lemma find_sep_first sep a b :
  selfOverlap sep = false -> Js.includes a sep = false ->
  Js.find_sep sep (a +:+ sep +:+ b) = Some (a, b).
Proof.
  intros Hover. induction a as [|c a IH]; intros Hinc.
  - rewrite append_nil_l, find_sep_unfold.
    assert (Hp : String.prefix sep (sep +:+ b) = true)
      by (apply prefix_append; by exists b).
    by rewrite Hp, drop_append.
  - cbn [Js.includes] in Hinc. apply orb_false_iff in Hinc.
    destruct Hinc as [Hpre Hinc].
    rewrite append_cons. cbn [Js.find_sep]. rewrite (IH Hinc).
    destruct (String.prefix sep (String c (a +:+ sep +:+ b))) eqn:Hp;
      [exfalso | reflexivity].
    apply prefix_append in Hp. destruct Hp as [r Hr].
    rewrite <- append_cons in Hr.
    destruct (append_eq_append _ _ _ _ Hr) as [(x & Hs & Hx)|(x & Ha & _)].
    + (* the separator begins in [a] and ends after it *)
      assert (Hk : String.prefix (Js.drop (String.length (String c a)) sep)
                                 sep = true).
      { rewrite Hs at 1. rewrite drop_append. apply prefix_append.
        destruct (append_eq_append _ _ _ _ Hx) as [(y & Hy & _)|(y & Hy & _)].
        - apply (f_equal String.length) in Hs, Hy.
          rewrite !length_append in *. simpl in Hs. lia.
        - by exists y. }
      assert (Hlen : (String.length (String c a) < String.length sep)%nat).
      { destruct x as [|d x].
        - rewrite append_nil_r in Hs. subst sep.
          assert (String.prefix (String c a) (String c a) = true)
            by (apply prefix_append; exists ""%string;
                by rewrite append_nil_r).
          congruence.
        - rewrite Hs, length_append. simpl. lia. }
      unfold selfOverlap in Hover.
      assert (Hex : existsb (fun k => String.prefix (Js.drop k sep) sep)
                            (seq 1 (String.length sep - 1)) = true).
      { apply existsb_exists. exists (String.length (String c a)).
        split; [|exact Hk]. apply in_seq. simpl in *. lia. }
      congruence.
    + (* the separator lies within [a] *)
      assert (String.prefix sep (String c a) = true)
        by (apply prefix_append; by exists x).
      congruence.
Qed.

End StringFacts.

Section RetryFacts.
Import AICollaborationServer.

Lemma nonRetryable_markers message :
  nonRetryable (ErrorObject message) = true
  <-> Exists (containsIgnoringCase message) nonRetryableMarkers.
Proof.
  unfold nonRetryable, nonRetryableMarkers.
  rewrite !orb_true_iff, !includes_ignoring_case by reflexivity.
  rewrite !Exists_cons, Exists_nil. tauto.
Qed.

Lemma transient_retried error :
  transient error <-> nonRetryable error = false.
Proof.
  destruct error as [message|shown]; simpl transient.
  - rewrite <- nonRetryable_markers.
    destruct (nonRetryable (ErrorObject message)); split; congruence.
  - done.
Qed.

Section Loop.
Context {T W : Type}.
Variable operation : W -> Outcome T * W.
Variables maxRetries baseDelay : Z.

(** The bound on the rounds does not matter once it covers the rounds
    that the loop can still make. *)
Lemma retryLoop_rounds_enough rounds1 rounds2 attempt lastError w :
  maxRetries + 1 - attempt <= Z.of_nat rounds1 ->
  maxRetries + 1 - attempt <= Z.of_nat rounds2 ->
  retryLoop operation maxRetries baseDelay rounds1 attempt lastError w
  = retryLoop operation maxRetries baseDelay rounds2 attempt lastError w.
Proof.
  revert rounds2 attempt lastError w.
  induction rounds1 as [|rounds1 IH];
    intros [|rounds2] attempt lastError w H1 H2; cbn [retryLoop];
    try reflexivity.
  - destruct (Z.leb_spec attempt maxRetries); [lia | reflexivity].
  - destruct (Z.leb_spec attempt maxRetries); [lia | reflexivity].
  - destruct (attempt <=? maxRetries); [|reflexivity].
    destruct (operation w) as [[value|error] w']; [reflexivity|].
    destruct (nonRetryable error); [reflexivity|].
    destruct (Z.eqb_spec attempt maxRetries); [reflexivity|].
    rewrite (IH rounds2) by lia. reflexivity.
Qed.

Lemma retryLoop_events rounds attempt lastError w :
  let events :=
    snd (retryLoop operation maxRetries baseDelay rounds attempt
                   lastError w) in
  (invocations events <= rounds)%nat
  /\ delays events
     = map (fun a => baseDelay * 2 ^ (attempt + Z.of_nat a))
           (seq 0 (List.length (delays events))).
Proof.
  cbv zeta. revert attempt lastError w.
  induction rounds as [|rounds IH]; intros attempt lastError w;
    cbn [retryLoop].
  - split; [unfold invocations; simpl; lia | reflexivity].
  - destruct (attempt <=? maxRetries);
      [|split; [unfold invocations; simpl; lia | reflexivity]].
    destruct (operation w) as [[value|error] w'];
      [split; [unfold invocations; simpl; lia | reflexivity]|].
    destruct (nonRetryable error);
      [split; [unfold invocations; simpl; lia | reflexivity]|].
    destruct (attempt =? maxRetries);
      [split; [unfold invocations; simpl; lia | reflexivity]|].
    specialize (IH (attempt + 1) error w').
    destruct (retryLoop operation maxRetries baseDelay rounds
                        (attempt + 1) error w') as [[result w''] events].
    cbn [snd] in *. destruct IH as [IHn IHd].
    split.
    + unfold invocations in *. simpl. lia.
    + change (delays (Invoke :: Sleep (baseDelay * 2 ^ attempt) :: events))
        with (baseDelay * 2 ^ attempt :: delays events).
      simpl. rewrite Z.add_0_r. f_equal.
      rewrite <- seq_shift, map_map. rewrite IHd at 1.
      apply map_ext. intros a. do 2 f_equal. lia.
Qed.

End Loop.

(** C3: when every invocation of the operation fails with an [Error]
    whose message has one of the markers 401, 403, invalid api key or
    unauthorized, whatever the case of the letters, retryWithBackoff
    invokes the operation once, does not wait, and throws that error. *)
Theorem retry_stops_at_non_retryable {T W} (operation : W -> Outcome T * W)
        maxRetries baseDelay w :
  0 <= maxRetries ->
  (forall w0, exists message,
      fst (operation w0) = Threw (ErrorObject message)
      /\ Exists (containsIgnoringCase message) nonRetryableMarkers) ->
  exists message,
    fst (operation w) = Threw (ErrorObject message)
    /\ retryWithBackoff operation maxRetries baseDelay w
       = (Threw (ErrorObject message), snd (operation w), [Invoke])
    /\ invocations
         (snd (retryWithBackoff operation maxRetries baseDelay w)) = 1%nat.
Proof.
  intros Hmax Hfail. destruct (Hfail w) as (message & Hop & Hmark).
  exists message. split; [exact Hop|].
  apply nonRetryable_markers in Hmark.
  assert (Hrun : retryWithBackoff operation maxRetries baseDelay w
                 = (Threw (ErrorObject message), snd (operation w),
                    [Invoke])).
  { unfold retryWithBackoff.
    destruct (Z.to_nat (maxRetries + 1)) as [|rounds] eqn:Hrounds; [lia|].
    cbn [retryLoop].
    destruct (Z.leb_spec 0 maxRetries); [|lia].
    destruct (operation w) as [outcome w']. simpl in Hop. subst outcome.
    by rewrite Hmark. }
  rewrite Hrun. split; reflexivity.
Qed.

Lemma retry_stops_at_non_retryable_witness :
  retryWithBackoff alwaysUnauthorized 3 200 O
  = (Threw (ErrorObject "HTTP 401: Unauthorized"), 1%nat, [Invoke]).
Proof.
  destruct (retry_stops_at_non_retryable alwaysUnauthorized 3 200 O)
    as (message & Hop & Hrun & _).
  - lia.
  - intros w0. exists "HTTP 401: Unauthorized"%string.
    split; [reflexivity|]. apply nonRetryable_markers. reflexivity.
  - rewrite Hrun. simpl in Hop. injection Hop as <-. reflexivity.
Defined.

(** C4: with maxRetries = 3 the operation is invoked at most 4 times and
    the wait before retry number a is baseDelay * 2^a; an operation that
    fails three times with transient failures and then succeeds is
    invoked 4 times, with the waits baseDelay, 2 baseDelay, 4 baseDelay,
    and its value is returned; if the fourth invocation fails as well,
    its failure is thrown. *)
Theorem retry_with_three_retries {T W} (operation : W -> Outcome T * W)
        baseDelay w :
  let run := retryWithBackoff operation 3 baseDelay w in
  let four :=
    [Invoke; Sleep baseDelay; Invoke; Sleep (baseDelay * 2); Invoke;
     Sleep (baseDelay * 4); Invoke] in
  (invocations (snd run) <= 4)%nat
  /\ delays (snd run)
     = map (fun a => baseDelay * 2 ^ Z.of_nat a)
           (seq 0 (List.length (delays (snd run))))
  /\ (forall e0 e1 e2 w1 w2 w3,
        operation w = (Threw e0, w1) -> transient e0 ->
        operation w1 = (Threw e1, w2) -> transient e1 ->
        operation w2 = (Threw e2, w3) -> transient e2 ->
        (forall value w4,
            operation w3 = (Returned value, w4) ->
            run = (Returned value, w4, four)
            /\ invocations four = 4%nat)
        /\ (forall e3 w4,
              operation w3 = (Threw e3, w4) ->
              run = (Threw e3, w4, four))).
Proof.
  cbv zeta. split; [|split].
  - apply (retryLoop_events operation 3 baseDelay 4 0).
  - apply (retryLoop_events operation 3 baseDelay 4 0).
  - intros e0 e1 e2 w1 w2 w3 H0 T0 H1 T1 H2 T2.
    apply transient_retried in T0, T1, T2.
    unfold retryWithBackoff. change (Z.to_nat (3 + 1)) with 4%nat.
    cbn [retryLoop]. rewrite H0, T0. cbn [retryLoop Z.leb Z.eqb Z.add
      Z.compare Pos.compare Pos.compare_cont Pos.add Pos.succ Pos.eqb].
    rewrite H1, T1. cbn [retryLoop Z.leb Z.eqb Z.add
      Z.compare Pos.compare Pos.compare_cont Pos.add Pos.succ Pos.eqb].
    rewrite H2, T2. cbn [retryLoop Z.leb Z.eqb Z.add
      Z.compare Pos.compare Pos.compare_cont Pos.add Pos.succ Pos.eqb].
    replace (baseDelay * 2 ^ 0) with baseDelay by lia.
    replace (baseDelay * 2 ^ 1) with (baseDelay * 2) by lia.
    replace (baseDelay * 2 ^ 2) with (baseDelay * 4) by lia.
    split.
    + intros value w4 H3. rewrite H3. split; reflexivity.
    + intros e3 w4 H3. rewrite H3. by destruct (nonRetryable e3).
Qed.

Lemma retry_with_three_retries_witness :
  retryWithBackoff failsThreeTimes 3 200 O
  = (Returned "pong"%string, 4%nat,
     [Invoke; Sleep 200; Invoke; Sleep 400; Invoke; Sleep 800; Invoke]).
Proof.
  destruct (retry_with_three_retries failsThreeTimes 200 O)
    as (_ & _ & H).
  assert (Ht : transient (ErrorObject "fetch failed: ECONNRESET"))
    by (apply transient_retried; reflexivity).
  destruct (H (ErrorObject "fetch failed: ECONNRESET")
              (ErrorObject "fetch failed: ECONNRESET")
              (ErrorObject "fetch failed: ECONNRESET")
              1%nat 2%nat 3%nat eq_refl Ht eq_refl Ht eq_refl Ht)
    as (Hok & _).
  destruct (Hok "pong"%string 4%nat eq_refl) as (Hrun & _).
  exact Hrun.
Defined.

End RetryFacts.

Section ContextFacts.
Import ContextManager.
Context {tz : TimeZone}.

Lemma over_budget_length context :
  MAX_CONTEXT_TOKENS < estimateTokenCount context ->
  MAX_CONTEXT_TOKENS * 4 < Js.length context.
Proof.
  unfold estimateTokenCount, MAX_CONTEXT_TOKENS. intros H.
  Z.to_euclidean_division_equations. lia.
Qed.

Lemma historyHeading_not_nil : historyHeading <> ""%string.
Proof. discriminate. Qed.

Lemma queryHeading_not_nil : queryHeading <> ""%string.
Proof. discriminate. Qed.

Lemma truncateContext_collapse context beforeHistory rest mid afterQuery :
  MAX_CONTEXT_TOKENS * 4 < Js.length context ->
  Js.split context historyHeading = [beforeHistory; rest] ->
  Js.split rest queryHeading = [mid; afterQuery] ->
  context = beforeHistory +:+ historyHeading +:+ mid +:+ queryHeading
            +:+ afterQuery
  /\ truncateContext context
     = beforeHistory +:+ historyHeading +:+ truncatedHistoryNote
       +:+ queryHeading +:+ afterQuery.
Proof.
  intros Hlong Hs1 Hs2. split.
  - apply split_two in Hs1; [|apply historyHeading_not_nil].
    apply split_two in Hs2; [|apply queryHeading_not_nil].
    destruct Hs1 as [Hs1 _], Hs2 as [Hs2 _].
    apply find_sep_Some in Hs1, Hs2. by rewrite Hs1, Hs2.
  - unfold truncateContext.
    destruct (Z.leb_spec (Js.length context) (MAX_CONTEXT_TOKENS * 4));
      [lia|].
    by rewrite Hs1, Hs2.
Qed.

Lemma truncateContext_fallback context :
  MAX_CONTEXT_TOKENS * 4 < Js.length context ->
  (forall beforeHistory rest,
      Js.split context historyHeading = [beforeHistory; rest] ->
      forall mid afterQuery,
        Js.split rest queryHeading <> [mid; afterQuery]) ->
  truncateContext context
  = Js.slice0 context (Z.to_nat 32000) +:+ truncationMarker.
Proof.
  intros Hlong Hnot. unfold truncateContext.
  destruct (Z.leb_spec (Js.length context) (MAX_CONTEXT_TOKENS * 4));
    [lia|].
  change (MAX_CONTEXT_TOKENS * 4) with 32000 in *.
  destruct (Js.split context historyHeading)
    as [|beforeHistory [|rest [|]]] eqn:Hs1; try reflexivity.
  specialize (Hnot beforeHistory rest eq_refl).
  destruct (Js.split rest queryHeading)
    as [|mid [|afterQuery [|]]] eqn:Hs2; try reflexivity.
  by destruct (Hnot mid afterQuery).
Qed.

Lemma headings_do_not_overlap :
  selfOverlap historyHeading = false /\ selfOverlap queryHeading = false.
Proof. split; reflexivity. Qed.

Lemma assemble_splits toISOString projectContext fileContents freshHistory
      tool0 query0 :
  let overview := overviewPart projectContext fileContents in
  let past :=
    historyPart (formatConversationHistory toISOString freshHistory) in
  let asked := queryPart tool0 query0 in
  Js.includes overview historyHeading = false ->
  Js.includes (past +:+ queryHeading +:+ asked) historyHeading = false ->
  Js.includes past queryHeading = false ->
  Js.includes asked queryHeading = false ->
  Js.split (assemble toISOString projectContext fileContents freshHistory
                     tool0 query0) historyHeading
  = [overview; past +:+ queryHeading +:+ asked]
  /\ Js.split (past +:+ queryHeading +:+ asked) queryHeading
     = [past; asked].
Proof.
  cbv zeta. intros H1 H2 H3 H4.
  destruct headings_do_not_overlap as [Ho1 Ho2]. split.
  - apply split_two; [apply historyHeading_not_nil|].
    split; [|exact H2]. unfold assemble. by apply find_sep_first.
  - apply split_two; [apply queryHeading_not_nil|].
    split; [|exact H4]. by apply find_sep_first.
Qed.

(** C2, as the specification has it, fails at this input.  With a prompt
    of 33000 code units and no history the assembled block is over the
    budget of 8000 tokens; the history section is replaced by the note,
    the block is still over the budget, and it is returned as it is,
    neither cut to 32000 code units nor marked. *)
Theorem collapse_leaves_long_prompt_over_budget :
  let projectContext := mkProjectContext "readme" "{}" "src/" 0 in
  let context :=
    assemble sampleISO projectContext "No relevant files found" []
             "consult_ai" longPrompt in
  let out :=
    buildFullContext (tz := utc) sampleISO 0 projectContext
                     "No relevant files found" longPrompt "consult_ai" [] in
  MAX_CONTEXT_TOKENS < estimateTokenCount context
  /\ out = overviewPart projectContext "No relevant files found"
           +:+ historyHeading +:+ truncatedHistoryNote +:+ queryHeading
           +:+ queryPart "consult_ai" longPrompt
  /\ estimateTokenCount out = 8320
  /\ MAX_CONTEXT_TOKENS < estimateTokenCount out
  /\ out <> Js.slice0 context (Z.to_nat 32000) +:+ truncationMarker
  /\ Js.includes out "(context truncated due to length)" = false.
Proof.
  cbv zeta. split; [vm_compute; reflexivity|].
  split; [apply String.eqb_eq; vm_compute; reflexivity|].
  split; [vm_compute; reflexivity|].
  split; [vm_compute; reflexivity|].
  split; [|vm_compute; reflexivity].
  apply String.eqb_neq. vm_compute. reflexivity.
Qed.

(** The other way round: a prompt that quotes the query heading makes the
    block fall to the cut at 32000 code units, which leaves it at 8010
    tokens, without the note and without the end of the prompt. *)
Example heading_in_query_forces_cut :
  let projectContext := mkProjectContext "readme" "{}" "src/" 0 in
  let prompt := ("see ## Current Query: " +:+ longPrompt +:+ " END")%string in
  let context :=
    assemble sampleISO projectContext "No relevant files found" []
             "consult_ai" prompt in
  let out :=
    buildFullContext (tz := utc) sampleISO 0 projectContext
                     "No relevant files found" prompt "consult_ai" [] in
  out = Js.slice0 context (Z.to_nat 32000) +:+ truncationMarker
  /\ estimateTokenCount out = 8010
  /\ Js.includes out "END" = false
  /\ Js.includes out "(Conversation history truncated due to length)"
     = false.
Proof.
  cbv zeta. split; [apply String.eqb_eq; vm_compute; reflexivity|].
  repeat split; vm_compute; reflexivity.
Qed.

(** X30: what buildFullContext does with an assembled block of more than
    8000 estimated tokens.  When the history heading cuts the block in
    exactly two pieces and the query heading cuts the second piece in
    exactly two (as they do when neither heading occurs in the texts put
    into the template), the text between the two headings is replaced by
    the note and all that is before the history heading and after the
    query heading is kept as it is; the result is not measured again.  In
    every other case the block is cut to 32000 code units and the marker
    is appended. *)
Theorem buildFullContext_over_budget toISOString now projectContext
        fileContents query0 tool0 conversationHistory :
  let freshHistory :=
    ConversationHistoryManager.getRecentHistory now 5 conversationHistory in
  let context :=
    assemble toISOString projectContext fileContents freshHistory
             tool0 query0 in
  let out :=
    buildFullContext toISOString now projectContext fileContents
                     query0 tool0 conversationHistory in
  let overview := overviewPart projectContext fileContents in
  let past :=
    historyPart (formatConversationHistory toISOString freshHistory) in
  let asked := queryPart tool0 query0 in
  MAX_CONTEXT_TOKENS < estimateTokenCount context ->
  (forall beforeHistory rest mid afterQuery,
      Js.split context historyHeading = [beforeHistory; rest] ->
      Js.split rest queryHeading = [mid; afterQuery] ->
      context = beforeHistory +:+ historyHeading +:+ mid +:+ queryHeading
                +:+ afterQuery
      /\ out = beforeHistory +:+ historyHeading +:+ truncatedHistoryNote
               +:+ queryHeading +:+ afterQuery)
  /\ ((forall beforeHistory rest,
          Js.split context historyHeading = [beforeHistory; rest] ->
          forall mid afterQuery,
            Js.split rest queryHeading <> [mid; afterQuery]) ->
      out = Js.slice0 context (Z.to_nat 32000) +:+ truncationMarker
      /\ Js.length out = 32000 + Js.length truncationMarker)
  /\ (Js.includes overview historyHeading = false ->
      Js.includes (past +:+ queryHeading +:+ asked) historyHeading = false ->
      Js.includes past queryHeading = false ->
      Js.includes asked queryHeading = false ->
      out = overview +:+ historyHeading +:+ truncatedHistoryNote
            +:+ queryHeading +:+ asked).
Proof.
  cbv zeta. intros Hover.
  assert (Hout : buildFullContext toISOString now projectContext
                   fileContents query0 tool0 conversationHistory
                 = truncateContext
                     (assemble toISOString projectContext fileContents
                        (ConversationHistoryManager.getRecentHistory
                           now 5 conversationHistory) tool0 query0)).
  { unfold buildFullContext. apply Z.ltb_lt in Hover. by rewrite Hover. }
  rewrite Hout. pose proof (over_budget_length _ Hover) as Hlong.
  split; [|split].
  - intros b r m a. by apply truncateContext_collapse.
  - intros Hnot. rewrite (truncateContext_fallback _ Hlong Hnot).
    split; [reflexivity|].
    unfold Js.length, Js.slice0 in *. rewrite length_append, length_take.
    change (MAX_CONTEXT_TOKENS * 4) with 32000 in Hlong. lia.
  - intros H1 H2 H3 H4.
    destruct (assemble_splits toISOString projectContext fileContents
                (ConversationHistoryManager.getRecentHistory
                   now 5 conversationHistory) tool0 query0 H1 H2 H3 H4)
      as [Hs1 Hs2].
    by destruct (truncateContext_collapse _ _ _ _ _ Hlong Hs1 Hs2).
Qed.

End ContextFacts.

Section ContextSamples.
Import ContextManager.

Lemma buildFullContext_over_budget_witness :
  buildFullContext (tz := utc) sampleISO 0
                   (mkProjectContext "readme" "{}" "src/" 0)
                   "No relevant files found" longPrompt "consult_ai" []
  = overviewPart (mkProjectContext "readme" "{}" "src/" 0)
                 "No relevant files found"
    +:+ historyHeading +:+ truncatedHistoryNote +:+ queryHeading
    +:+ queryPart "consult_ai" longPrompt.
Proof.
  destruct (buildFullContext_over_budget (tz := utc) sampleISO 0
              (mkProjectContext "readme" "{}" "src/" 0)
              "No relevant files found" longPrompt "consult_ai" [])
    as (_ & _ & H).
  - vm_compute. reflexivity.
  - apply H; vm_compute; reflexivity.
Defined.

End ContextSamples.

(** * Further properties of the classes *)

Section ProviderCallManagerMore.
Import ProviderCallManager.

Lemma canMakeCall_lookup now p (m : state) :
  canMakeCall now p m
  = match m !! p with
    | None => (false, m)
    | Some tr =>
        (calls (afterLazyReset now tr) <? maxCalls (afterLazyReset now tr),
         <[p := afterLazyReset now tr]> m)
    end.
Proof. reflexivity. Qed.

Lemma getRemainingCalls_lookup now p (m : state) :
  getRemainingCalls now p m
  = match m !! p with
    | None => (0, m)
    | Some tr =>
        (Z.max 0 (maxCalls (afterLazyReset now tr)
                  - calls (afterLazyReset now tr)),
         <[p := afterLazyReset now tr]> m)
    end.
Proof. reflexivity. Qed.

(** X1: the two accessors agree: canMakeCall allows a call exactly when
    getRemainingCalls reports a positive number, and both leave the same
    trackers behind; for a provider without tracker they answer false and
    0 and change nothing. *)
Theorem canMakeCall_iff_remaining now p (m : state) :
  (fst (canMakeCall now p m) = true
   <-> 0 < fst (getRemainingCalls now p m))
  /\ snd (canMakeCall now p m) = snd (getRemainingCalls now p m)
  /\ (m !! p = None ->
      canMakeCall now p m = (false, m) /\ getRemainingCalls now p m = (0, m)).
Proof.
  rewrite canMakeCall_lookup, getRemainingCalls_lookup.
  destruct (m !! p) as [tr|]; simpl.
  - split; [rewrite Z.ltb_lt; lia|]. split; [reflexivity | discriminate].
  - split; [split; [discriminate | lia]|]. split; [reflexivity | done].
Qed.

Lemma canMakeCall_iff_remaining_witness :
  canMakeCall 5 "mistral" (constructor 0) = (false, constructor 0)
  /\ getRemainingCalls 5 "mistral" (constructor 0) = (0, constructor 0).
Proof.
  apply (canMakeCall_iff_remaining 5 "mistral" (constructor 0)).
  reflexivity.
Defined.

(** X2: a tracker that has used up its calls refuses further calls up to
    and including the instant lastReset + 1 hour; at any later instant
    canMakeCall resets it (calls = 0, lastReset = now) and allows the call,
    and getRemainingCalls reports the whole limit. *)
Theorem quota_returns_after_window now p tr (m : state) :
  m !! p = Some tr ->
  0 < maxCalls tr <= calls tr ->
  (now <= lastReset tr + RESET_INTERVAL ->
   canMakeCall now p m = (false, m)
   /\ getRemainingCalls now p m = (0, m))
  /\ (lastReset tr + RESET_INTERVAL < now ->
      canMakeCall now p m
      = (true, <[p := mkTracker (tr_provider tr) 0 now (maxCalls tr)]> m)
      /\ fst (getRemainingCalls now p m) = maxCalls tr
      /\ fst (getRemainingCalls now p (snd (canMakeCall now p m)))
         = maxCalls tr).
Proof.
  intros Hp Hfull.
  rewrite canMakeCall_lookup, getRemainingCalls_lookup, Hp.
  unfold afterLazyReset. split; intros Hnow.
  - destruct (Z.ltb_spec RESET_INTERVAL (now - lastReset tr)); [lia|].
    rewrite insert_id by done.
    split; f_equal; [apply Z.ltb_ge | ]; lia.
  - destruct (Z.ltb_spec RESET_INTERVAL (now - lastReset tr)); [|lia].
    simpl. split; [f_equal; apply Z.ltb_lt; lia|]. split; [lia|].
    rewrite getRemainingCalls_lookup, lookup_insert_eq.
    unfold afterLazyReset. simpl.
    destruct (Z.ltb_spec RESET_INTERVAL (now - now)); simpl; lia.
Qed.

Lemma quota_returns_after_window_witness :
  let m := recordCall "claude" (recordCall "claude"
             (recordCall "claude" (constructor 0))) in
  canMakeCall 3600000 "claude" m = (false, m)
  /\ fst (canMakeCall 3600001 "claude" m) = true.
Proof.
  cbv zeta.
  destruct (quota_returns_after_window 3600000 "claude"
              (mkTracker "claude" 3 0 3)
              (recordCall "claude" (recordCall "claude"
                 (recordCall "claude" (constructor 0)))))
    as [Hin _]; [reflexivity | simpl; lia |].
  destruct (quota_returns_after_window 3600001 "claude"
              (mkTracker "claude" 3 0 3)
              (recordCall "claude" (recordCall "claude"
                 (recordCall "claude" (constructor 0)))))
    as [_ Hout]; [reflexivity | simpl; lia |].
  split.
  - apply Hin. vm_compute. discriminate.
  - destruct Hout as [Hc _]; [vm_compute; reflexivity|].
    by rewrite Hc.
Defined.

(** X3: a call about one provider leaves the trackers of all other
    providers as they are, and no call adds or removes a tracker. *)
Theorem run_frame o (m : state) :
  (forall q, q <> provider_of o -> run o m !! q = m !! q)
  /\ dom (run o m) = dom m.
Proof.
  assert (Hins : forall p tr tr' (m0 : state),
             m0 !! p = Some tr -> dom (<[p := tr']> m0) = dom m0).
  { intros p tr tr' m0 Hp. rewrite dom_insert_L.
    apply subseteq_union_1_L, singleton_subseteq_l.
    by apply elem_of_dom_2 in Hp. }
  destruct o as [now p | p | now p]; simpl.
  - rewrite canMakeCall_lookup.
    destruct (m !! p) as [tr|] eqn:Hp; simpl; [|done].
    split; [intros q Hq; by apply lookup_insert_ne | exact (Hins _ _ _ _ Hp)].
  - unfold recordCall.
    destruct (m !! p) as [tr|] eqn:Hp; simpl; [|done].
    split; [intros q Hq; by apply lookup_insert_ne | exact (Hins _ _ _ _ Hp)].
  - rewrite getRemainingCalls_lookup.
    destruct (m !! p) as [tr|] eqn:Hp; simpl; [|done].
    split; [intros q Hq; by apply lookup_insert_ne | exact (Hins _ _ _ _ Hp)].
Qed.

Lemma run_frame_witness :
  run (RecordCall "claude") (constructor 0) !! "gpt4"%string
  = constructor 0 !! "gpt4"%string.
Proof.
  apply (run_frame (RecordCall "claude") (constructor 0)). discriminate.
Defined.

Lemma constructor_dom now :
  dom (constructor now) = list_to_set AI_PROVIDERS_keys.
Proof.
  unfold constructor, AI_PROVIDERS_keys. simpl.
  rewrite !dom_insert_L, dom_empty_L. set_solver.
Qed.

(** X4: however the manager is used after its construction, it tracks
    exactly the four providers of AI_PROVIDERS, each tracker carries its
    own key and the limit 3, and its counter is never negative; when calls
    are recorded only after canMakeCall allowed them, no counter exceeds
    the limit. *)
Theorem trackers_well_formed (m : state) :
  reachable m ->
  dom m = list_to_set AI_PROVIDERS_keys
  /\ (forall p tr, m !! p = Some tr ->
        tr_provider tr = p
        /\ maxCalls tr = MAX_CALLS_PER_PROVIDER
        /\ 0 <= calls tr
        /\ (guarded m -> calls tr <= MAX_CALLS_PER_PROVIDER)).
Proof.
  intros Hr.
  assert (Hshape : dom m = list_to_set AI_PROVIDERS_keys
                   /\ map_Forall (fun p tr => tr_provider tr = p
                                    /\ maxCalls tr = MAX_CALLS_PER_PROVIDER
                                    /\ 0 <= calls tr) m).
  { induction Hr as [now | o m _ [IHd IHf]].
    - split; [apply constructor_dom|].
      intros p tr Hp. apply constructor_lookup in Hp. subst tr.
      simpl. split; [|split]; done.
    - split; [by rewrite (proj2 (run_frame o m))|].
      destruct o as [now p | p | now p]; simpl.
      + rewrite canMakeCall_lookup.
        destruct (m !! p) as [tr|] eqn:Hp; simpl; [|exact IHf].
        apply map_Forall_insert_2'; [|exact IHf].
        specialize (IHf _ _ Hp). unfold afterLazyReset.
        destruct (RESET_INTERVAL <? now - lastReset tr); simpl; [|exact IHf].
        destruct IHf as (IH1 & IH2 & IH3). split; [|split]; done.
      + unfold recordCall.
        destruct (m !! p) as [tr|] eqn:Hp; simpl; [|exact IHf].
        apply map_Forall_insert_2'; [|exact IHf].
        specialize (IHf _ _ Hp). simpl.
        destruct IHf as (IH1 & IH2 & IH3). split; [|split]; [done..|lia].
      + rewrite getRemainingCalls_lookup.
        destruct (m !! p) as [tr|] eqn:Hp; simpl; [|exact IHf].
        apply map_Forall_insert_2'; [|exact IHf].
        specialize (IHf _ _ Hp). unfold afterLazyReset.
        destruct (RESET_INTERVAL <? now - lastReset tr); simpl; [|exact IHf].
        destruct IHf as (IH1 & IH2 & IH3). split; [|split]; done. }
  destruct Hshape as [Hd Hf]. split; [exact Hd|].
  intros p tr Hp. destruct (Hf _ _ Hp) as (H1 & H2 & H3).
  repeat split; try assumption.
  intros Hg. apply guarded_within_quota in Hg.
  destruct (Hg _ _ Hp) as [Hmax Hc]. lia.
Qed.

Lemma trackers_well_formed_witness :
  dom (run (RecordCall "gemini") (constructor 7))
  = list_to_set AI_PROVIDERS_keys.
Proof.
  exact (proj1 (trackers_well_formed _ (reach_run (RecordCall "gemini") _
                                          (reach_new 7)))).
Defined.

Lemma getCallStatus_loop now (l : list (string * ProviderCallTracker))
      (status : gmap string CallStatus) (m : state) :
  NoDup l.*1 ->
  (forall p tr, (p, tr) ∈ l -> m !! p = Some tr) ->
  let done :=
    foldl (fun acc entry =>
             let status := fst acc in
             let r := getRemainingCalls now (fst entry) (snd acc) in
             (<[fst entry := {| remaining := fst r;
                                total := maxCalls (snd entry) |}]> status,
              snd r))
          (status, m) l in
  forall p,
    (p ∈ l.*1 ->
     fst done !! p
     = (fun tr => mkCallStatus (fst (getRemainingCalls now p m)) (maxCalls tr))
         <$> m !! p
     /\ snd done !! p = afterLazyReset now <$> m !! p)
    /\ (p ∉ l.*1 -> fst done !! p = status !! p /\ snd done !! p = m !! p).
Proof.
  cbv zeta. revert status m.
  induction l as [|[p0 tr0] l IH]; intros status m Hnd Hl p; simpl.
  - split; [intros Hin; by apply elem_of_nil in Hin | done].
  - apply NoDup_cons in Hnd. destruct Hnd as [Hp0 Hnd].
    assert (H0 : m !! p0 = Some tr0) by (apply Hl; left).
    rewrite getRemainingCalls_lookup, H0. simpl.
    set (m1 := <[p0 := afterLazyReset now tr0]> m).
    set (status1 := <[p0 := _]> status).
    assert (Hl1 : forall q tr, (q, tr) ∈ l -> m1 !! q = Some tr).
    { intros q tr Hq. unfold m1. rewrite lookup_insert_ne.
      - apply Hl. by right.
      - intros <-. apply Hp0. apply list_elem_of_fmap.
        by exists (p0, tr). }
    destruct (IH status1 m1 Hnd Hl1 p) as [IHin IHout].
    assert (Hrem : forall q, q <> p0 ->
               fst (getRemainingCalls now q m1)
               = fst (getRemainingCalls now q m)).
    { intros q Hq. rewrite !getRemainingCalls_lookup. unfold m1.
      rewrite lookup_insert_ne by done. by destruct (m !! q). }
    split.
    + intros Hin. apply elem_of_cons in Hin.
      destruct (decide (p = p0)) as [->|Hne].
      * destruct (IHout Hp0) as [Hs Hm]. rewrite Hs, Hm.
        unfold status1, m1. rewrite !lookup_insert_eq.
        rewrite getRemainingCalls_lookup, H0. by simpl.
      * destruct Hin as [?|Hin]; [done|].
        destruct (IHin Hin) as [Hs Hm]. rewrite Hs, Hm, (Hrem p Hne).
        unfold m1. by rewrite lookup_insert_ne.
    + intros Hout. apply not_elem_of_cons in Hout. destruct Hout as [Hne Hout].
      destruct (IHout Hout) as [Hs Hm]. rewrite Hs, Hm.
      unfold status1, m1. by rewrite !lookup_insert_ne.
Qed.

Lemma getCallStatus_lookup now (m : state) p :
  fst (getCallStatus now m) !! p
  = (fun tr => mkCallStatus (fst (getRemainingCalls now p m)) (maxCalls tr))
      <$> m !! p
  /\ snd (getCallStatus now m) !! p = afterLazyReset now <$> m !! p.
Proof.
  unfold getCallStatus.
  pose proof (getCallStatus_loop now (map_to_list m) ∅ m) as H.
  cbv zeta in H.
  assert (Hnd : NoDup (map_to_list m).*1) by apply NoDup_fst_map_to_list.
  assert (Hl : forall q tr, (q, tr) ∈ map_to_list m -> m !! q = Some tr)
    by (intros q tr; apply elem_of_map_to_list).
  destruct (H Hnd Hl p) as [Hin Hout].
  destruct (m !! p) as [tr|] eqn:Hp.
  - apply Hin. apply list_elem_of_fmap. exists (p, tr).
    split; [done|]. by apply elem_of_map_to_list.
  - destruct Hout as [Hs Hm].
    + intros Hin'. apply list_elem_of_fmap in Hin'.
      destruct Hin' as ([q tr] & -> & Hq).
      apply elem_of_map_to_list in Hq. simpl in Hp. congruence.
    + by rewrite Hs, Hm, lookup_empty.
Qed.

(** X5: getCallStatus reports for every tracked provider, and for no
    other, what getRemainingCalls reports for it together with its limit,
    and it leaves every tracker reset whose window is over. *)
Theorem getCallStatus_all now (m : state) p :
  fst (getCallStatus now m) !! p
  = (fun tr => mkCallStatus (fst (getRemainingCalls now p m)) (maxCalls tr))
      <$> m !! p
  /\ snd (getCallStatus now m) !! p = afterLazyReset now <$> m !! p.
Proof. apply getCallStatus_lookup. Qed.

Lemma getCallStatus_guarded now (m : state) :
  guarded m -> guarded (snd (getCallStatus now m)).
Proof.
  unfold getCallStatus. generalize (∅ : gmap string CallStatus).
  generalize (map_to_list m) at 1. intros l. revert m.
  induction l as [|[p tr] l IH]; intros m status Hg; simpl; [exact Hg|].
  apply IH. by apply guard_remaining.
Qed.

End ProviderCallManagerMore.

Section ConversationHistoryMore.
Import ConversationHistoryManager.
Context {tz : TimeZone}.

Lemma getRecentHistory_fresh_aux now limit h e :
  In e (getRecentHistory now limit h) ->
  Js.hoursBefore CONTEXT_FRESHNESS_HOURS now < timestamp e.
Proof.
  unfold getRecentHistory.
  intros He. apply list_elem_of_In in He.
  apply (fun H => elem_of_sublist _ _ _ H (sublist_take _ _)) in He.
  apply list_elem_of_In, filter_In in He. destruct He as [_ He].
  by apply Z.ltb_lt in He.
Qed.

Lemma filter_none cutoff h :
  Forall (fun e => timestamp e <= cutoff) h ->
  List.filter (fun entry => cutoff <? timestamp entry) h = [].
Proof.
  induction 1 as [|e h He _ IH]; simpl; [reflexivity|].
  destruct (Z.ltb_spec cutoff (timestamp e)); [lia|]. exact IH.
Qed.

Lemma getRecentHistory_none now limit h :
  Forall (fun e => timestamp e <= Js.hoursBefore CONTEXT_FRESHNESS_HOURS now)
         h ->
  getRecentHistory now limit h = [].
Proof.
  intros Hold. unfold getRecentHistory.
  rewrite (filter_none _ _ Hold). by destruct limit.
Qed.

(** X6: getRecentHistory returns at most [limit] entries, in the order of
    the history, all of them newer than its cutoff, the instant at which
    the local clock showed six hours less than it shows now; of a history
    without such entries it returns nothing.  The cutoff is six hours
    before now when the offset of the local time from UTC is the same at
    both ends. *)
Theorem getRecentHistory_fresh now limit h :
  let r := getRecentHistory now limit h in
  let cutoff := Js.hoursBefore CONTEXT_FRESHNESS_HOURS now in
  r `sublist_of` h
  /\ (List.length r <= limit)%nat
  /\ (forall e, In e r -> cutoff < timestamp e)
  /\ (Forall (fun e => timestamp e <= cutoff) h -> r = [])
  /\ (sameOffset CONTEXT_FRESHNESS_HOURS now -> cutoff = now - 6 * 3600000).
Proof.
  cbv zeta. split; [|split; [|split; [|split]]].
  - unfold getRecentHistory.
    etrans; [apply sublist_take | apply sublist_List_filter].
  - apply firstn_le_length.
  - intros e. apply getRecentHistory_fresh_aux.
  - apply getRecentHistory_none.
  - intros Hsame. by rewrite (hoursBefore_sameOffset _ _ Hsame).
Qed.




Lemma loadHistory_stored now w allEntries s :
  loading s = true ->
  let cutoff := Js.hoursBefore MAX_AGE_HOURS now in
  let kept := List.filter (fun e => cutoff <? timestamp e) allEntries in
  loadHistory now w (Stored allEntries) s
  = if negb (Nat.eqb (List.length allEntries) (List.length kept))
    then mkState kept (if w then Stored kept else file s)
                 (kept :: writes s) false
    else mkState kept (file s) (writes s) false.
Proof.
  intros Hl. cbv zeta. unfold loadHistory. rewrite Hl. cbn [history].
  by destruct (negb _).
Qed.

(** X29: what the rest of loadHistory does when the file has been read.
    With a stored array the history becomes the array without the entries
    that are not newer than the cutoff, the instant at which the local
    clock showed 24 hours less than it shows now, whatever the history
    held before and however many entries that leaves; if an entry was
    dropped the history is written back at once (and is the content of
    the file when the write succeeds), else nothing is written.  With a
    file that cannot be read or parsed the history becomes empty.  The
    cutoff is 24 hours before now when the offset of the local time from
    UTC is the same at both ends. *)
Theorem loadHistory_filters_by_local_clock now w data s :
  loading s = true ->
  let s' := loadHistory now w data s in
  let cutoff := Js.hoursBefore MAX_AGE_HOURS now in
  loading s' = false
  /\ (forall e, In e (history s') -> cutoff < timestamp e)
  /\ (forall allEntries,
        data = Stored allEntries ->
        history s' = List.filter (fun e => cutoff <? timestamp e) allEntries
        /\ (Exists (fun e => timestamp e <= cutoff) allEntries ->
            writes s' = history s' :: writes s
            /\ (w = true -> file s' = Stored (history s')))
        /\ (Forall (fun e => cutoff < timestamp e) allEntries ->
            history s' = allEntries
            /\ writes s' = writes s /\ file s' = file s))
  /\ (data = NoFile \/ data = Unreadable ->
      history s' = [] /\ writes s' = writes s /\ file s' = file s)
  /\ (sameOffset MAX_AGE_HOURS now -> cutoff = now - 24 * 3600000).
Proof.
  intros Hl. cbv zeta.
  assert (Hstored : forall allEntries,
             data = Stored allEntries ->
             history (loadHistory now w data s)
             = List.filter
                 (fun e => Js.hoursBefore MAX_AGE_HOURS now <? timestamp e)
                 allEntries).
  { intros es ->. rewrite (loadHistory_stored now w es s Hl).
    by destruct (negb _). }
  split; [|split; [|split; [|split]]].
  - destruct data as [| |es]; [by unfold loadHistory; rewrite Hl..|].
    rewrite (loadHistory_stored now w es s Hl). by destruct (negb _).
  - destruct data as [| |es];
      [unfold loadHistory; rewrite Hl; simpl; tauto..|].
    intros e. rewrite (Hstored es eq_refl), filter_In, Z.ltb_lt. tauto.
  - intros es Hdata. split; [by apply Hstored|]. subst data.
    rewrite (loadHistory_stored now w es s Hl). split.
    + intros Hex.
      destruct (Nat.eqb_spec (List.length es)
                  (List.length
                     (List.filter
                        (fun e => Js.hoursBefore MAX_AGE_HOURS now
                                  <? timestamp e) es)))
        as [Heq|Hne]; cbn [negb].
      * symmetry in Heq. apply filter_all_length in Heq.
        apply List.Exists_exists in Hex. destruct Hex as (e & He & Hle).
        rewrite List.Forall_forall in Heq. specialize (Heq e He).
        apply Z.ltb_lt in Heq. lia.
      * split; [reflexivity|]. by intros ->.
    + intros Hall.
      assert (Hkeep : List.filter
                        (fun e => Js.hoursBefore MAX_AGE_HOURS now
                                  <? timestamp e) es = es).
      { apply filter_all. eapply Forall_impl; [exact Hall|].
        intros e He. by apply Z.ltb_lt. }
      rewrite Hkeep, Nat.eqb_refl. by cbn.
  - intros [->| ->]; unfold loadHistory; rewrite Hl; by cbn.
  - intros Hsame. by rewrite (hoursBefore_sameOffset _ _ Hsame).
Qed.

(** X8: what addEntry wrote, when the write succeeded, is what the next
    manager of the workspace loads, if it reads the file as addEntry left
    it: the new manager starts with an empty history and a read under way,
    and when its loadHistory has run it holds the history that addEntry
    left less the entries that are not newer than the cutoff of the load;
    if all are newer it holds exactly that history and has written
    nothing.  The cutoff is 24 hours before the load when the offset of
    the local time from UTC is the same at both ends. *)
Theorem addEntry_then_restart now e s later w' :
  let s1 := addEntry now true e s in
  let fresh := constructor (file s1) in
  let s2 := loadHistory later w' (file s1) fresh in
  let cutoff := Js.hoursBefore MAX_AGE_HOURS later in
  file s1 = Stored (history s1)
  /\ history fresh = [] /\ loading fresh = true
  /\ history s2
     = List.filter (fun old => cutoff <? timestamp old) (history s1)
  /\ (Forall (fun old => cutoff < timestamp old) (history s1) ->
      s2 = mkState (history s1) (Stored (history s1)) [] false)
  /\ (sameOffset MAX_AGE_HOURS later -> cutoff = later - 24 * 3600000).
Proof.
  cbv zeta.
  assert (Hfile : file (addEntry now true e s)
                  = Stored (history (addEntry now true e s)))
    by reflexivity.
  rewrite Hfile. split; [reflexivity|]. split; [reflexivity|].
  split; [reflexivity|].
  rewrite (loadHistory_stored later w' (history (addEntry now true e s))
             (constructor (Stored (history (addEntry now true e s))))
             eq_refl).
  split; [by destruct (negb _)|]. split.
  - intros Hall.
    assert (Hkeep : List.filter
                      (fun old => Js.hoursBefore MAX_AGE_HOURS later
                                  <? timestamp old)
                      (history (addEntry now true e s))
                    = history (addEntry now true e s)).
    { apply filter_all. eapply Forall_impl; [exact Hall|].
      intros old Ho. by apply Z.ltb_lt. }
    rewrite Hkeep, Nat.eqb_refl. reflexivity.
  - intros Hsame. by rewrite (hoursBefore_sameOffset _ _ Hsame).
Qed.

End ConversationHistoryMore.

Section ConversationHistorySamples.
Import ConversationHistoryManager.

Lemma getRecentHistory_fresh_witness :
  getRecentHistory (tz := utc) (3 * day) 5 (drop 1 stored3) = [].
Proof.
  apply (getRecentHistory_fresh (tz := utc) (3 * day) 5 (drop 1 stored3)).
  repeat constructor; vm_compute; discriminate.
Defined.


Lemma loadHistory_filters_by_local_clock_witness :
  let s :=
    loadHistory (tz := utc) (3 * day) true (Stored stored3)
                (constructor (Stored stored3)) in
  history s = take 1 stored3
  /\ writes s = [take 1 stored3]
  /\ file s = Stored (take 1 stored3).
Proof.
  cbv zeta.
  destruct (loadHistory_filters_by_local_clock (tz := utc) (3 * day) true
              (Stored stored3) (constructor (Stored stored3)) eq_refl)
    as (_ & _ & H & _).
  destruct (H stored3 eq_refl) as (Hh & Hw & _).
  assert (Hex : Exists (fun e => timestamp e
                                 <= Js.hoursBefore (tz := utc)
                                      MAX_AGE_HOURS (3 * day))
                       stored3).
  { apply Exists_cons_tl, Exists_cons_hd. vm_compute. discriminate. }
  destruct (Hw Hex) as (Hw1 & Hw2).
  rewrite Hw1, (Hw2 eq_refl), Hh. repeat split.
Defined.

Lemma addEntry_then_restart_witness :
  history (loadHistory (tz := utc) 5000 true
             (file (addEntry 1000 true
                      (mkNewEntry "consult_ai" "claude" "q" "r" [] 1)
                      (mkState [] NoFile [] false)))
             (constructor
                (file (addEntry 1000 true
                         (mkNewEntry "consult_ai" "claude" "q" "r" [] 1)
                         (mkState [] NoFile [] false)))))
  = [mkEntry 1000 "consult_ai" "claude" "q" "r" [] 1].
Proof.
  destruct (addEntry_then_restart (tz := utc) 1000
              (mkNewEntry "consult_ai" "claude" "q" "r" [] 1)
              (mkState [] NoFile [] false) 5000 true)
    as (_ & _ & _ & _ & Hsame & _).
  rewrite Hsame; [reflexivity|].
  repeat constructor.
Defined.

End ConversationHistorySamples.

Section KeywordFacts.
Import ConversationHistoryManager.
Context {tz : TimeZone}.

Lemma toLowerCaseUnit_idem c :
  Js.toLowerCaseUnit (Js.toLowerCaseUnit c) = Js.toLowerCaseUnit c.
Proof. destruct c as [[] [] [] [] [] [] [] []]; reflexivity. Qed.

Lemma toLowerCase_idem s : Js.toLowerCase (Js.toLowerCase s) = Js.toLowerCase s.
Proof.
  induction s as [|c s IH]; simpl; [reflexivity|].
  by rewrite toLowerCaseUnit_idem, IH.
Qed.

Lemma allUnits_append P (s t : string) :
  allUnits P (s +:+ t) = allUnits P s && allUnits P t.
Proof.
  induction s as [|c s IH]; [reflexivity|].
  rewrite append_cons. simpl. by rewrite IH, andb_assoc.
Qed.

Lemma allUnits_toLowerCase s :
  allUnits (fun c => bool_decide (Js.toLowerCaseUnit c = c))
           (Js.toLowerCase s) = true.
Proof.
  induction s as [|c s IH]; simpl; [reflexivity|].
  rewrite IH, andb_true_r. apply bool_decide_eq_true, toLowerCaseUnit_idem.
Qed.

Lemma allUnits_lower s :
  allUnits (fun c => bool_decide (Js.toLowerCaseUnit c = c)) s = true ->
  Js.toLowerCase s = s.
Proof.
  induction s as [|c s IH]; simpl; [reflexivity|].
  intros H. apply andb_true_iff in H. destruct H as [Hc Hs].
  apply bool_decide_eq_true in Hc. by rewrite Hc, IH.
Qed.

(** The pieces that [split(/\s+/)] cuts hold the code units of the string
    that are not white space, and no other. *)
Lemma split_ws_pieces P inGap cur s :
  allUnits P cur = true ->
  allUnits (fun c => Js.isWhiteSpace c || P c) s = true ->
  Forall (fun piece => allUnits P piece = true)
         (Js.split_ws_from inGap cur s).
Proof.
  revert inGap cur. induction s as [|c s IH]; intros inGap cur Hcur Hs; simpl.
  - by constructor.
  - simpl in Hs. apply andb_true_iff in Hs. destruct Hs as [Hc Hs].
    destruct (Js.isWhiteSpace c) eqn:Hw.
    + destruct inGap; [by apply IH|].
      constructor; [exact Hcur | by apply IH].
    + apply IH; [|exact Hs].
      rewrite allUnits_append, Hcur. simpl in *. by rewrite Hc.
Qed.

Lemma allUnits_weaken (P Q : ascii -> bool) s :
  (forall c, P c = true -> Q c = true) ->
  allUnits P s = true -> allUnits Q s = true.
Proof.
  intros HPQ. induction s as [|c s IH]; simpl; [done|].
  rewrite !andb_true_iff. intros [Hc Hs]. auto.
Qed.

Lemma allUnits_true s : allUnits (fun _ => true) s = true.
Proof. induction s as [|c s IH]; simpl; auto. Qed.

(** X9: every keyword that extractKeywords returns is in lower case, has
    more than 3 code units, none of them white space, and is not a stop
    word; the case of the letters of the text does not matter, neither for
    the keywords nor for what getRelevantHistory selects. *)
Theorem extractKeywords_shape text :
  Forall (fun k => Js.toLowerCase k = k
                   /\ (3 < String.length k)%nat
                   /\ allUnits (fun c => negb (Js.isWhiteSpace c)) k = true
                   /\ ~ In k stopWords)
         (extractKeywords text)
  /\ extractKeywords (Js.toLowerCase text) = extractKeywords text
  /\ (forall now t maxEntries h,
        getRelevantHistory now (Js.toLowerCase text) t maxEntries h
        = getRelevantHistory now text t maxEntries h).
Proof.
  assert (Hsame : extractKeywords (Js.toLowerCase text) = extractKeywords text)
    by (unfold extractKeywords; by rewrite toLowerCase_idem).
  split; [|split; [exact Hsame|]].
  - unfold extractKeywords. apply List.Forall_forall. intros k Hk.
    apply filter_In in Hk. destruct Hk as [Hk Hstop].
    apply filter_In in Hk. destruct Hk as [Hk Hlen].
    assert (Hlow : Forall (fun piece =>
                     allUnits (fun c => bool_decide (Js.toLowerCaseUnit c = c))
                              piece = true)
                     (Js.split_whitespace (Js.toLowerCase text))).
    { apply split_ws_pieces; [reflexivity|].
      eapply allUnits_weaken; [|apply allUnits_toLowerCase].
      intros c ->. apply orb_true_r. }
    assert (Hws : Forall (fun piece =>
                    allUnits (fun c => negb (Js.isWhiteSpace c)) piece = true)
                    (Js.split_whitespace (Js.toLowerCase text))).
    { apply split_ws_pieces; [reflexivity|].
      eapply allUnits_weaken; [|apply allUnits_true].
      intros c _. by destruct (Js.isWhiteSpace c). }
    rewrite List.Forall_forall in Hlow, Hws.
    split; [apply allUnits_lower; by apply Hlow|].
    split; [apply Z.ltb_lt in Hlen; unfold Js.length in Hlen; lia|].
    split; [by apply Hws|].
    intros Hin. apply negb_true_iff in Hstop.
    assert (Js.array_includes stopWords k = true); [|congruence].
    apply existsb_exists. exists k. split; [exact Hin | apply String.eqb_refl].
  - intros now t maxEntries h. unfold getRelevantHistory. by rewrite Hsame.
Qed.

End KeywordFacts.

Section RelevanceMore.
Import ConversationHistoryManager.
Context {tz : TimeZone}.

Lemma matchedKeywords_bounds kw e :
  0 <= matchedKeywords kw e <= Z.of_nat (List.length kw).
Proof.
  unfold matchedKeywords. split; [lia|].
  apply inj_le, filter_length_le.
Qed.

Lemma score_as_integers (w m k : Z) :
  0 < k ->
  (3 # 10 < inject_Z w * (inject_Z m / inject_Z k))%Q <-> 3 * k < 10 * w * m.
Proof.
  intros Hk. destruct k as [|k|k]; try lia.
  unfold Qlt, Qdiv, Qmult, Qinv, inject_Z. simpl. lia.
Qed.

(** X10: the relevance of a text lies between 0 and 1, and the test of
    getRelevantHistory is one on whole numbers: an entry of the querying
    tool passes when 20 times its matched keywords exceed 3 times the
    number of keywords (more than 15 percent matched), an entry of another
    tool when 10 times do (more than 30 percent); an entry that matches no
    keyword never passes. *)
Theorem isRelevant_as_integers t kw e :
  let matched := matchedKeywords kw e in
  let all := Z.max 1 (Z.of_nat (List.length kw)) in
  (0 <= calculateRelevance (query e +:+ " " +:+ response e) kw <= 1)%Q
  /\ (isRelevant t kw e = true
      <-> 3 * all < 10 * (if String.eqb (tool e) t then 2 else 1) * matched)
  /\ (matched = 0 -> isRelevant t kw e = false).
Proof.
  cbv zeta.
  assert (Hint : isRelevant t kw e = true
                 <-> 3 * Z.max 1 (Z.of_nat (List.length kw))
                     < 10 * (if String.eqb (tool e) t then 2 else 1)
                       * matchedKeywords kw e).
  { rewrite isRelevant_score. unfold weightedScore.
    apply score_as_integers. lia. }
  pose proof (matchedKeywords_bounds kw e) as [Hm0 Hm1].
  split; [|split; [exact Hint|]].
  - unfold calculateRelevance. fold (matchedKeywords kw e).
    rewrite (Z.max_comm _ 1).
    set (k := Z.max 1 (Z.of_nat (List.length kw))).
    assert (Hk : 0 < k) by (unfold k; lia).
    assert (Hmk : matchedKeywords kw e <= k) by (unfold k; lia).
    destruct k as [|k|k]; try lia.
    unfold Qle, Qdiv, Qmult, Qinv, inject_Z. simpl. split; lia.
  - intros Hz. apply not_true_is_false. intros Hr.
    apply Hint in Hr. rewrite Hz in Hr. lia.
Qed.

Lemma isRelevant_as_integers_witness :
  isRelevant "consult_ai" ["retry"; "backoff"; "jitter"; "timeout";
                           "budget"; "window"; "quota"]%string
             sameToolEntry = true
  /\ isRelevant "consult_ai" ["retry"; "backoff"; "jitter"; "timeout";
                              "budget"; "window"; "quota"]%string
                crossToolEntry = false.
Proof.
  destruct (isRelevant_as_integers "consult_ai"
              ["retry"; "backoff"; "jitter"; "timeout"; "budget"; "window";
               "quota"]%string sameToolEntry) as (_ & Hs & _).
  destruct (isRelevant_as_integers "consult_ai"
              ["retry"; "backoff"; "jitter"; "timeout"; "budget"; "window";
               "quota"]%string crossToolEntry) as (_ & Hc & _).
  split.
  - apply Hs. vm_compute. reflexivity.
  - apply not_true_is_false. intros Hr.
    apply Hc in Hr. vm_compute in Hr. discriminate Hr.
Defined.

(** X11: getRelevantHistory returns only entries that are newer than the
    cutoff of getRecentHistory, the instant at which the local clock
    showed six hours less than it shows now (six hours before now when
    the offset of the local time from UTC is the same at both ends), and
    only from the first ten such entries of the history; a smaller limit
    gives a beginning of what a larger limit gives; the limit 0 and the
    empty history give nothing. *)
Theorem getRelevantHistory_recent now q t maxEntries h :
  let r := getRelevantHistory now q t maxEntries h in
  let cutoff := Js.hoursBefore CONTEXT_FRESHNESS_HOURS now in
  (forall e, In e r ->
             cutoff < timestamp e
             /\ (sameOffset CONTEXT_FRESHNESS_HOURS now ->
                 now - 6 * 3600000 < timestamp e)
             /\ In e (getRecentHistory now 10 h))
  /\ (forall larger, (maxEntries <= larger)%nat ->
        r = take maxEntries (getRelevantHistory now q t larger h))
  /\ getRelevantHistory now q t 0 h = []
  /\ getRelevantHistory now q t maxEntries [] = [].
Proof.
  cbv zeta. split; [|split; [|split]].
  - intros e He. unfold getRelevantHistory in He.
    apply list_elem_of_In in He.
    apply (fun H => elem_of_sublist _ _ _ H (sublist_take _ _)) in He.
    apply list_elem_of_In, filter_In in He. destruct He as [He _].
    pose proof (getRecentHistory_fresh_aux now 10 h e He) as Hnew.
    split; [exact Hnew|]. split; [|exact He].
    intros Hsame. pose proof (hoursBefore_sameOffset _ _ Hsame) as Hcut.
    unfold CONTEXT_FRESHNESS_HOURS in *. lia.
  - intros larger Hle. unfold getRelevantHistory.
    rewrite take_take. f_equal. lia.
  - reflexivity.
  - unfold getRelevantHistory, getRecentHistory. simpl.
    by destruct maxEntries.
Qed.

End RelevanceMore.

Section ContextMore.
Import ContextManager.
Context {tz : TimeZone}.

(** X12: a file that is there but empty counts as missing: after a
    refresh an empty README.md gives the text No README.md found, an empty
    package.json gives No package.json found, and a directory in which
    nothing is shown gives Could not determine project structure; any
    other content of the two files is taken over unchanged. *)
Theorem refresh_treats_empty_as_missing now refreshed w projectContext dir :
  stale now projectContext ->
  getCurrentWorkspaceDir w = Done dir ->
  let fresh := fst (getProjectContext now refreshed w projectContext) in
  (forall text, readmeFile w = Done text ->
     readme fresh = if String.eqb text "" then "No README.md found"%string
                    else text)
  /\ (forall text, packageJsonFile w = Done text ->
        packageJson fresh
        = if String.eqb text "" then "No package.json found"%string
          else text)
  /\ (forall l, items w = Done l ->
        Forall (fun item => shownInStructure item = false) l ->
        structure fresh = "Could not determine project structure"%string).
Proof.
  intros Hstale Hdir. cbv zeta.
  assert (Hfresh : fst (getProjectContext now refreshed w projectContext)
    = {| readme := Js.or_else (readFileIfExists (readmeFile w))
                              "No README.md found";
         packageJson := Js.or_else (readFileIfExists (packageJsonFile w))
                                   "No package.json found";
         structure := Js.or_else (Some (getProjectStructure w))
                                 "Could not determine project structure";
         lastUpdated := refreshed |}).
  { unfold getProjectContext, stale in *. rewrite Hdir.
    destruct projectContext as [cached|]; [|reflexivity].
    destruct (Z.ltb_spec (now - lastUpdated cached) PROJECT_CONTEXT_TTL);
      [lia | reflexivity]. }
  rewrite Hfresh. simpl. split; [|split].
  - intros text ->. by destruct text.
  - intros text ->. by destruct text.
  - intros l Hl Hhidden. unfold getProjectStructure. rewrite Hl.
    assert (Hnone : List.filter shownInStructure l = []).
    { clear Hl. induction Hhidden as [|item l Hitem _ IH];
        cbn [List.filter]; [reflexivity|]. by rewrite Hitem. }
    change (List.filter _ l) with (List.filter shownInStructure l).
    by rewrite Hnone.
Qed.

Lemma refresh_treats_empty_as_missing_witness :
  let w := mkWorkspace (Some "/work/project") (Done "/") (Done "")
                       (Done "{}") (Done [mkDirent ".git" true]) in
  readme (fst (getProjectContext 0 1 w None)) = "No README.md found"%string
  /\ structure (fst (getProjectContext 0 1 w None))
     = "Could not determine project structure"%string.
Proof.
  cbv zeta.
  destruct (refresh_treats_empty_as_missing 0 1
              (mkWorkspace (Some "/work/project") (Done "/") (Done "")
                           (Done "{}") (Done [mkDirent ".git" true]))
              None "/work/project" I eq_refl) as (Hr & _ & Hs).
  split.
  - exact (Hr ""%string eq_refl).
  - apply (Hs [mkDirent ".git" true] eq_refl).
    repeat constructor.
Defined.

Lemma sort_insert_Permutation x a : Js.sort_insert x a ≡ₚ x :: a.
Proof.
  induction a as [|y a IH]; simpl; [done|].
  destruct (String.leb x y); [done|].
  rewrite IH. apply Permutation_swap.
Qed.

Lemma sort_Permutation a : Js.sort a ≡ₚ a.
Proof.
  induction a as [|x a IH]; simpl; [done|].
  unfold Js.sort in *. simpl. by rewrite sort_insert_Permutation, IH.
Qed.

Lemma sort_insert_Sorted x a :
  Sorted (fun s t => String.leb s t = true) a ->
  Sorted (fun s t => String.leb s t = true) (Js.sort_insert x a).
Proof.
  induction 1 as [|y a Ha IH Hy]; simpl; [repeat constructor|].
  destruct (String.leb x y) eqn:Hxy.
  - constructor; [by constructor|]. by constructor.
  - constructor; [exact IH|].
    assert (Hyx : String.leb y x = true)
      by (destruct (String.leb_total x y); congruence).
    destruct a as [|z a]; simpl; [by constructor|].
    destruct (String.leb x z); constructor; [exact Hyx|].
    by inversion Hy.
Qed.

Lemma sort_Sorted a : Sorted (fun s t => String.leb s t = true) (Js.sort a).
Proof.
  induction a as [|x a IH]; [constructor|].
  unfold Js.sort in *. simpl. by apply sort_insert_Sorted.
Qed.

(** X13: the listing made by getProjectStructure has one line for each
    item that is shown, the name of the item followed by a slash for a
    directory, in ascending order of the code units; items whose name
    begins with a dot, other than .github and .vscode, are on no line. *)
Theorem getProjectStructure_lines w l :
  items w = Done l ->
  exists lines,
    getProjectStructure w = Js.join lines Js.nl
    /\ lines ≡ₚ map structureLine (List.filter shownInStructure l)
    /\ Sorted (fun s t => String.leb s t = true) lines
    /\ (forall line, In line lines ->
          exists item, In item l /\ shownInStructure item = true
                       /\ line = structureLine item).
Proof.
  intros Hl.
  exists (Js.sort (map structureLine (List.filter shownInStructure l))).
  split; [unfold getProjectStructure; by rewrite Hl|].
  split; [apply sort_Permutation|]. split; [apply sort_Sorted|].
  intros line Hline. apply list_elem_of_In in Hline.
  rewrite sort_Permutation in Hline.
  apply list_elem_of_fmap in Hline. destruct Hline as (item & -> & Hitem).
  apply list_elem_of_In, filter_In in Hitem. destruct Hitem as [Hin Hshown].
  by exists item.
Qed.

Lemma getProjectStructure_lines_witness :
  exists lines, getProjectStructure bareWorkspace = Js.join lines Js.nl
                /\ Sorted (fun s t => String.leb s t = true) lines.
Proof.
  destruct (getProjectStructure_lines bareWorkspace
              [mkDirent "src" true; mkDirent ".git" true;
               mkDirent "package.json" false] eq_refl)
    as (lines & Hj & _ & Hs & _).
  by exists lines.
Defined.

Lemma split_one sep s :
  sep <> ""%string -> Js.includes s sep = false -> Js.split s sep = [s].
Proof.
  intros Hsep Hinc. rewrite (split_step sep s Hsep).
  apply find_sep_None in Hinc. by rewrite Hinc.
Qed.

(** X14: the hard truncation does not bring a block within the budget:
    whenever truncateContext falls back to it, the result has 32000 code
    units and the 38 of the marker, which estimateTokenCount counts as
    8010 tokens, more than MAX_CONTEXT_TOKENS. *)
Theorem hard_truncation_stays_over_budget context :
  MAX_CONTEXT_TOKENS * 4 < Js.length context ->
  (forall beforeHistory rest,
      Js.split context historyHeading = [beforeHistory; rest] ->
      forall mid afterQuery,
        Js.split rest queryHeading <> [mid; afterQuery]) ->
  Js.length (truncateContext context) = 32038
  /\ estimateTokenCount (truncateContext context) = 8010
  /\ MAX_CONTEXT_TOKENS < estimateTokenCount (truncateContext context).
Proof.
  intros Hlong Hnot.
  assert (Hlen : Js.length (truncateContext context) = 32038).
  { rewrite (truncateContext_fallback _ Hlong Hnot).
    unfold Js.length, Js.slice0 in *. rewrite length_append, length_take.
    change (MAX_CONTEXT_TOKENS * 4) with 32000 in Hlong.
    change (String.length truncationMarker) with 38%nat. lia. }
  unfold estimateTokenCount. rewrite Hlen. repeat split.
Qed.

Lemma hard_truncation_stays_over_budget_witness :
  estimateTokenCount
    (truncateContext (Js.repeat "0123456789" (Z.to_nat 3300))) = 8010.
Proof.
  apply hard_truncation_stays_over_budget.
  - vm_compute. reflexivity.
  - intros b r Hs.
    assert (Hone : Js.split (Js.repeat "0123456789" (Z.to_nat 3300))
                            historyHeading
                   = [Js.repeat "0123456789" (Z.to_nat 3300)]).
    { apply split_one; [discriminate|]. vm_compute. reflexivity. }
    rewrite Hone in Hs. discriminate Hs.
Defined.

(** X15: when truncateContext replaces the history section, the result is
    as long as the block less the text between the two headings plus the
    49 code units of the note; it is shorter than the block only if that
    text had more than 49 code units, and within the budget only if the
    rest of the block is. *)
Theorem collapse_length context beforeHistory rest mid afterQuery :
  MAX_CONTEXT_TOKENS * 4 < Js.length context ->
  Js.split context historyHeading = [beforeHistory; rest] ->
  Js.split rest queryHeading = [mid; afterQuery] ->
  Js.length (truncateContext context)
  = Js.length context - Js.length mid + 49
  /\ (Js.length (truncateContext context) < Js.length context
      <-> 49 < Js.length mid)
  /\ (estimateTokenCount (truncateContext context) <= MAX_CONTEXT_TOKENS
      <-> Js.length context - Js.length mid <= 31951).
Proof.
  intros Hlong Hs1 Hs2.
  destruct (truncateContext_collapse _ _ _ _ _ Hlong Hs1 Hs2) as [Hc Ht].
  assert (Hlen : Js.length (truncateContext context)
                 = Js.length context - Js.length mid + 49).
  { rewrite Ht. rewrite Hc at 1. unfold Js.length.
    rewrite !length_append.
    change (String.length truncatedHistoryNote) with 49%nat. lia. }
  split; [exact Hlen|]. split; [lia|].
  unfold estimateTokenCount, MAX_CONTEXT_TOKENS. rewrite Hlen.
  split; intros H; Z.to_euclidean_division_equations; lia.
Qed.

Lemma collapse_length_witness :
  Js.length (truncateContext
               (assemble sampleISO longListing "No relevant files found" []
                         "consult_ai" "hello"))
  = Js.length (assemble sampleISO longListing "No relevant files found" []
                        "consult_ai" "hello") - 35 + 49.
Proof.
  pose proof (assemble_splits sampleISO longListing
                "No relevant files found" [] "consult_ai" "hello") as Hs.
  cbv zeta in Hs.
  destruct Hs as [Hs1 Hs2]; [vm_compute; reflexivity ..|].
  assert (Hlong : MAX_CONTEXT_TOKENS * 4
                  < Js.length (assemble sampleISO longListing
                                 "No relevant files found" [] "consult_ai"
                                 "hello"))
    by (vm_compute; reflexivity).
  exact (proj1 (collapse_length _ _ _ _ _ Hlong Hs1 Hs2)).
Defined.

Lemma prefix_nil_any (s : string) : Js.includes s "" = true.
Proof. destruct s; reflexivity. Qed.

Lemma includes_part (s a t b : string) :
  s = a +:+ t +:+ b -> Js.includes s t = true.
Proof. intros ->. apply includes_append. by exists a, b. Qed.

Lemma startsWith_append (t b : string) : Js.startsWith (t +:+ b) t = true.
Proof. apply prefix_append. by exists b. Qed.

Lemma endsWith_append (a t : string) : Js.endsWith (a +:+ t) t = true.
Proof.
  unfold Js.endsWith. rewrite length_append.
  apply andb_true_iff. split; [apply Nat.leb_le; lia|].
  replace (String.length a + String.length t - String.length t)%nat
    with (String.length a) by lia.
  rewrite drop_append. apply String.eqb_refl.
Qed.

(** X16: a block within the budget of 8000 estimated tokens is returned
    as assembled: it begins with the overview, ends with the query
    section, holds the tool and the query as they were given, and, when no
    entry of the history is newer than the cutoff of getRecentHistory (the
    instant at which the local clock showed six hours less than it shows
    now), holds the text No previous conversation history. *)
Theorem buildFullContext_within_budget toISOString now projectContext
        fileContents query0 tool0 conversationHistory :
  let freshHistory :=
    ConversationHistoryManager.getRecentHistory now 5 conversationHistory in
  let out :=
    buildFullContext toISOString now projectContext fileContents
                     query0 tool0 conversationHistory in
  estimateTokenCount
    (assemble toISOString projectContext fileContents freshHistory
              tool0 query0) <= MAX_CONTEXT_TOKENS ->
  Js.startsWith out (overviewPart projectContext fileContents) = true
  /\ Js.endsWith out (queryHeading +:+ queryPart tool0 query0) = true
  /\ Js.includes out ("Tool: " +:+ tool0 +:+ Js.nl
                      +:+ "Query: " +:+ query0 +:+ Js.nl) = true
  /\ (Forall (fun e =>
                timestamp e
                <= Js.hoursBefore
                     ConversationHistoryManager.CONTEXT_FRESHNESS_HOURS now)
             conversationHistory ->
      Js.includes out (historyHeading +:+ Js.nl
                       +:+ "No previous conversation history" +:+ Js.nl)
      = true).
Proof.
  cbv zeta. intros Hfit.
  assert (Hout : buildFullContext toISOString now projectContext fileContents
                                  query0 tool0 conversationHistory
                 = assemble toISOString projectContext fileContents
                     (ConversationHistoryManager.getRecentHistory
                        now 5 conversationHistory) tool0 query0).
  { unfold buildFullContext.
    destruct (Z.ltb_spec MAX_CONTEXT_TOKENS
                (estimateTokenCount
                   (assemble toISOString projectContext fileContents
                      (ConversationHistoryManager.getRecentHistory
                         now 5 conversationHistory) tool0 query0)));
      [lia | reflexivity]. }
  rewrite Hout. unfold assemble. split; [apply startsWith_append|].
  split; [|split].
  - set (past := historyPart _).
    rewrite <- (append_assoc historyHeading past).
    rewrite <- (append_assoc (overviewPart projectContext fileContents)).
    apply endsWith_append.
  - set (past := historyPart _).
    apply (includes_part _
             (overviewPart projectContext fileContents +:+ historyHeading
              +:+ past +:+ queryHeading +:+ Js.nl)
             _ (Js.nl +:+ "---" +:+ Js.nl +:+ Js.nl)).
    unfold queryPart. by rewrite !append_assoc.
  - intros Hold.
    rewrite (getRecentHistory_none now 5 conversationHistory Hold).
    apply (includes_part _ (overviewPart projectContext fileContents)
                         _ (Js.nl +:+ queryHeading
                            +:+ queryPart tool0 query0)).
    unfold historyPart, formatConversationHistory.
    by rewrite !append_assoc.
Qed.

Lemma length_slice0 s n :
  Js.length (Js.slice0 s n) = Z.min (Z.of_nat n) (Js.length s).
Proof. unfold Js.length, Js.slice0. rewrite length_take. lia. Qed.

(** X17: the summary of the project takes at most 500 code units of
    package.json and 800 of the README, each followed by a mark of 15 code
    units when it was cut: its length is 57, the two cut texts and the
    listing, so at most 1387 more than the listing, which is not cut. *)
Theorem summarizeProject_length context :
  let cut (limit : Z) (text : string) :=
    Z.min limit (Js.length text)
    + (if limit <? Js.length text then 15 else 0) in
  Js.length (summarizeProject context)
  = 57 + cut 500 (packageJson context) + cut 800 (readme context)
    + Js.length (structure context)
  /\ Js.length (structure context) + 57
     <= Js.length (summarizeProject context)
     <= Js.length (structure context) + 1387.
Proof.
  cbv zeta.
  assert (Hlen : Js.length (summarizeProject context)
    = 57 + (Z.min 500 (Js.length (packageJson context))
            + (if 500 <? Js.length (packageJson context) then 15 else 0))
      + (Z.min 800 (Js.length (readme context))
         + (if 800 <? Js.length (readme context) then 15 else 0))
      + Js.length (structure context)).
  { unfold summarizeProject.
    pose proof (length_slice0 (packageJson context) 500) as Hp.
    pose proof (length_slice0 (readme context) 800) as Hr.
    set (p := Js.slice0 (packageJson context) 500) in *.
    set (r := Js.slice0 (readme context) 800) in *. clearbody p r.
    unfold Js.length in *. rewrite !length_append.
    destruct (500 <? _); destruct (800 <? _); simpl String.length; lia. }
  split; [exact Hlen|]. rewrite Hlen.
  assert (0 <= Js.length (packageJson context)) by (unfold Js.length; lia).
  assert (0 <= Js.length (readme context)) by (unfold Js.length; lia).
  destruct (500 <? _); destruct (800 <? _); lia.
Qed.

Lemma uniq_from_spec seen a :
  NoDup (Js.uniq_from seen a)
  /\ (forall x, In x (Js.uniq_from seen a) <-> In x a /\ ~ In x seen).
Proof.
  revert seen. induction a as [|y a IH]; intros seen; simpl.
  - split; [constructor | tauto].
  - assert (Hinc : forall l x, Js.array_includes l x = true <-> In x l).
    { intros l x. unfold Js.array_includes. rewrite existsb_exists. split.
      - intros (z & Hz & Heq). apply String.eqb_eq in Heq. by subst.
      - intros Hx. exists x. split; [done | apply String.eqb_refl]. }
    destruct (Js.array_includes seen y) eqn:Hy.
    + apply Hinc in Hy. destruct (IH seen) as [Hnd Hin].
      split; [exact Hnd|]. intros x. rewrite Hin.
      split; [tauto|]. intros [[<-|Hx] Hs]; tauto.
    + assert (Hy' : ~ In y seen) by (rewrite <- Hinc; congruence).
      destruct (IH (y :: seen)) as [Hnd Hin]. split.
      * apply NoDup_cons. split; [|exact Hnd].
        rewrite list_elem_of_In, Hin. simpl. tauto.
      * intros x. simpl. rewrite Hin. simpl.
        destruct (String.eqb_spec y x) as [->|Hne]; tauto.
Qed.

Lemma uniq_from_sublist seen a : Js.uniq_from seen a `sublist_of` a.
Proof.
  revert seen. induction a as [|x a IH]; intros seen; simpl; [done|].
  destruct (Js.array_includes seen x);
    [apply sublist_cons, IH | apply sublist_skip, IH].
Qed.

Lemma includes_json_js q :
  Js.includes q ".json" = true -> Js.includes q ".js" = true.
Proof.
  rewrite !includes_append. intros (a & b & ->).
  exists a, ("on" +:+ b)%string. reflexivity.
Qed.

(** X18: discoverRelevantFiles names no file twice and at most 27 files;
    each is a config file that exists or the name of a file, among the
    first three found, that ends with an extension written in the query.
    A query that contains .json also brings in the first three files that
    end with .js, and an empty query, or one that begins with a space,
    brings in every config file that exists. *)
Theorem discoverRelevantFiles_found fs q :
  let found := discoverRelevantFiles fs q in
  NoDup found
  /\ (List.length found <= 27)%nat
  /\ (forall f, In f found ->
        (In f configFiles /\ accessible fs f = true)
        \/ exists ext, In ext fileExtensions /\ Js.includes q ext = true
                       /\ In f (take 3 (findFilesByExtension fs ext)))
  /\ (Js.includes q ".json" = true ->
      forall f, In f (take 3 (findFilesByExtension fs ".js")) -> In f found)
  /\ (q = ""%string \/ (exists q', q = String " " q') ->
      forall f, In f configFiles -> accessible fs f = true -> In f found).
Proof.
  cbv zeta. unfold discoverRelevantFiles, Js.uniq.
  set (byExtension := flat_map _ fileExtensions).
  set (byKeyword := List.filter _ configFiles).
  destruct (uniq_from_spec [] (byExtension ++ byKeyword)) as [Hnd Hin].
  assert (Hext : forall f, In f byExtension <->
            exists ext, In ext fileExtensions /\ Js.includes q ext = true
                        /\ In f (take 3 (findFilesByExtension fs ext))).
  { intros f. unfold byExtension. rewrite in_flat_map. split.
    - intros (ext & He & Hf). exists ext. split; [exact He|].
      destruct (Js.includes q ext); [tauto | destruct Hf].
    - intros (ext & He & Hq & Hf). exists ext. split; [exact He|].
      by rewrite Hq. }
  split; [exact Hnd|]. split; [|split; [|split]].
  - pose proof (uniq_from_sublist [] (byExtension ++ byKeyword)) as Hsub.
    apply sublist_length in Hsub. rewrite length_app in Hsub.
    assert (List.length byKeyword <= 3)%nat
      by (etrans; [apply filter_length_le | reflexivity]).
    assert (List.length byExtension <= 24)%nat.
    { unfold byExtension, fileExtensions. simpl. rewrite !length_app.
      repeat match goal with
             | |- context [if ?b then _ else _] => destruct b
             end; simpl; rewrite ?length_firstn; lia. }
    lia.
  - intros f Hf. apply Hin in Hf. destruct Hf as [Hf _].
    apply in_app_iff in Hf. destruct Hf as [Hf|Hf].
    + right. by apply Hext.
    + left. apply filter_In in Hf. destruct Hf as [Hc Hf].
      apply andb_true_iff in Hf. split; [exact Hc | apply Hf].
  - intros Hjson f Hf. apply Hin. split; [|tauto].
    apply in_app_iff. left. apply Hext. exists ".js"%string.
    split; [simpl; tauto|]. split; [by apply includes_json_js | exact Hf].
  - intros Hq f Hc Hacc. apply Hin. split; [|tauto].
    apply in_app_iff. right. unfold byKeyword. apply filter_In.
    split; [exact Hc|]. apply andb_true_iff. split; [|exact Hacc].
    apply existsb_exists. exists ""%string.
    split; [|apply prefix_nil_any].
    destruct Hq as [->|[q' ->]]; simpl; by left.
Qed.

Lemma discoverRelevantFiles_found_witness :
  In "index.js"%string
     (discoverRelevantFiles sampleFiles "what is in package.json")
  /\ In "tsconfig.json"%string (discoverRelevantFiles sampleFiles "").
Proof.
  destruct (discoverRelevantFiles_found sampleFiles "what is in package.json")
    as (_ & _ & _ & Hjs & _).
  destruct (discoverRelevantFiles_found sampleFiles "")
    as (_ & _ & _ & _ & Hempty).
  split.
  - apply Hjs; [reflexivity | simpl; tauto].
  - apply Hempty; [by left | simpl; tauto | reflexivity].
Defined.

End ContextMore.

Section ContextMoreSamples.
Import ContextManager.

Lemma buildFullContext_within_budget_witness :
  Js.includes
    (buildFullContext (tz := utc) sampleISO (3 * day) oldSnapshot
                      "No relevant files found" "hello" "consult_ai"
                      (drop 1 stored3))
    (historyHeading +:+ Js.nl +:+ "No previous conversation history"
     +:+ Js.nl) = true.
Proof.
  apply (buildFullContext_within_budget (tz := utc) sampleISO (3 * day)
           oldSnapshot
           "No relevant files found" "hello" "consult_ai" (drop 1 stored3)).
  - vm_compute. discriminate.
  - repeat constructor; vm_compute; discriminate.
Defined.

End ContextMoreSamples.

Section RetryMore.
Import AICollaborationServer.
Context {T W : Type}.
Variable operation : W -> Outcome T * W.
Variables maxRetries baseDelay : Z.

Lemma retryLoop_shape rounds attempt lastError w :
  attempt <= maxRetries ->
  maxRetries + 1 - attempt <= Z.of_nat rounds ->
  let run := retryLoop operation maxRetries baseDelay rounds attempt
                       lastError w in
  invocations (snd run) = S (List.length (delays (snd run)))
  /\ (exists w0, operation w0 = (fst (fst run), snd (fst run))).
Proof.
  cbv zeta. revert attempt lastError w.
  induction rounds as [|rounds IH]; intros attempt lastError w Ha Hr;
    [lia|].
  cbn [retryLoop]. destruct (Z.leb_spec attempt maxRetries); [|lia].
  destruct (operation w) as [[value|error] w'] eqn:Hop;
    [split; [reflexivity | by exists w]|].
  destruct (nonRetryable error); [split; [reflexivity | by exists w]|].
  destruct (Z.eqb_spec attempt maxRetries);
    [split; [reflexivity | by exists w]|].
  specialize (IH (attempt + 1) error w' ltac:(lia) ltac:(lia)).
  destruct (retryLoop operation maxRetries baseDelay rounds (attempt + 1)
                      error w') as [[result w''] events].
  cbn [fst snd] in *. destruct IH as [IHn IHw]. split; [|exact IHw].
  unfold invocations, delays in *. simpl. by rewrite IHn.
Qed.

Lemma geometric_delays n :
  fold_right Z.add 0
    (map (fun a => baseDelay * 2 ^ (0 + Z.of_nat a)) (seq 0 n))
  = baseDelay * (2 ^ Z.of_nat n - 1).
Proof.
  assert (Hgen : forall l z, fold_right Z.add z l = fold_right Z.add 0 l + z).
  { induction l as [|x l IHl]; intros z; cbn [fold_right]; [lia|].
    rewrite IHl. lia. }
  induction n as [|n IH]; [cbn; lia|].
  rewrite seq_S, map_app, fold_right_app. cbn [map fold_right Nat.add].
  rewrite Hgen, IH.
  rewrite Nat2Z.inj_succ, Z.pow_succ_r by lia.
  rewrite Z.add_0_l, Z.add_0_r. ring.
Qed.

(** X19: with a negative maxRetries the operation is not invoked at all
    and the error Unknown error is thrown. *)
Theorem retry_negative_maxRetries w :
  maxRetries < 0 ->
  retryWithBackoff operation maxRetries baseDelay w
  = (Threw (ErrorObject "Unknown error"), w, []).
Proof.
  intros Hneg. unfold retryWithBackoff.
  destruct (Z.to_nat (maxRetries + 1)) as [|rounds] eqn:Hrounds;
    [reflexivity | lia].
Qed.

(** X20: for maxRetries >= 0 the operation is invoked at least once and
    at most maxRetries + 1 times, there is one wait between two
    invocations and none after the last, and the waits add up to
    baseDelay * (2^waits - 1); what is returned or thrown, and the world
    left behind, are those of an invocation of the operation. *)
Theorem retry_invocations_and_waits w :
  0 <= maxRetries ->
  let run := retryWithBackoff operation maxRetries baseDelay w in
  let waits := List.length (delays (snd run)) in
  (1 <= invocations (snd run))%nat
  /\ Z.of_nat (invocations (snd run)) <= maxRetries + 1
  /\ invocations (snd run) = S waits
  /\ totalDelay (snd run) = baseDelay * (2 ^ Z.of_nat waits - 1)
  /\ (0 <= baseDelay ->
      totalDelay (snd run) <= baseDelay * (2 ^ maxRetries - 1))
  /\ (exists w0, operation w0 = (fst (fst run), snd (fst run))).
Proof.
  intros Hmax. cbv zeta. unfold retryWithBackoff.
  destruct (retryLoop_shape (Z.to_nat (maxRetries + 1)) 0
              (ErrorObject "Unknown error") w) as [Hn Hw]; [lia | lia |].
  destruct (retryLoop_events operation maxRetries baseDelay
              (Z.to_nat (maxRetries + 1)) 0 (ErrorObject "Unknown error") w)
    as [Hle Hd].
  set (run := retryLoop operation maxRetries baseDelay
                        (Z.to_nat (maxRetries + 1)) 0
                        (ErrorObject "Unknown error") w) in *.
  assert (Htotal : totalDelay (snd run)
                   = baseDelay * (2 ^ Z.of_nat (List.length (delays (snd run)))
                                  - 1)).
  { unfold totalDelay. rewrite Hd at 1. apply geometric_delays. }
  split; [lia|]. split; [lia|]. split; [exact Hn|].
  split; [exact Htotal|]. split; [|exact Hw].
  intros Hb. rewrite Htotal. apply Z.mul_le_mono_nonneg_l; [exact Hb|].
  apply Z.sub_le_mono_r. apply Z.pow_le_mono_r; lia.
Qed.

(** X21: an operation that succeeds at once is invoked once and its value
    is returned without any wait; an operation that fails every time
    with a failure that is retried is invoked maxRetries + 1 times, with
    all the waits baseDelay * 2^a for a below maxRetries, and its last
    failure is thrown. *)
Theorem retry_first_success_and_exhaustion w :
  0 <= maxRetries ->
  (forall value w', operation w = (Returned value, w') ->
     retryWithBackoff operation maxRetries baseDelay w
     = (Returned value, w', [Invoke]))
  /\ ((forall w0, exists error w1,
          operation w0 = (Threw error, w1) /\ transient error) ->
      let run := retryWithBackoff operation maxRetries baseDelay w in
      Z.of_nat (invocations (snd run)) = maxRetries + 1
      /\ delays (snd run)
         = map (fun a => baseDelay * 2 ^ Z.of_nat a)
               (seq 0 (Z.to_nat maxRetries))
      /\ exists error w0,
           fst run = (Threw error, snd (operation w0))
           /\ fst (operation w0) = Threw error).
Proof.
  intros Hmax. split.
  - intros value w' Hop. unfold retryWithBackoff.
    destruct (Z.to_nat (maxRetries + 1)) as [|rounds] eqn:Hrounds; [lia|].
    cbn [retryLoop]. destruct (Z.leb_spec 0 maxRetries); [|lia].
    by rewrite Hop.
  - intros Hfail. cbv zeta. unfold retryWithBackoff.
    assert (Hgen : forall rounds attempt lastError w0,
               0 <= attempt <= maxRetries ->
               Z.of_nat rounds = maxRetries + 1 - attempt ->
               let run := retryLoop operation maxRetries baseDelay rounds
                                    attempt lastError w0 in
               invocations (snd run) = rounds
               /\ List.length (delays (snd run)) = pred rounds
               /\ exists error w1,
                    fst run = (Threw error, snd (operation w1))
                    /\ fst (operation w1) = Threw error).
    { induction rounds as [|rounds IH]; intros attempt lastError w0 Ha Hr;
        [lia|].
      cbv zeta. cbn [retryLoop].
      destruct (Z.leb_spec attempt maxRetries); [|lia].
      destruct (Hfail w0) as (error & w1 & Hop & Htr).
      rewrite Hop. apply transient_retried in Htr. rewrite Htr.
      destruct (Z.eqb_spec attempt maxRetries) as [Heq|Hne].
      - assert (rounds = O) by lia. subst rounds.
        split; [reflexivity|]. split; [reflexivity|].
        exists error, w0. by rewrite Hop.
      - specialize (IH (attempt + 1) error w1 ltac:(lia) ltac:(lia)).
        cbv zeta in IH.
        destruct (retryLoop operation maxRetries baseDelay rounds
                            (attempt + 1) error w1) as [[result w''] events].
        cbn [fst snd] in *. destruct IH as (IHn & IHd & IHe).
        split; [unfold invocations in *; simpl; by rewrite IHn|].
        split; [|exact IHe].
        unfold delays in *. simpl. rewrite IHd. destruct rounds; [lia|].
        reflexivity. }
    destruct (Hgen (Z.to_nat (maxRetries + 1)) 0
                (ErrorObject "Unknown error") w ltac:(lia) ltac:(lia))
      as (Hn & Hd & He).
    destruct (retryLoop_events operation maxRetries baseDelay
                (Z.to_nat (maxRetries + 1)) 0 (ErrorObject "Unknown error") w)
      as [_ Hmap].
    split; [rewrite Hn; lia|]. split; [|exact He].
    rewrite Hmap, Hd.
    replace (pred (Z.to_nat (maxRetries + 1))) with (Z.to_nat maxRetries)
      by lia.
    reflexivity.
Qed.

End RetryMore.

Lemma retry_negative_maxRetries_witness :
  AICollaborationServer.retryWithBackoff failsThreeTimes (-1) 200 O
  = (Threw (ErrorObject "Unknown error"), O, []).
Proof. apply retry_negative_maxRetries. lia. Defined.

Lemma retry_invocations_and_waits_witness :
  totalDelay (snd (AICollaborationServer.retryWithBackoff
                     failsThreeTimes 3 200 O)) <= 1400.
Proof.
  destruct (retry_invocations_and_waits failsThreeTimes 3 200 O)
    as (_ & _ & _ & _ & Hb & _); [lia|].
  apply Hb. lia.
Defined.

Lemma retry_first_success_and_exhaustion_witness :
  AICollaborationServer.invocations
    (snd (AICollaborationServer.retryWithBackoff
            (fun n : nat =>
               (@Threw string (ErrorObject "socket hang up"), S n)) 2 100 O))
  = 3%nat.
Proof.
  destruct (retry_first_success_and_exhaustion
              (fun n : nat =>
                 (@Threw string (ErrorObject "socket hang up"), S n))
              2 100 O) as [_ H]; [lia|].
  destruct H as (Hn & _).
  - intros w0. exists (ErrorObject "socket hang up"), (S w0).
    split; [reflexivity|]. apply transient_retried. reflexivity.
  - apply Nat2Z.inj. exact Hn.
Defined.

Section ProviderCalls.
Import AICollaborationServer.

Lemma marker_in_message (before marker after : string) :
  In marker nonRetryableMarkers ->
  nonRetryable (ErrorObject (before +:+ marker +:+ after)) = true.
Proof.
  intros Hm. apply nonRetryable_markers.
  apply List.Exists_exists. exists marker. split; [exact Hm|].
  by exists before, marker, after.
Qed.

Lemma retry_once {T W : Type} (operation : W -> Outcome T * W) error w w' :
  operation w = (Threw error, w') -> nonRetryable error = true ->
  retryWithBackoff operation 3 200 w = (Threw error, w', [Invoke]).
Proof.
  intros Hop Hnr. unfold retryWithBackoff.
  change (Z.to_nat (3 + 1)) with 4%nat. cbn [retryLoop].
  change (0 <=? 3) with true. cbv iota. by rewrite Hop, Hnr.
Qed.

(** X22: a provider that answers with the HTTP status 401 or 403 is asked
    once and not again: callAIProvider throws the error of the call, whose
    message shows the status and the text of the answer, without waiting.
    The same holds for any status when the text of the answer holds one of
    the markers. *)
Theorem auth_status_is_not_retried {W : Type} env key provider
        (exchange : W -> Exchange * W) w status text w' :
  assoc key (AI_PROVIDERS env) = Some provider ->
  exchange w = (HttpError status (Returned text), w') ->
  status = 401 \/ status = 403
  \/ (exists before marker after,
        In marker nonRetryableMarkers
        /\ text = before +:+ marker +:+ after) ->
  exists api,
    In api ["Claude"; "OpenAI"; "Gemini"; "Ollama"]%string
    /\ callAIProvider provider exchange w
       = (Threw (ErrorObject (api +:+ " API error (" +:+ decimal status
                              +:+ "): " +:+ text)), w', [Invoke]).
Proof.
  intros Hkey Hx Hwhy.
  assert (Hmsg : forall api,
             nonRetryable
               (ErrorObject (api +:+ " API error (" +:+ decimal status
                             +:+ "): " +:+ text)) = true).
  { intros api. destruct Hwhy as [->|[->|(before & marker & after & Hm & ->)]].
    - change (decimal 401) with "401"%string.
      rewrite <- (append_assoc api), <- (append_assoc (api +:+ _)).
      rewrite (append_assoc _ "401").
      apply marker_in_message. simpl. tauto.
    - change (decimal 403) with "403"%string.
      rewrite <- (append_assoc api), <- (append_assoc (api +:+ _)).
      rewrite (append_assoc _ "403").
      apply marker_in_message. simpl. tauto.
    - replace (api +:+ " API error (" +:+ decimal status +:+ "): "
               +:+ before +:+ marker +:+ after)
        with ((api +:+ " API error (" +:+ decimal status +:+ "): "
               +:+ before) +:+ marker +:+ after)
        by (by rewrite !append_assoc).
      by apply marker_in_message. }
  assert (Hrun : forall api,
             providerOperation provider exchange w
             = (Threw (ErrorObject (api +:+ " API error ("
                                    +:+ decimal status +:+ "): " +:+ text)),
                w') ->
             callAIProvider provider exchange w
             = (Threw (ErrorObject (api +:+ " API error ("
                                    +:+ decimal status +:+ "): " +:+ text)),
                w', [Invoke])).
  { intros api Hop. unfold callAIProvider. by apply retry_once. }
  unfold AI_PROVIDERS in Hkey. cbn [assoc] in Hkey.
  repeat match type of Hkey with
         | context [String.eqb ?k key] => destruct (String.eqb k key)
         end; try discriminate Hkey; injection Hkey as <-.
  - exists "Claude"%string. split; [simpl; tauto|]. apply Hrun.
    unfold providerOperation. simpl. by rewrite Hx.
  - exists "OpenAI"%string. split; [simpl; tauto|]. apply Hrun.
    unfold providerOperation. simpl. by rewrite Hx.
  - exists "Gemini"%string. split; [simpl; tauto|]. apply Hrun.
    unfold providerOperation. simpl. by rewrite Hx.
  - exists "Ollama"%string. split; [simpl; tauto|]. apply Hrun.
    unfold providerOperation. simpl. by rewrite Hx.
Qed.

Lemma auth_status_is_not_retried_witness :
  callAIProvider
    (mkAIProvider "Claude" "claude-sonnet-4-20250514" "sk-test"
       "https://api.anthropic.com/v1/messages"
       "Analysis, reasoning, and comprehensive responses")
    (fun n : nat => (HttpError 403 (Returned "forbidden"), S n)) O
  = (Threw (ErrorObject "Claude API error (403): forbidden"), 1%nat,
     [Invoke]).
Proof.
  destruct (auth_status_is_not_retried
              (mkEnvironment (Some "sk-test") None None None None)
              "claude"
              (mkAIProvider "Claude" "claude-sonnet-4-20250514" "sk-test"
                 "https://api.anthropic.com/v1/messages"
                 "Analysis, reasoning, and comprehensive responses")
              (fun n : nat => (HttpError 403 (Returned "forbidden"), S n))
              O 403 "forbidden" 1%nat eq_refl eq_refl)
    as (api & Hapi & Hrun); [tauto|].
  rewrite Hrun. simpl in Hapi.
  destruct Hapi as [<-|[<-|[<-|[<-|[]]]]]; try reflexivity;
    exfalso; vm_compute in Hrun; discriminate Hrun.
Defined.

End ProviderCalls.

Section ConsultFacts.
Import AICollaborationServer ProviderCallManager ConversationHistoryManager.
Context {W : Type} {tz : TimeZone}.
Variable env : Environment.

Lemma maxCalls_afterLazyReset now tr :
  maxCalls (afterLazyReset now tr) = maxCalls tr.
Proof.
  unfold afterLazyReset. by destruct (RESET_INTERVAL <? now - lastReset tr).
Qed.

Lemma maxCalls_counted now now' tr :
  maxCalls (afterLazyReset now (withOneMoreCall (afterLazyReset now' tr)))
  = maxCalls tr.
Proof.
  rewrite maxCalls_afterLazyReset. exact (maxCalls_afterLazyReset _ _).
Qed.

Lemma calls_afterLazyReset now tr :
  0 <= calls tr -> 0 <= calls (afterLazyReset now tr).
Proof.
  unfold afterLazyReset.
  by destruct (RESET_INTERVAL <? now - lastReset tr).
Qed.

Lemma remaining_after_refusal now tr :
  maxCalls tr <= calls tr ->
  Z.max 0 (maxCalls (afterLazyReset now tr) - calls (afterLazyReset now tr))
  = 0
  \/ (RESET_INTERVAL < now - lastReset tr
      /\ Z.max 0 (maxCalls (afterLazyReset now tr)
                  - calls (afterLazyReset now tr)) = maxCalls tr).
Proof.
  intros Hfull. unfold afterLazyReset.
  destruct (Z.ltb_spec RESET_INTERVAL (now - lastReset tr)) as [Hover|Hin];
    cbn [maxCalls calls]; lia.
Qed.

Lemma or_else_empty variable : Js.or_else variable "" = ""%string <-> unset variable.
Proof.
  unfold unset. destruct variable as [[|c v]|]; simpl; split; intros H;
    try tauto; try discriminate H; destruct H as [H|H]; discriminate H.
Qed.

(** X23: consultAI throws exactly when the provider is not a key of
    AI_PROVIDERS or has an empty API key there; this is so for the key
    ollama whatever the environment, and for the key claude exactly when
    ANTHROPIC_API_KEY is not set or empty. *)
Theorem consultAI_throws_iff_unconfigured (out : Outside W)
        provider prompt context s w :
  (throws (consultAI env out provider prompt context s w)
   <-> forall aiProvider,
         assoc provider (AI_PROVIDERS env) = Some aiProvider ->
         apiKey aiProvider = ""%string)
  /\ (provider = "ollama"%string ->
      throws (consultAI env out provider prompt context s w))
  /\ (provider = "claude"%string ->
      (throws (consultAI env out provider prompt context s w)
       <-> unset (ANTHROPIC_API_KEY env))).
Proof.
  assert (Hiff : throws (consultAI env out provider prompt context s w)
                 <-> forall aiProvider,
                       assoc provider (AI_PROVIDERS env) = Some aiProvider ->
                       apiKey aiProvider = ""%string).
  { unfold throws, consultAI, lookupProvider.
    destruct (assoc provider (AI_PROVIDERS env)) as [aiProvider|].
    - destruct (String.eqb (apiKey aiProvider) "") eqn:Hkey.
      + apply String.eqb_eq in Hkey. split; [|by eexists].
        intros _ a [= <-]. exact Hkey.
      + apply String.eqb_neq in Hkey. split.
        * intros [error Hthrow]. exfalso. revert Hthrow.
          destruct (negb _); [discriminate|].
          destruct (callAIProvider _ _ _) as [[[response|error'] w'] events];
            [|discriminate].
          by destruct (_ !! provider).
        * intros Hall. by destruct Hkey; apply Hall.
    - split; [intros _ a [=]|intros _].
      destruct (assoc provider objectPrototypeMembers); by eexists. }
  split; [exact Hiff|]. split.
  - intros ->. apply Hiff. by intros a [= <-].
  - intros ->. rewrite Hiff, <- or_else_empty. split.
    + intros Hall. by apply (Hall _ eq_refl).
    + by intros Hkey a [= <-].
Qed.

Lemma consultAI_cases (out : Outside W) provider prompt context s w :
  match consultAI env out provider prompt context s w with
  | (Threw _, s', w') => s' = s /\ w' = w
  | (Returned (LimitReached _ remainingCalls), s', w') =>
      w' = w
      /\ conversationHistory s' = conversationHistory s
      /\ (forall q,
            providerCallManager s' !! q
            = if decide (q = provider)
              then afterLazyReset (remainingAt out)
                     <$> (afterLazyReset (checkedAt out)
                            <$> providerCallManager s !! q)
              else providerCallManager s !! q)
      /\ (remainingCalls = 0
          \/ exists tr,
               providerCallManager s !! provider = Some tr
               /\ RESET_INTERVAL
                  < remainingAt out
                    - lastReset (afterLazyReset (checkedAt out) tr)
               /\ remainingCalls = maxCalls tr)
  | (Returned (ConsultError _ _), s', _) =>
      conversationHistory s' = conversationHistory s
      /\ (forall q,
            providerCallManager s' !! q
            = if decide (q = provider)
              then afterLazyReset (checkedAt out)
                     <$> providerCallManager s !! q
              else providerCallManager s !! q)
  | (Returned (Consultation _ _ remainingCalls totalCalls response), s', _) =>
      exists tr tokenCount,
        providerCallManager s !! provider = Some tr
        /\ calls (afterLazyReset (checkedAt out) tr) < maxCalls tr
        /\ (forall q,
              providerCallManager s' !! q
              = if decide (q = provider)
                then Some (afterLazyReset (statusAt out)
                             (withOneMoreCall
                                (afterLazyReset (checkedAt out) tr)))
                else afterLazyReset (statusAt out)
                       <$> providerCallManager s !! q)
        /\ remainingCalls
           = Z.max 0 (maxCalls tr
                      - calls (afterLazyReset (statusAt out)
                                 (withOneMoreCall
                                    (afterLazyReset (checkedAt out) tr))))
        /\ totalCalls = maxCalls tr
        /\ history (conversationHistory s')
           = firstn 20 (mkEntry (addedAt out) "consult_ai" provider prompt
                          response [] tokenCount
                        :: history (conversationHistory s))
  end.
Proof.
  unfold consultAI.
  destruct (lookupProvider env provider) as [aiProvider|shown|];
    [|by split..].
  destruct (String.eqb (apiKey aiProvider) ""); [by split|].
  rewrite canMakeCall_lookup.
  destruct (providerCallManager s !! provider) as [tr|] eqn:Hp;
    cbn [fst snd negb].
  2: { rewrite getRemainingCalls_lookup, Hp. cbn [fst snd].
       split; [done|]. split; [done|]. split; [|by left].
       intros q. destruct (decide (q = provider)) as [->|];
         [by rewrite Hp|done]. }
  set (tr1 := afterLazyReset (checkedAt out) tr).
  assert (Hframe : forall q,
             <[provider := tr1]> (providerCallManager s) !! q
             = if decide (q = provider)
               then afterLazyReset (checkedAt out)
                      <$> providerCallManager s !! q
               else providerCallManager s !! q).
  { intros q. destruct (decide (q = provider)) as [->|Hq].
    - by rewrite lookup_insert_eq, Hp.
    - by rewrite lookup_insert_ne. }
  destruct (calls tr1 <? maxCalls tr1) eqn:Hlt; cbn [negb].
  - apply Z.ltb_lt in Hlt.
    destruct (callAIProvider aiProvider (exchange out) w)
      as [[[response|error] w'] events]; [|by split].
    set (recorded := recordCall provider _).
    assert (Hrec : forall q,
               recorded !! q
               = if decide (q = provider) then Some (withOneMoreCall tr1)
                 else providerCallManager s !! q).
    { intros q. unfold recorded, recordCall. rewrite lookup_insert_eq.
      destruct (decide (q = provider)) as [->|Hq].
      - by rewrite lookup_insert_eq.
      - by rewrite !lookup_insert_ne. }
    destruct (getCallStatus_lookup (statusAt out) recorded provider)
      as [Hstatus _].
    rewrite getRemainingCalls_lookup, Hrec, decide_True in Hstatus by done.
    cbn [fst fmap option_fmap option_map] in Hstatus. rewrite Hstatus.
    cbn [remaining total].
    exists tr. eexists. split; [reflexivity|].
    split; [by rewrite <- (maxCalls_afterLazyReset (checkedAt out))|].
    split; [|split; [|split]].
    + intros q.
      destruct (getCallStatus_lookup (statusAt out) recorded q) as [_ Hq].
      cbn [providerCallManager]. rewrite Hq, Hrec.
      by destruct (decide (q = provider)).
    + unfold tr1. by rewrite maxCalls_counted.
    + exact (maxCalls_afterLazyReset _ _).
    + cbn [conversationHistory]. unfold addEntry, persistHistory.
      cbn [history new_tool new_provider new_query new_response
           new_contextFiles new_tokenCount].
      change (Z.to_nat MAX_HISTORY_ENTRIES) with 20%nat.
      destruct (MAX_HISTORY_ENTRIES <? _) eqn:Hlen; [reflexivity|].
      apply Z.ltb_ge in Hlen. unfold MAX_HISTORY_ENTRIES in Hlen.
      symmetry. apply firstn_all2. lia.
  - apply Z.ltb_ge in Hlt.
    rewrite getRemainingCalls_lookup, lookup_insert_eq. cbn [fst snd].
    rewrite insert_insert_eq. cbn [providerCallManager conversationHistory].
    split; [done|]. split; [done|]. split.
    + intros q. destruct (decide (q = provider)) as [->|Hq].
      * by rewrite lookup_insert_eq, Hp.
      * by rewrite lookup_insert_ne.
    + destruct (remaining_after_refusal (remainingAt out) tr1 Hlt)
        as [Hzero|[Hover Hfull]]; [by left|].
      right. exists tr. split; [done|]. split; [exact Hover|].
      rewrite Hfull. apply maxCalls_afterLazyReset.
Qed.

(** X24: what a call of consultAI leaves behind, by the kind of its
    reply.  When it throws, nothing has changed.  When it reports the limit
    as reached, the number of remaining calls it shows is 0, or the whole
    limit if the window of the tracker ended between the reading of the
    clock by canMakeCall and the one by getRemainingCalls.  In that case
    and when it reports an error, the history is as before and no call has
    been counted: only the tracker of the provider may have been reset.  A
    consultation was allowed by the limit, counts one call for the provider,
    shows the remaining calls and the limit of that tracker, and puts one
    entry for the prompt and the response first in the history, which keeps
    at most 20 entries. *)
Theorem consultAI_accounting (out : Outside W) provider prompt context s w :
  match consultAI env out provider prompt context s w with
  | (Threw _, s', w') => s' = s /\ w' = w
  | (Returned (LimitReached _ remainingCalls), s', w') =>
      w' = w
      /\ conversationHistory s' = conversationHistory s
      /\ (forall q,
            providerCallManager s' !! q
            = if decide (q = provider)
              then afterLazyReset (remainingAt out)
                     <$> (afterLazyReset (checkedAt out)
                            <$> providerCallManager s !! q)
              else providerCallManager s !! q)
      /\ (remainingCalls = 0
          \/ exists tr,
               providerCallManager s !! provider = Some tr
               /\ RESET_INTERVAL
                  < remainingAt out
                    - lastReset (afterLazyReset (checkedAt out) tr)
               /\ remainingCalls = maxCalls tr)
  | (Returned (ConsultError _ _), s', _) =>
      conversationHistory s' = conversationHistory s
      /\ (forall q,
            providerCallManager s' !! q
            = if decide (q = provider)
              then afterLazyReset (checkedAt out)
                     <$> providerCallManager s !! q
              else providerCallManager s !! q)
  | (Returned (Consultation _ _ remainingCalls totalCalls response), s', _) =>
      exists tr tokenCount,
        providerCallManager s !! provider = Some tr
        /\ calls (afterLazyReset (checkedAt out) tr) < maxCalls tr
        /\ (forall q,
              providerCallManager s' !! q
              = if decide (q = provider)
                then Some (afterLazyReset (statusAt out)
                             (withOneMoreCall
                                (afterLazyReset (checkedAt out) tr)))
                else afterLazyReset (statusAt out)
                       <$> providerCallManager s !! q)
        /\ remainingCalls
           = Z.max 0 (maxCalls tr
                      - calls (afterLazyReset (statusAt out)
                                 (withOneMoreCall
                                    (afterLazyReset (checkedAt out) tr))))
        /\ totalCalls = maxCalls tr
        /\ history (conversationHistory s')
           = firstn 20 (mkEntry (addedAt out) "consult_ai" provider prompt
                          response [] tokenCount
                        :: history (conversationHistory s))
  end.
Proof. apply consultAI_cases. Qed.

Lemma consultAI_guarded (out : Outside W) provider prompt context s w :
  guarded (providerCallManager s) ->
  guarded (providerCallManager
             (snd (fst (consultAI env out provider prompt context s w)))).
Proof.
  intros Hg. unfold consultAI.
  destruct (lookupProvider env provider) as [aiProvider|shown|];
    [|exact Hg..].
  destruct (String.eqb (apiKey aiProvider) ""); [exact Hg|].
  destruct (fst (canMakeCall (checkedAt out) provider
                   (providerCallManager s))) eqn:Hcan; cbn [negb].
  - destruct (callAIProvider aiProvider (exchange out) w)
      as [[[response|error] w'] events].
    + assert (Hs : guarded
                     (snd (getCallStatus (statusAt out)
                             (recordCall provider
                                (snd (canMakeCall (checkedAt out) provider
                                        (providerCallManager s))))))).
      { apply getCallStatus_guarded. by apply guard_call. }
      by destruct (_ !! provider).
    + cbn [fst snd providerCallManager]. by apply guard_can.
  - cbn [fst snd providerCallManager].
    by apply guard_remaining, guard_can.
Qed.

Lemma served_guarded s : served (W:=W) env s -> guarded (providerCallManager s).
Proof.
  induction 1 as [now f|now ok data s _ IH
                  |out provider prompt context s w _ IH].
  - apply guard_new.
  - exact IH.
  - by apply consultAI_guarded.
Qed.

(** X25: in a server that has only answered calls of consultAI since it
    was started, every tracker has the limit 3 and a count between 0 and
    3; the next consultation, if one is made, shows the limit 3 and a
    number of remaining calls between 0 and 3. *)
Theorem served_within_limits s :
  served (W:=W) env s ->
  (forall p tr,
     providerCallManager s !! p = Some tr ->
     maxCalls tr = 3 /\ 0 <= calls tr <= 3)
  /\ (forall (out : Outside W) provider prompt context w
             name specialty remainingCalls totalCalls response,
        fst (fst (consultAI env out provider prompt context s w))
        = Returned (Consultation name specialty remainingCalls totalCalls
                      response) ->
        totalCalls = 3 /\ 0 <= remainingCalls <= 3).
Proof.
  intros Hs. apply served_guarded in Hs.
  pose proof (guarded_within_quota _ Hs) as Hq. split.
  - intros p tr Hp. destruct (Hq _ _ Hp) as [Hmax Hc].
    unfold MAX_CALLS_PER_PROVIDER in Hmax. lia.
  - intros out provider prompt context w name sp r t response Hreply.
    pose proof (consultAI_cases out provider prompt context s w) as Hcases.
    destruct (consultAI env out provider prompt context s w)
      as [[reply s'] w'].
    cbn [fst] in Hreply. subst reply.
    destruct Hcases as (tr & tokens & Hp & _ & _ & -> & -> & _).
    destruct (Hq _ _ Hp) as [Hmax Hc].
    unfold MAX_CALLS_PER_PROVIDER in Hmax.
    pose proof (calls_afterLazyReset (checkedAt out) tr (proj1 Hc)) as H1.
    assert (H2 : 0 <= calls (afterLazyReset (statusAt out)
                               (withOneMoreCall
                                  (afterLazyReset (checkedAt out) tr)))).
    { apply calls_afterLazyReset. cbn [withOneMoreCall calls]. lia. }
    lia.
Qed.

End ConsultFacts.

Section CommandFacts.
Import AICollaborationServer.

Example parseAndExecuteCommand_samples :
  parseAndExecuteCommand "USE  consult_ai for this" "consult_ai" = true
  /\ parseAndExecuteCommand "use consult_ai2" "consult_ai" = false
  /\ parseAndExecuteCommand "please use consult_ai" "consult_ai" = false
  /\ parseAndExecuteCommand "now !consult_ai" "consult_ai" = true
  /\ parseAndExecuteCommand "!a then !consult_ai" "consult_ai" = false
  /\ parseAndExecuteCommand "use" "" = false.
Proof. repeat split; reflexivity. Qed.

Lemma takeWord_split s : exists rest, s = takeWord s +:+ rest.
Proof.
  induction s as [|c s [rest IH]]; simpl; [by exists ""%string|].
  destruct (Js.isWordChar c).
  - exists rest. by rewrite append_cons, <- IH.
  - by eexists.
Qed.

Lemma takeWord_word s : allUnits Js.isWordChar (takeWord s) = true.
Proof.
  induction s as [|c s IH]; simpl; [done|].
  destruct (Js.isWordChar c) eqn:Hc; simpl; [|done]. by rewrite Hc.
Qed.

Lemma takeWord_append word rest :
  allUnits Js.isWordChar word = true -> endsWord rest = true ->
  takeWord (word +:+ rest) = word.
Proof.
  intros Hw Hr. induction word as [|c word IH]; simpl in *.
  - destruct rest as [|d rest]; simpl in *; [done|].
    by destruct (Js.isWordChar d).
  - apply andb_true_iff in Hw as [Hc Hw]. rewrite Hc. by rewrite IH.
Qed.

Lemma skipWhiteSpace_split s : exists gap, s = gap +:+ skipWhiteSpace s.
Proof.
  induction s as [|c s [gap IH]]; simpl; [by exists ""%string|].
  destruct (Js.isWhiteSpace c).
  - exists (String c gap). by rewrite append_cons, <- IH.
  - by exists ""%string.
Qed.

Lemma skipWhiteSpace_append gap s :
  allUnits Js.isWhiteSpace gap = true ->
  skipWhiteSpace (gap +:+ s) = skipWhiteSpace s.
Proof.
  intros Hg. induction gap as [|c gap IH]; simpl in *; [done|].
  apply andb_true_iff in Hg as [Hc Hg]. rewrite Hc. by apply IH.
Qed.

Lemma word_not_space c : Js.isWordChar c = true -> Js.isWhiteSpace c = false.
Proof.
  destruct c as [[] [] [] [] [] [] [] []]; vm_compute; intros H;
    first [reflexivity | discriminate H].
Qed.

Lemma keywordRest_split keyword s rest :
  keywordRest keyword s = Some rest -> exists before, s = before +:+ rest.
Proof.
  revert s. induction keyword as [|k keyword IH]; intros s; simpl.
  - intros [= ->]. by exists ""%string.
  - destruct s as [|c s]; [done|].
    destruct (Ascii.eqb _ k); [|done].
    intros H. apply IH in H as [before ->]. by exists (String c before).
Qed.

Lemma keywordRest_append keyword s :
  keywordRest (Js.toLowerCase keyword) (keyword +:+ s) = Some s.
Proof.
  induction keyword as [|c keyword IH]; simpl; [done|].
  by rewrite Ascii.eqb_refl.
Qed.

Lemma matchCommand_sound keyword userMessage word :
  matchCommand keyword userMessage = Some word ->
  word <> ""%string /\ allUnits Js.isWordChar word = true
  /\ Js.includes userMessage word = true.
Proof.
  unfold matchCommand.
  destruct (keywordRest keyword userMessage) as [[|c rest]|] eqn:Hk; [done| |done].
  destruct (Js.isWhiteSpace c); [|done].
  apply keywordRest_split in Hk as [before ->].
  destruct (skipWhiteSpace_split rest) as [gap Hgap].
  destruct (takeWord_split (skipWhiteSpace rest)) as [after Hafter].
  pose proof (takeWord_word (skipWhiteSpace rest)) as Hword.
  destruct (takeWord (skipWhiteSpace rest)) as [|d taken] eqn:Htaken; [done|].
  intros [= <-]. split; [done|]. split; [exact Hword|].
  apply (includes_part _ (before +:+ String c gap) _ after).
  rewrite append_assoc, append_cons, <- Hafter, <- Hgap. reflexivity.
Qed.

Lemma matchTrigger_sound userMessage word :
  matchTrigger userMessage = Some word ->
  word <> ""%string /\ allUnits Js.isWordChar word = true
  /\ Js.includes userMessage word = true.
Proof.
  induction userMessage as [|c s IH]; simpl; [done|].
  assert (Hlater : matchTrigger s = Some word ->
                   word <> ""%string /\ allUnits Js.isWordChar word = true
                   /\ (String.prefix word (String c s)
                       || Js.includes s word)%bool = true).
  { intros H. apply IH in H as (H1 & H2 & H3).
    split; [done|]. split; [done|]. by rewrite H3, orb_true_r. }
  destruct (Ascii.eqb c "!"); [|exact Hlater].
  destruct (takeWord_split s) as [after Hafter].
  pose proof (takeWord_word s) as Hword.
  destruct (takeWord s) as [|d taken] eqn:Htaken; [exact Hlater|].
  intros [= <-]. split; [done|]. split; [exact Hword|].
  apply orb_true_iff. right. by apply (includes_part _ "" _ after).
Qed.

(** X26: parseAndExecuteCommand accepts a tool name only when the name is
    not empty, is made of letters, digits and underscores, and stands in
    the message: a tool whose name has any other character, a hyphen say,
    is accepted for no message. *)
Theorem parseAndExecuteCommand_sound userMessage toolName :
  parseAndExecuteCommand userMessage toolName = true ->
  toolName <> ""%string
  /\ allUnits Js.isWordChar toolName = true
  /\ Js.includes userMessage toolName = true.
Proof.
  unfold parseAndExecuteCommand. intros H.
  apply existsb_exists in H as (pattern & Hin & Hmatch).
  destruct (pattern userMessage) as [word|] eqn:Hp; [|done].
  apply String.eqb_eq in Hmatch. subst word.
  unfold mandatoryPatterns in Hin. simpl in Hin.
  destruct Hin as [<-|[<-|[<-|[<-|[<-|[]]]]]];
    first [exact (matchCommand_sound _ _ _ Hp)
          |exact (matchTrigger_sound _ _ Hp)].
Qed.

Lemma parseAndExecuteCommand_sound_witness :
  Js.includes "run multi_ai_research now" "multi_ai_research" = true.
Proof.
  exact (proj2 (proj2 (parseAndExecuteCommand_sound
                         "run multi_ai_research now" "multi_ai_research"
                         eq_refl))).
Defined.

Lemma matchTrigger_append before word rest :
  Js.includes before "!" = false ->
  word <> ""%string -> allUnits Js.isWordChar word = true ->
  endsWord rest = true ->
  matchTrigger (before +:+ "!" +:+ word +:+ rest) = Some word.
Proof.
  intros Hb Hne Hw Hr. induction before as [|c before IH].
  - change (matchTrigger ("" +:+ "!" +:+ word +:+ rest))
      with (match takeWord (word +:+ rest) with
            | EmptyString => matchTrigger (word +:+ rest)
            | word' => Some word'
            end).
    rewrite takeWord_append by done. by destruct word.
  - cbn [Js.includes] in Hb. apply orb_false_iff in Hb as [Hc Hb].
    change ((String c before) +:+ "!" +:+ word +:+ rest)
      with (String c (before +:+ "!" +:+ word +:+ rest)).
    cbn [matchTrigger]. simpl in Hc.
    destruct (Ascii.eqb c "!") eqn:Hbang.
    + apply Ascii.eqb_eq in Hbang. subst c. simpl in Hc.
      by destruct before.
    + by apply IH.
Qed.

(** X27: the forms that parseAndExecuteCommand accepts for a tool whose
    name is made of letters, digits and underscores: one of the words use,
    execute, run, call in any case at the very beginning, white space, the
    name, and then no further character of a name; and an exclamation mark
    before the name, when no exclamation mark stands earlier in the
    message. *)
Theorem parseAndExecuteCommand_accepts toolName rest :
  toolName <> ""%string ->
  allUnits Js.isWordChar toolName = true ->
  endsWord rest = true ->
  (forall keyword gap,
     In (Js.toLowerCase keyword) ["use"; "execute"; "run"; "call"]%string ->
     gap <> ""%string -> allUnits Js.isWhiteSpace gap = true ->
     parseAndExecuteCommand (keyword +:+ gap +:+ toolName +:+ rest) toolName
     = true)
  /\ (forall before,
        Js.includes before "!" = false ->
        parseAndExecuteCommand (before +:+ "!" +:+ toolName +:+ rest) toolName
        = true).
Proof.
  intros Hne Hw Hr. split.
  - intros keyword gap Hk Hgap Hws.
    assert (Hm : matchCommand (Js.toLowerCase keyword)
                   (keyword +:+ gap +:+ toolName +:+ rest) = Some toolName).
    { unfold matchCommand. rewrite keywordRest_append.
      destruct gap as [|c gap]; [done|]. simpl in Hws.
      apply andb_true_iff in Hws as [Hc Hws].
      change (String c gap +:+ toolName +:+ rest)
        with (String c (gap +:+ toolName +:+ rest)).
      cbv iota. rewrite Hc, skipWhiteSpace_append by done.
      assert (Hskip : skipWhiteSpace (toolName +:+ rest) = toolName +:+ rest).
      { destruct toolName as [|d name]; [done|]. simpl in Hw |- *.
        apply andb_true_iff in Hw as [Hd _].
        by rewrite (word_not_space _ Hd). }
      rewrite Hskip, takeWord_append by done. by destruct toolName. }
    unfold parseAndExecuteCommand, mandatoryPatterns.
    apply existsb_exists. exists (matchCommand (Js.toLowerCase keyword)).
    split; [|by rewrite Hm, String.eqb_refl].
    simpl in Hk. destruct Hk as [<-|[<-|[<-|[<-|[]]]]]; simpl; tauto.
  - intros before Hb.
    unfold parseAndExecuteCommand, mandatoryPatterns.
    apply existsb_exists. exists matchTrigger.
    split; [simpl; tauto|].
    by rewrite matchTrigger_append, String.eqb_refl.
Qed.

Lemma parseAndExecuteCommand_accepts_witness :
  parseAndExecuteCommand "Execute   consult_ai, please" "consult_ai" = true
  /\ parseAndExecuteCommand "now: !consult_ai." "consult_ai" = true.
Proof.
  destruct (parseAndExecuteCommand_accepts "consult_ai" ", please"
              ltac:(discriminate) eq_refl eq_refl) as [Hcommand _].
  destruct (parseAndExecuteCommand_accepts "consult_ai" "."
              ltac:(discriminate) eq_refl eq_refl) as [_ Htrigger].
  split.
  - apply (Hcommand "Execute" "   ")%string;
      [simpl; tauto | discriminate | reflexivity].
  - apply (Htrigger "now: "%string). reflexivity.
Defined.

End CommandFacts.

Section ConsultSamples.
Import AICollaborationServer.

Example consultAI_sample :
  let r := consultAI (tz := utc) sampleEnvironment sampleOutside "claude"
                     "hello" None (newServer 0 NoFile) O in
  fst (fst r)
  = Returned (Consultation "Claude"
                "Analysis, reasoning, and comprehensive responses" 2 3
                "answer")
  /\ snd r = 1%nat
  /\ fst (fst (consultAI (tz := utc) sampleEnvironment sampleOutside "gpt4"
                 "hello" None (newServer 0 NoFile) O))
     = Threw (ErrorObject "API key not configured for GPT-4 (OpenAI)")
  /\ fst (fst (consultAI (tz := utc) sampleEnvironment sampleOutside
                 "toString" "hello" None (newServer 0 NoFile) O))
     = Threw (ErrorObject "API key not configured for toString").
Proof. vm_compute. repeat split; reflexivity. Qed.

(** The limit is reached at the instant 3600000, and one millisecond
    later, when getRemainingCalls reads the clock, the window is over. *)
Example consultAI_limit_across_window :
  let exhausted :=
    mkServer (ConversationHistoryManager.constructor NoFile) None
      (<["claude"%string := mkTracker "claude" 3 0 3]>
         (ProviderCallManager.constructor 0)) in
  let out :=
    mkOutside nat 3600000 3600001 10 10 10 10 10 bareWorkspace sampleFiles
              sampleISO true
              (fun n => (HttpOk true (Returned "answer"%string), S n)) in
  fst (fst (consultAI (tz := utc) sampleEnvironment out "claude" "hello"
              None exhausted O))
  = Returned (LimitReached "Claude" 3).
Proof. vm_compute. reflexivity. Qed.

Lemma served_within_limits_witness :
  match providerCallManager
          (snd (fst (consultAI (tz := utc) sampleEnvironment sampleOutside
                       "claude" "hello" None (newServer 0 NoFile) O)))
        !! "claude"%string with
  | Some tr => maxCalls tr = 3 /\ 0 <= calls tr <= 3
  | None => True
  end.
Proof.
  destruct (_ !! "claude"%string) as [tr|] eqn:Hp; [|exact I].
  exact (proj1 (served_within_limits (tz := utc) sampleEnvironment _
                  (served_consult sampleEnvironment sampleOutside "claude"
                     "hello" None _ O
                     (served_new sampleEnvironment 0 NoFile)))
               _ _ Hp).
Defined.

End ConsultSamples.
